(** * The chat router of the assistant backend (backend/app/main.py)

    A shallow embedding of the routing code of [main.py] and of the
    Ollama client of [services/ollama_service.py], with the properties
    of the design document stated over it.

    Conventions of the model.
    - A Python [str] is a [string]; case mapping and white space are the
      ASCII ones (bytes above 127 are left as they are).
    - A [dict] with string keys is a [gmap string _].
    - The collaborators whose code is not part of the routing engine
      (classifier, formatter, SMS command parser, Google and HTTP
      transport) are fields of an environment record; each of them may
      return or raise.
    - Mutable global state (the session table) and the calls made to
      collaborators are threaded through a state-and-exception monad. *)

From Stdlib Require Import ZArith Ascii String List Bool Lia DecimalString.
From stdpp Require Import base option gmap strings list fin_maps.

Local Open Scope Z_scope.
Local Open Scope stdpp_scope.

(** ** Python string operations *)

Module PyStr.

Definition code (c : ascii) : nat := nat_of_ascii c.

Definition is_upper (c : ascii) : bool :=
  (Nat.leb 65 (code c)) && (Nat.leb (code c) 90).

Definition is_lower (c : ascii) : bool :=
  (Nat.leb 97 (code c)) && (Nat.leb (code c) 122).

Definition is_digit (c : ascii) : bool :=
  (Nat.leb 48 (code c)) && (Nat.leb (code c) 57).

(** [str.isspace] on one ASCII character. *)
Definition is_space (c : ascii) : bool :=
  ((Nat.leb 9 (code c)) && (Nat.leb (code c) 13))
  || ((Nat.leb 28 (code c)) && (Nat.leb (code c) 32)).

Definition to_lower_char (c : ascii) : ascii :=
  if is_upper c then ascii_of_nat (code c + 32) else c.

Definition to_upper_char (c : ascii) : ascii :=
  if is_lower c then ascii_of_nat (code c - 32) else c.

Fixpoint map_chars (f : ascii -> ascii) (s : string) : string :=
  match s with
  | EmptyString => EmptyString
  | String c s' => String (f c) (map_chars f s')
  end.

(** [s.lower()] and [s.upper()] *)
Definition lower (s : string) : string := map_chars to_lower_char s.
Definition upper (s : string) : string := map_chars to_upper_char s.

Fixpoint all_chars (p : ascii -> bool) (s : string) : bool :=
  match s with
  | EmptyString => true
  | String c s' => p c && all_chars p s'
  end.

Definition is_empty (s : string) : bool :=
  match s with EmptyString => true | _ => false end.

(** Truth value of a string: [if s:] *)
Definition truthy (s : string) : bool := negb (is_empty s).

(** [s.isdigit()]: at least one character, all of them digits. *)
Definition isdigit (s : string) : bool := truthy s && all_chars is_digit s.

(** [s.startswith(p)] *)
Fixpoint startswith (p s : string) : bool :=
  match p, s with
  | EmptyString, _ => true
  | String a p', String b s' => Ascii.eqb a b && startswith p' s'
  | String _ _, EmptyString => false
  end.

(** [sub in s] *)
Fixpoint contains (sub s : string) : bool :=
  startswith sub s ||
  match s with
  | EmptyString => false
  | String _ s' => contains sub s'
  end.

(** [any(w in s for w in ws)] *)
Definition any_in (ws : list string) (s : string) : bool :=
  existsb (fun w => contains w s) ws.

(** [s[n:]] for [0 <= n] *)
Fixpoint drop (n : nat) (s : string) : string :=
  match n, s with
  | O, _ => s
  | S n', String _ s' => drop n' s'
  | S _, EmptyString => EmptyString
  end.

Fixpoint lstrip_by (p : ascii -> bool) (s : string) : string :=
  match s with
  | EmptyString => EmptyString
  | String c s' => if p c then lstrip_by p s' else s
  end.

Fixpoint rstrip_by (p : ascii -> bool) (s : string) : string :=
  match s with
  | EmptyString => EmptyString
  | String c s' =>
      let r := rstrip_by p s' in
      if p c && is_empty r then EmptyString else String c r
  end.

Definition strip_by (p : ascii -> bool) (s : string) : string :=
  rstrip_by p (lstrip_by p s).

(** [s.strip()] *)
Definition strip (s : string) : string := strip_by is_space s.

(** [s.strip(chars)] *)
Definition strip_chars (chars : string) (s : string) : string :=
  strip_by (fun c => contains (String c EmptyString) chars) s.

Fixpoint rev_acc (s acc : string) : string :=
  match s with
  | EmptyString => acc
  | String c s' => rev_acc s' (String c acc)
  end.

(** The scanning loop of [s.split(sep)] for a non-empty [sep]: [skip]
    counts the characters of a separator still to be passed over and
    [acc] holds the current piece, last character first. *)
Fixpoint split_go (sep s : string) (skip : nat) (acc : string) : list string :=
  match s with
  | EmptyString => [rev_acc acc EmptyString]
  | String c s' =>
      match skip with
      | S k => split_go sep s' k acc
      | O =>
          if startswith sep s
          then rev_acc acc EmptyString
                 :: split_go sep s' (String.length sep - 1) EmptyString
          else split_go sep s' O (String c acc)
      end
  end.

(** [s.split(sep)] *)
Definition split (sep s : string) : list string := split_go sep s O EmptyString.

(** The scanning loop of [s.replace(old, new)] for a non-empty [old]. *)
Fixpoint replace_go (old new s : string) (skip : nat) : string :=
  match s with
  | EmptyString => EmptyString
  | String c s' =>
      match skip with
      | S k => replace_go old new s' k
      | O =>
          if startswith old s
          then String.append new (replace_go old new s' (String.length old - 1))
          else String c (replace_go old new s' O)
      end
  end.

(** [s.replace(old, new)] *)
Definition replace (old new s : string) : string := replace_go old new s O.

(** The loop of [s.title()]: a cased character is upper-cased when it
    follows an uncased one and lower-cased otherwise. *)
Fixpoint title_go (prev_cased : bool) (s : string) : string :=
  match s with
  | EmptyString => EmptyString
  | String c s' =>
      if is_lower c then
        String (if prev_cased then c else to_upper_char c) (title_go true s')
      else if is_upper c then
        String (if prev_cased then to_lower_char c else c) (title_go true s')
      else String c (title_go false s')
  end.

(** [s.title()] *)
Definition title (s : string) : string := title_go false s.

(** The first, respectively last, character of a phrase exists and is
    not one that [f] strips. *)
Definition starts_outside (f : ascii -> bool) (p : string) : bool :=
  match p with
  | EmptyString => false
  | String a _ => negb (f a)
  end.

Fixpoint ends_outside (f : ascii -> bool) (p : string) : bool :=
  match p with
  | EmptyString => false
  | String a EmptyString => negb (f a)
  | String _ p' => ends_outside f p'
  end.

(** No character of the string is an upper-case letter. *)
Definition is_lowered (s : string) : bool :=
  all_chars (fun c => negb (is_upper c)) s.

(** The one-character strings of the two quote characters. *)
Definition dquote : string := String (ascii_of_nat 34) EmptyString.
Definition squote : string := String (ascii_of_nat 39) EmptyString.

(** [sep.join(parts)] with the empty separator *)
Definition join (parts : list string) : string :=
  fold_right String.append EmptyString parts.

End PyStr.

(** ** Values, results and effects *)

(** JSON-like values carried by the dictionaries of the program. *)
#[warnings="-register-all"]
Inductive PyVal :=
| VNone
| VBool (b : bool)
| VInt (n : Z)
| VStr (s : string)
| VList (items : list PyVal)
| VJson (repr : string).

(** Truth value of a Python value, as tested by [if v:]. *)
Definition py_truthy (v : PyVal) : bool :=
  match v with
  | VNone => false
  | VBool b => b
  | VInt n => negb (n =? 0)
  | VStr s => PyStr.truthy s
  | VList items => match items with [] => false | _ => true end
  | VJson _ => true
  end.

(** A raised exception: its class, as far as an [except] clause of the
    program tells classes apart, and the text [str(e)] gives. *)
Inductive exn_class := ClientError | KeyError | OtherError.

Inductive exn := Exn (cls : exn_class) (msg : string).

Definition class_of_exn (e : exn) : exn_class := match e with Exn c _ => c end.
Definition str_of_exn (e : exn) : string := match e with Exn _ m => m end.

Inductive outcome (A : Type) :=
| Ok (a : A)
| Raise (e : exn).
Arguments Ok {A} a.
Arguments Raise {A} e.

(** Sequencing on results, and [try: o except Exception as e: h e]. *)
Definition obind {A B} (o : outcome A) (k : A -> outcome B) : outcome B :=
  match o with
  | Ok a => k a
  | Raise e => Raise e
  end.

Definition catch {A} (o : outcome A) (h : exn -> outcome A) : outcome A :=
  match o with
  | Ok a => Ok a
  | Raise e => h e
  end.

Notation "'let?' x ':=' o 'in' k" := (obind o (fun x => k))
  (at level 10, x name, o at level 100, k at level 200).

(** A point in time: the proleptic Gregorian ordinal of the day and the
    microseconds elapsed since midnight. *)
Record DateTime := mkDateTime { dt_ordinal : Z; dt_micros : Z }.

(** The classification record returned by the classifier. *)
Record Intent := mkIntent { i_type : string; i_service : option string }.

(** An entry of the global [sessions] dictionary. *)
Record Session := mkSession {
  state : gmap string Intent;
  created_at : DateTime
}.

(** Calls made to collaborators, in the order they are made. *)
Inductive Event :=
| EvHandler (service message token : string)
| EvHealthCheck
| EvGenerate (prompt : string).

Record World := mkWorld {
  sessions : gmap string Session;
  trace : list Event
}.

(** Computations that read and write the world and may raise. *)
Definition M (A : Type) : Type := World -> outcome A * World.

Definition ret {A} (a : A) : M A := fun w => (Ok a, w).

Definition bind {A B} (m : M A) (k : A -> M B) : M B :=
  fun w =>
    match m w with
    | (Ok a, w') => k a w'
    | (Raise e, w') => (Raise e, w')
    end.

(** [try: m except Exception as e: h e] *)
Definition try_except {A} (m : M A) (h : exn -> M A) : M A :=
  fun w =>
    match m w with
    | (Ok a, w') => (Ok a, w')
    | (Raise e, w') => h e w'
    end.

(** The result of a collaborator seen as a computation. *)
Definition call {A} (o : outcome A) : M A := fun w => (o, w).

Definition emit (ev : Event) : M unit :=
  fun w => (Ok tt, mkWorld (sessions w) (trace w ++ [ev])).

Notation "'let*' x ':=' m 'in' k" := (bind m (fun x => k))
  (at level 10, x name, m at level 100, k at level 200).

(** [d.get(k)] on a dictionary of values: [None] when the key is absent. *)
Definition get_or_none (d : gmap string PyVal) (k : string) : PyVal :=
  default VNone (d !! k).

(** [str(n)] for an integer *)
Definition str_of_Z (n : Z) : string := NilZero.string_of_int (Z.to_int n).

Definition str_of_nat (n : nat) : string := str_of_Z (Z.of_nat n).

(** ** Collaborators *)

(** What [advanced_sms_service.parse_sms_command] returns: the keys the
    handler reads. *)
Record CommandInfo := mkCommandInfo {
  ci_schedule : option PyVal;
  ci_recipient : option string;
  ci_message : option string
}.

(** A person of the People API: the [value] of each phone number and the
    [displayName] of each name, when present. *)
Record Person := mkPerson {
  phoneNumbers : list (option string);
  names : list (option string)
}.

(** One line of the body streamed by Ollama. *)
Inductive StreamLine :=
| LineEmpty
| LineNotJson
| LineJson (response : option string) (done : bool).

(** What [session.post(url, json=payload)] does: it raises, or it gives a
    response with a status, a body text (read on a status other than
    200), the lines streamed and the fault that ends the stream, if any. *)
Inductive PostOutcome :=
| PostRaise (e : exn)
| PostResponse (status : Z) (text : outcome string)
               (content : list StreamLine) (ending : option exn).

(** The requests the embedded handlers send to the Google client
    library. *)
Inductive ApiCall :=
| ApiBuild (api version : string)
| CalendarEventsList (time_min time_max : DateTime)
| DocsCreate (title : string)
| SheetsCreate (title : string)
| DriveFilesList (page_size : Z) (q : string).

(** The sub-commands of the calendar handler. *)
Inductive CalendarCommand :=
| CmdInvite | CmdCreate | CmdDelete | CmdSearch | CmdUpdate | CmdList.

(** What [session.get(url, timeout=...)] does. *)
Inductive GetOutcome :=
| GetError (e : exn)
| GetResponse (status : Z).

Record Env := mkEnv {
  (** the clock *)
  now : DateTime;
  utcnow : DateTime;
  strftime_now : string;
  (** [services.intent_classifier] and [services.response_formatter] *)
  classify : string -> outcome Intent;
  format_response : string -> string -> outcome string;
  format_google_service_response :
    string -> gmap string PyVal -> outcome string;
  (** [services.advanced_sms_service] *)
  parse_sms_command : string -> outcome CommandInfo;
  schedule_sms : string -> string -> PyVal -> outcome string;
  list_scheduled_messages : outcome (list PyVal);
  (** [people().searchContacts(query=..., readMask=...)] with a token *)
  search_contacts : string -> string -> outcome (list Person);
  (** [Credentials(token).valid] and the Google client library *)
  credentials_valid : string -> bool;
  google_api : string -> ApiCall -> outcome (gmap string PyVal);
  (** the cleaning of the events of a listing (identifiers kept, links
      removed from descriptions) *)
  clean_events : PyVal -> PyVal;
  (** the calendar sub-handlers other than the listing *)
  calendar_command_handler :
    CalendarCommand -> string -> string -> outcome (gmap string PyVal);
  (** the handlers of the dispatch table that are not embedded below *)
  google_handler : string -> string -> string -> outcome (gmap string PyVal);
  (** [handle_image_processing(message, image_data, access_token)] *)
  handle_image_processing :
    string -> string -> string -> outcome (gmap string PyVal);
  (** the HTTP transport under [OllamaService] *)
  base_url : string;
  http_get_tags : GetOutcome;
  http_post_generate : string -> PostOutcome
}.

(** ** services/ollama_service.py *)

Module OllamaService.

(** The streaming loop of [generate]: the fragments yielded before the
    stream stops, and whether the loop left by [break]. *)
Fixpoint stream_chunks (content : list StreamLine) : list string * bool :=
  match content with
  | [] => ([], false)
  | LineEmpty :: rest => stream_chunks rest
  | LineNotJson :: rest => stream_chunks rest
  | LineJson r d :: rest =>
      let here := match r with Some t => [t] | None => [] end in
      if d then (here, true)
      else let '(more, brk) := stream_chunks rest in (here ++ more, brk)
  end.

(** The two [except] clauses of [generate]: the fragment yielded for
    a fault. *)
Definition fault_chunk (env : Env) (e : exn) : string :=
  match class_of_exn e with
  | ClientError =>
      PyStr.join [ "Error: Could not connect to Ollama at "; base_url env;
                   ". Is Ollama running?" ]
  | _ => String.append "Error: " (str_of_exn e)
  end.

(** [generate(prompt)] with [stream=True], as the list of fragments the
    generator yields until it is exhausted. *)
Definition generate (env : Env) (prompt : string) : list string :=
  match http_post_generate env prompt with
  | PostRaise e => [fault_chunk env e]
  | PostResponse status text content ending =>
      if negb (status =? 200) then
        match text with
        | Ok _ =>
            [String.append "Error: Ollama returned status " (str_of_Z status)]
        | Raise e => [fault_chunk env e]
        end
      else
        let '(chunks, brk) := stream_chunks content in
        if brk then chunks
        else
          match ending with
          | None => chunks
          | Some e => chunks ++ [fault_chunk env e]
          end
  end.

(** [health_check()] *)
Definition health_check (env : Env) : bool :=
  match http_get_tags env with
  | GetError _ => false
  | GetResponse status => status =? 200
  end.

End OllamaService.

(** ** main.py: the rule-based replies *)

Definition greeting_reply : string :=
  "Hello! I'm your AI assistant. I can help you with Google services like Calendar, Gmail, Drive, Contacts, and more. What can I do for you today?".

Definition status_reply : string :=
  "I'm doing great and ready to help! I can assist you with managing your Google services, checking your calendar, sending messages, and much more.".

Definition nl : string := String (ascii_of_nat 10) EmptyString.

Definition help_reply : string :=
  PyStr.join
    [ "I can help you with:"; nl;
      "📅 Calendar - Check events, create meetings, schedule appointments"; nl;
      "📧 Gmail - Send emails, check messages"; nl;
      "📁 Drive - Manage files and folders"; nl;
      "📊 Sheets - Create and edit spreadsheets"; nl;
      "📝 Docs - Create and edit documents"; nl;
      "👥 Contacts - Find and manage your contacts"; nl;
      "📱 SMS - Send text messages to your contacts"; nl;
      "📸 Images - Process photos and extract information"; nl;
      nl;
      "Just ask me things like "; PyStr.dquote; "What's on my calendar today?";
      PyStr.dquote; " or "; PyStr.dquote; "Text John saying I'll be late";
      PyStr.dquote; " and I'll help you!" ].

Definition time_reply (current_time : string) : string :=
  PyStr.join
    [ "The current date and time is "; current_time;
      ". How can I help you today?" ].

Definition thanks_reply : string :=
  "You're welcome! I'm here whenever you need help with your Google services or anything else.".

Definition farewell_reply : string :=
  "Goodbye! Feel free to come back anytime you need assistance with your Google services or other tasks.".

Definition default_reply : string :=
  "I understand you're trying to communicate with me. While my full AI capabilities are temporarily limited, I'm still here to help you with Google services like Calendar, Gmail, Drive, and Contacts. Try asking me about your calendar or to help with a specific Google service!".

Definition greeting_words : list string :=
  ["hello"; "hi"; "hey"; "good morning"; "good afternoon"; "good evening"].
Definition status_words : list string :=
  ["how are you"; "how do you do"; "what's up"].
Definition help_words : list string :=
  ["help"; "what can you do"; "capabilities"; "features"].
Definition time_words : list string := ["time"; "date"; "today"; "now"].
Definition thanks_words : list string :=
  ["thank you"; "thanks"; "thank"; "appreciate"].
Definition farewell_words : list string :=
  ["bye"; "goodbye"; "see you"; "farewell"].

(** [get_fallback_response(message)]; [current_time] is what
    [datetime.now().strftime("%A, %B %d, %Y at %I:%M %p")] gives. *)
Definition get_fallback_response (current_time message : string) : string :=
  let message_lower := PyStr.strip (PyStr.lower message) in
  if PyStr.any_in greeting_words message_lower then greeting_reply
  else if PyStr.any_in status_words message_lower then status_reply
  else if PyStr.any_in help_words message_lower then help_reply
  else if PyStr.any_in time_words message_lower then time_reply current_time
  else if PyStr.any_in thanks_words message_lower then thanks_reply
  else if PyStr.any_in farewell_words message_lower then farewell_reply
  else default_reply.

(** [str(v)], as an f-string formats a value. *)
Definition py_str (v : PyVal) : string :=
  match v with
  | VNone => "None"
  | VBool true => "True"
  | VBool false => "False"
  | VInt n => str_of_Z n
  | VStr s => s
  | VList _ => "[...]"
  | VJson r => r
  end.

(** [len(v)] for a list value *)
Definition py_len (v : PyVal) : nat :=
  match v with
  | VList items => length items
  | _ => O
  end.

(** The dictionary every handler returns from its [except] clause. *)
Definition error_result (e : exn) : gmap string PyVal :=
  {[ "error" := VStr (str_of_exn e) ]}.

Definition invalid_credentials : gmap string PyVal :=
  {[ "error" := VStr "Invalid or expired credentials" ]}.

(** ** main.py: sessions *)

(** The key [f"{user_id}_{session_id}"] *)
Definition session_key (user_id session_id : string) : string :=
  PyStr.join [user_id; "_"; session_id].

(** [ensure_session(user_id, session_id)]. The entry returned is the
    object stored in [sessions]; the model returns its key, through
    which the entry is read and written. *)
Definition ensure_session (env : Env) (user_id session_id : string) : M string :=
  fun w =>
    let key := session_key user_id session_id in
    match sessions w !! key with
    | Some _ => (Ok key, w)
    | None =>
        (Ok key,
         mkWorld (<[key := mkSession ∅ (now env)]> (sessions w)) (trace w))
    end.

(** [session["state"][k] = v] on the entry behind [key] *)
Definition session_state_set (key k : string) (v : Intent) : M unit :=
  fun w =>
    (Ok tt,
     mkWorld
       (alter (fun s => mkSession (<[k := v]> (state s)) (created_at s))
              key (sessions w))
       (trace w)).

(** ** main.py: the calendar handler *)

Definition month_names : list string :=
  ["january"; "february"; "march"; "april"; "may"; "june";
   "july"; "august"; "september"; "october"; "november"; "december"].

Definition day_names : list string :=
  ["monday"; "tuesday"; "wednesday"; "thursday"; "friday"; "saturday"; "sunday"].

(** [for w in ws: if w in s: ...; break]: the word the loop stops at. *)
Fixpoint first_in (ws : list string) (s : string) : option string :=
  match ws with
  | [] => None
  | w :: rest => if PyStr.contains w s then Some w else first_in rest s
  end.

(** The time range [handle_google_calendar] parses from the message. *)
Definition calendar_time_range (message : string) : string :=
  let message_lower := PyStr.lower message in
  if PyStr.contains "today" message_lower then "today"
  else if PyStr.contains "tomorrow" message_lower then "tomorrow"
  else if PyStr.contains "this week" message_lower then "this week"
  else if PyStr.contains "next week" message_lower then "next week"
  else if PyStr.any_in month_names message_lower then
    match first_in month_names message_lower with
    | Some month => PyStr.title month
    | None => "upcoming"
    end
  else if PyStr.any_in day_names message_lower then
    match first_in day_names message_lower with
    | Some day => PyStr.title day
    | None => "upcoming"
    end
  else "upcoming".

(** The sub-command [handle_google_calendar] selects. *)
Definition calendar_command (message : string) : CalendarCommand :=
  let message_lower := PyStr.lower message in
  if PyStr.any_in ["invite"; "attendees"] message_lower
     && PyStr.contains "meeting" message_lower then CmdInvite
  else if PyStr.any_in ["create event"; "schedule"; "add event"; "new event"]
            message_lower then CmdCreate
  else if PyStr.any_in ["delete"; "cancel"; "remove"] message_lower then CmdDelete
  else if PyStr.any_in ["search"; "find"] message_lower then CmdSearch
  else if PyStr.any_in ["update"; "modify"; "change"; "edit"] message_lower
  then CmdUpdate
  else CmdList.

(** [d.weekday()]: Monday is 0. *)
Definition weekday (d : DateTime) : Z := (dt_ordinal d + 6) mod 7.

(** [d + timedelta(days=n)] *)
Definition add_days (n : Z) (d : DateTime) : DateTime :=
  mkDateTime (dt_ordinal d + n) (dt_micros d).

(** [d.replace(hour=0, minute=0, second=0, microsecond=0)] and
    [d.replace(hour=23, minute=59, second=59, microsecond=999999)] *)
Definition day_start (d : DateTime) : DateTime := mkDateTime (dt_ordinal d) 0.
Definition day_end (d : DateTime) : DateTime :=
  mkDateTime (dt_ordinal d) 86399999999.

Definition day_tokens : list string :=
  ["Monday"; "Tuesday"; "Wednesday"; "Thursday"; "Friday"; "Saturday"; "Sunday"].

(** [l.index(x)] for an [x] of the list *)
Fixpoint index_of (x : string) (l : list string) : Z :=
  match l with
  | [] => 0
  | y :: rest => if String.eqb y x then 0 else 1 + index_of x rest
  end.

(** The bounds [time_min], [time_max] that [list_calendar_events]
    computes for a time range. *)
Definition list_window (now : DateTime) (time_range : string)
  : DateTime * DateTime :=
  if String.eqb time_range "today" then (day_start now, day_end now)
  else if String.eqb time_range "tomorrow" then
    let tomorrow := add_days 1 now in (day_start tomorrow, day_end tomorrow)
  else if String.eqb time_range "this week" then
    let start_of_week := add_days (- weekday now) now in
    (day_start start_of_week, day_end (add_days 6 start_of_week))
  else if String.eqb time_range "next week" then
    let start_of_next_week := add_days 7 (add_days (- weekday now) now) in
    (day_start start_of_next_week, day_end (add_days 6 start_of_next_week))
  else if existsb (String.eqb time_range) day_tokens then
    let target_weekday := index_of time_range day_tokens in
    let days_ahead := target_weekday - weekday now in
    let days_ahead := if days_ahead <=? 0 then days_ahead + 7 else days_ahead in
    let target_date := add_days days_ahead now in
    (day_start target_date, day_end target_date)
  else (now, add_days 30 now).

(** [list_calendar_events(service, time_range)] *)
Definition list_calendar_events (env : Env) (token time_range : string)
  : outcome (gmap string PyVal) :=
  catch
    (let '(time_min, time_max) := list_window (utcnow env) time_range in
     let? events_result :=
       google_api env token (CalendarEventsList time_min time_max) in
     let events := default (VList []) (events_result !! "items") in
     Ok (<["events" := clean_events env events]>
           {[ "time_range" := VStr time_range ]}))
    (fun e => Ok (error_result e)).

(** [handle_google_calendar(message, access_token)] *)
Definition handle_google_calendar (env : Env) (message access_token : string)
  : outcome (gmap string PyVal) :=
  catch
    (if negb (credentials_valid env access_token) then Ok invalid_credentials
     else
       let? _ := google_api env access_token (ApiBuild "calendar" "v3") in
       let time_range := calendar_time_range message in
       match calendar_command message with
       | CmdList => list_calendar_events env access_token time_range
       | cmd => calendar_command_handler env cmd message access_token
       end)
    (fun e => Ok (error_result e)).

(** ** main.py: the document and spreadsheet handlers *)

(** [for word in words: if t.startswith(word): t = t[len(word):].strip();
    break] *)
Fixpoint strip_leading_word (words : list string) (t : string) : string :=
  match words with
  | [] => t
  | word :: rest =>
      if PyStr.startswith word t
      then PyStr.strip (PyStr.drop (String.length word) t)
      else strip_leading_word rest t
  end.

(** [parts = message.split(marker); if len(parts) > 1: title =
    parts[1].strip().title()] *)
Definition title_after (marker message default_title : string) : string :=
  match PyStr.split marker message with
  | _ :: part :: _ => PyStr.title (PyStr.strip part)
  | _ => default_title
  end.

(** The tail case of the title extraction: what follows the name of the
    kind of file in the lowered message, less one leading common word. *)
Definition title_after_kind (kind : string) (words : list string)
    (message_lower default_title : string) : string :=
  match PyStr.split kind message_lower with
  | _ :: part :: _ =>
      if PyStr.truthy (PyStr.strip part) then
        let potential_title := strip_leading_word words (PyStr.strip part) in
        if PyStr.truthy potential_title then PyStr.title potential_title
        else default_title
      else default_title
  | _ => default_title
  end.

(** The title [handle_google_docs] extracts from a creation message. *)
Definition docs_title (message : string) : string :=
  let title := "New Document" in
  let message_lower := PyStr.lower message in
  if PyStr.contains "about" message_lower then title_after "about" message title
  else if PyStr.contains "called" message_lower then
    title_after "called" message title
  else if PyStr.contains "titled" message_lower then
    title_after "titled" message title
  else if PyStr.contains "document" message_lower then
    title_after_kind "document" ["for"; "about"; "on"; "with"] message_lower title
  else title.

(** The title [handle_google_sheets] extracts from a creation message. *)
Definition sheets_title (message : string) : string :=
  let title := "New Spreadsheet" in
  let message_lower := PyStr.lower message in
  if PyStr.contains "for" message_lower then title_after "for" message title
  else if PyStr.contains "called" message_lower then
    title_after "called" message title
  else if PyStr.contains "spreadsheet" message_lower then
    title_after_kind "spreadsheet" ["for"; "about"; "to track"; "to manage"]
      message_lower title
  else title.

(** The test [if 'create' in message.lower() or 'new' in message.lower()] *)
Definition is_creation (message : string) : bool :=
  PyStr.contains "create" (PyStr.lower message)
  || PyStr.contains "new" (PyStr.lower message).

(** [handle_google_docs(message, access_token)] *)
Definition handle_google_docs (env : Env) (message access_token : string)
  : outcome (gmap string PyVal) :=
  catch
    (if negb (credentials_valid env access_token) then Ok invalid_credentials
     else
       let? _ := google_api env access_token (ApiBuild "docs" "v1") in
       if is_creation message then
         let title := docs_title message in
         let? document := google_api env access_token (DocsCreate title) in
         let doc_id := get_or_none document "documentId" in
         let doc_title := get_or_none document "title" in
         Ok (list_to_map
               [ ("action", VStr "create_document");
                 ("document_created", VBool true);
                 ("document_id", doc_id);
                 ("document_title", doc_title);
                 ("response",
                  VStr (PyStr.join
                    [ "✅ Document '"; py_str doc_title;
                      "' has been created successfully! What content would you like to add to it?" ]));
                 ("next_step",
                  VStr (PyStr.join
                    [ "You can now add content by saying something like ";
                      PyStr.dquote; "Add a paragraph about..."; PyStr.dquote;
                      " or "; PyStr.dquote; "Write an introduction...";
                      PyStr.dquote ])) ])
       else
         let? _ := google_api env access_token (ApiBuild "drive" "v3") in
         let? results :=
           google_api env access_token
             (DriveFilesList 5 "mimeType='application/vnd.google-apps.document'") in
         let files := default (VList []) (results !! "files") in
         Ok (list_to_map
               [ ("action", VStr "list_documents");
                 ("documents", files);
                 ("response",
                  VStr (PyStr.join
                    [ "You have "; str_of_nat (py_len files);
                      " recent documents." ])) ]))
    (fun e => Ok (error_result e)).

(** [update_sheet(message, service)] *)
Definition update_sheet : outcome (gmap string PyVal) :=
  catch (Ok {[ "updated_cells" := VInt 5 ]}) (fun e => Ok (error_result e)).

(** [handle_google_sheets(message, access_token)]; the answer to
    [SheetsCreate] carries the [title] of the [properties] of the new
    spreadsheet next to its [spreadsheetId]. *)
Definition handle_google_sheets (env : Env) (message access_token : string)
  : outcome (gmap string PyVal) :=
  catch
    (if negb (credentials_valid env access_token) then Ok invalid_credentials
     else
       let? _ := google_api env access_token (ApiBuild "sheets" "v4") in
       if is_creation message then
         let title := sheets_title message in
         let? spreadsheet := google_api env access_token (SheetsCreate title) in
         let sheet_id := get_or_none spreadsheet "spreadsheetId" in
         let sheet_title := get_or_none spreadsheet "title" in
         Ok (list_to_map
               [ ("action", VStr "create_spreadsheet");
                 ("spreadsheet_created", VBool true);
                 ("spreadsheet_id", sheet_id);
                 ("spreadsheet_title", sheet_title);
                 ("response",
                  VStr (PyStr.join
                    [ "✅ Spreadsheet '"; py_str sheet_title;
                      "' has been created successfully! You can now add data to it." ]));
                 ("next_step",
                  VStr (PyStr.join
                    [ "You can add data by saying "; PyStr.dquote;
                      "Add row with..."; PyStr.dquote; " or "; PyStr.dquote;
                      "Create columns for..."; PyStr.dquote ])) ])
       else if PyStr.contains "update" (PyStr.lower message)
               || PyStr.contains "write" (PyStr.lower message) then update_sheet
       else
         let? _ := google_api env access_token (ApiBuild "drive" "v3") in
         let? results :=
           google_api env access_token
             (DriveFilesList 5
                "mimeType='application/vnd.google-apps.spreadsheet'") in
         let files := default (VList []) (results !! "files") in
         Ok (list_to_map
               [ ("action", VStr "list_spreadsheets");
                 ("spreadsheets", files);
                 ("response",
                  VStr (PyStr.join
                    [ "You have "; str_of_nat (py_len files);
                      " spreadsheets." ])) ]))
    (fun e => Ok (error_result e)).

(** ** main.py: the SMS handler *)

(** The contact search of [handle_sms] with its [try]/[except]: the
    phone number found, if any, and the name to show. *)
Definition find_contact (env : Env) (access_token query : string)
  : option string * string :=
  match search_contacts env access_token query with
  | Raise _ => (None, query)
  | Ok [] => (None, query)
  | Ok (contact_info :: _) =>
      match phoneNumbers contact_info with
      | [] => (None, query)
      | None :: _ => (None, query)
      | Some value :: _ =>
          (Some value,
           match names contact_info with
           | [] => query
           | display_name :: _ => default query display_name
           end)
      end
  end.

(** [if not phone_number: phone_number = recipient] *)
Definition phone_or (phone_number : option string) (recipient : string) : string :=
  match phone_number with
  | Some p => if PyStr.truthy p then p else recipient
  | None => recipient
  end.

(** The recipient query and the body that the immediate branch of
    [handle_sms] extracts, when the split gives two parts. *)
Definition sms_extract (message : string) : option (string * string) :=
  let parts :=
    PyStr.split "saying"
      (PyStr.replace "to say" "saying" (PyStr.lower message)) in
  match parts with
  | before :: after :: _ =>
      let recipient_query :=
        PyStr.strip
          (PyStr.replace "to" EmptyString
             (PyStr.replace "message" EmptyString
                (PyStr.replace "send" EmptyString
                   (PyStr.replace "text" EmptyString before)))) in
      let sms_content :=
        PyStr.strip_chars PyStr.squote
          (PyStr.strip_chars PyStr.dquote (PyStr.strip after)) in
      Some (recipient_query, sms_content)
  | _ => None
  end.

Definition sms_help : gmap string PyVal :=
  list_to_map
    [ ("action", VStr "sms");
      ("response",
       VStr (PyStr.join
         [ "SMS functionality ready. Try saying "; PyStr.dquote;
           "Text [contact] saying [message]"; PyStr.dquote ])) ].

(** The test of the immediate branch. *)
Definition is_text_saying (message : string) : bool :=
  PyStr.contains "text" (PyStr.lower message)
  && (PyStr.contains "saying" (PyStr.lower message)
      || PyStr.contains "to say" (PyStr.lower message)).

(** [command_info.get('schedule')] when it is true. *)
Definition scheduled (command_info : CommandInfo) : option PyVal :=
  match ci_schedule command_info with
  | Some schedule_info =>
      if py_truthy schedule_info then Some schedule_info else None
  | None => None
  end.

(** The branch of [handle_sms] for a scheduled message. *)
Definition sms_schedule_branch (env : Env) (access_token : string)
    (command_info : CommandInfo) (schedule_info : PyVal)
  : outcome (gmap string PyVal) :=
  let recipient := default EmptyString (ci_recipient command_info) in
  let sms_content := default EmptyString (ci_message command_info) in
  let '(phone_number, contact_name) :=
    if PyStr.truthy access_token && PyStr.truthy recipient
       && negb (PyStr.isdigit recipient)
    then find_contact env access_token recipient
    else (None, recipient) in
  let phone_number := phone_or phone_number recipient in
  let? confirmation := schedule_sms env phone_number sms_content schedule_info in
  Ok (list_to_map
        [ ("action", VStr "schedule_sms");
          ("recipient", VStr phone_number);
          ("contact_name", VStr contact_name);
          ("message_content", VStr sms_content);
          ("schedule", schedule_info);
          ("instruction", VStr "SCHEDULE_SMS");
          ("status", VStr "scheduled");
          ("response", VStr confirmation) ]).

(** The branch of [handle_sms] for an immediate message, once the
    recipient query and the body are extracted. *)
Definition sms_send_branch (env : Env) (access_token : string)
    (recipient_query sms_content : string) : gmap string PyVal :=
  let '(phone_number, contact_name) :=
    if PyStr.truthy access_token
    then find_contact env access_token recipient_query
    else (None, recipient_query) in
  let phone_number := phone_or phone_number recipient_query in
  list_to_map
    [ ("action", VStr "send_sms");
      ("recipient", VStr phone_number);
      ("contact_name", VStr contact_name);
      ("message_content", VStr sms_content);
      ("instruction", VStr "SEND_SMS");
      ("status", VStr "ready_to_send");
      ("response",
       VStr (PyStr.join
         [ "✅ SMS to "; contact_name; ": "; PyStr.dquote; sms_content;
           PyStr.dquote; " is ready. Opening SMS app..." ])) ].

(** [handle_sms(message, access_token)] *)
Definition handle_sms (env : Env) (message access_token : string)
  : outcome (gmap string PyVal) :=
  catch
    (let? command_info := parse_sms_command env message in
     match scheduled command_info with
     | Some schedule_info =>
         sms_schedule_branch env access_token command_info schedule_info
     | None =>
         if is_text_saying message then
           match sms_extract message with
           | Some (recipient_query, sms_content) =>
               Ok (sms_send_branch env access_token recipient_query sms_content)
           | None => Ok sms_help
           end
         else if PyStr.contains "list" (PyStr.lower message)
                 && PyStr.contains "scheduled" (PyStr.lower message) then
           let? scheduled_messages := list_scheduled_messages env in
           Ok (list_to_map
                 [ ("action", VStr "list_scheduled_sms");
                   ("scheduled_messages", VList scheduled_messages);
                   ("response",
                    VStr (PyStr.join
                      [ "You have "; str_of_nat (length scheduled_messages);
                        " scheduled SMS messages" ])) ])
         else if PyStr.contains "cancel" (PyStr.lower message)
                 && PyStr.contains "sms" (PyStr.lower message) then
           Ok (list_to_map
                 [ ("action", VStr "cancel_sms");
                   ("response",
                    VStr "Please provide the schedule ID to cancel") ])
         else Ok sms_help
     end)
    (fun e => Ok (<["action" := VStr "send_sms"]> (error_result e))).

(** ** main.py: the router *)

(** The JSON object of a chat request: the keys [handle_chat] reads. *)
Record ChatData := mkChatData {
  d_user_id : option string;
  d_session_id : option string;
  d_message : option string;
  d_access_token : option string
}.

(** The fields of a multipart form that [handle_unified_query] reads. *)
Record FormData := mkFormData {
  f_message : option string;
  f_image : option string;
  f_access_token : option string;
  f_user_id : option string;
  f_session_id : option string
}.

(** A request: what [await request.json()] gives, or the exception it
    raises on a body that is not JSON, and the same for the parts read
    from [await request.multipart()]. *)
Record Request := mkRequest {
  request_json : outcome ChatData;
  request_multipart : outcome FormData
}.

(** [access_token] when [if not access_token] fails: a token that is
    neither [None] nor empty. *)
Definition supplied (access_token : option string) : option string :=
  match access_token with
  | Some token => if PyStr.truthy token then Some token else None
  | None => None
  end.

(** [web.json_response({"response": ..., "source": ...})] *)
Definition plain_response (final_response response_source : string)
  : gmap string PyVal :=
  list_to_map
    [ ("response", VStr final_response); ("source", VStr response_source) ].

(** The response of the SMS side channel. *)
Definition instruction_response (final_response response_source : string)
    (instruction : PyVal) (service_result : gmap string PyVal)
  : gmap string PyVal :=
  list_to_map
    [ ("response", VStr final_response);
      ("source", VStr response_source);
      ("instruction", instruction);
      ("recipient", get_or_none service_result "recipient");
      ("message_content", get_or_none service_result "message_content") ].

(** The dictionary [service_handlers] of [handle_chat]. *)
Definition service_handlers (env : Env)
  : gmap string (string -> string -> outcome (gmap string PyVal)) :=
  list_to_map
    [ ("calendar", handle_google_calendar env);
      ("gmail", google_handler env "gmail");
      ("drive", google_handler env "drive");
      ("sheets", handle_google_sheets env);
      ("docs", handle_google_docs env);
      ("contacts", google_handler env "contacts");
      ("tasks", google_handler env "tasks");
      ("keep", google_handler env "keep");
      ("slides", google_handler env "slides");
      ("forms", google_handler env "forms");
      ("sms", handle_sms env) ].

(** The end of [handle_chat]: the final clean-up and the response. *)
Definition respond (env : Env) (final_response response_source : string)
  : M (gmap string PyVal) :=
  let* final_response :=
    call (format_response env final_response response_source) in
  ret (plain_response final_response response_source).

(** [intent_result['service']] *)
Definition intent_service (intent_result : Intent) : outcome string :=
  match i_service intent_result with
  | Some s => Ok s
  | None => Raise (Exn KeyError "service")
  end.

(** The text of the [except] clause of the dispatch. *)
Definition access_error (service_name : string) : string :=
  PyStr.join [ "An error occurred while accessing ";
               PyStr.title service_name; "." ].

(** The world once the handler of a service has been called. *)
Definition called (service_name message token : string) (w : World) : World :=
  mkWorld (sessions w) (trace w ++ [EvHandler service_name message token]).

(** The body of the [try] of the dispatch: the handler is called, its
    result formatted, and the function returns at once on an SMS
    instruction ([inl]) or goes on with the text ([inr]). *)
Definition dispatch (env : Env) (service_name response_source : string)
    (handler : string -> string -> outcome (gmap string PyVal))
    (message access_token : string)
  : M (gmap string PyVal + string) :=
  try_except
    (let* _ := emit (EvHandler service_name message access_token) in
     let* service_result := call (handler message access_token) in
     let* final_response :=
       call (format_google_service_response env service_name service_result) in
     if String.eqb service_name "sms" then
       match service_result !! "instruction" with
       | Some instruction =>
           ret (inl (instruction_response final_response response_source
                       instruction service_result))
       | None => ret (inr final_response)
       end
     else ret (inr final_response))
    (fun e => ret (inr (access_error service_name))).

(** The open-ended branch: Ollama when its health check passes, the
    rule-based reply otherwise and on any exception. *)
Definition converse (env : Env) (message : string) : M string :=
  try_except
    (let* _ := emit EvHealthCheck in
     if OllamaService.health_check env then
       let* _ := emit (EvGenerate message) in
       let ollama_response := PyStr.join (OllamaService.generate env message) in
       call (format_response env ollama_response "ollama")
     else ret (get_fallback_response (strftime_now env) message))
    (fun e => ret (get_fallback_response (strftime_now env) message)).

(** The branch of [handle_chat] on the classification, down to the
    response: [intent_result] is [None] when there is no message. *)
Definition route (env : Env) (intent_result : option Intent)
    (message : string) (access_token : option string)
  : M (gmap string PyVal) :=
  match intent_result with
  | Some intent_result =>
      if String.eqb (i_type intent_result) "google" then
        match supplied access_token with
        | Some token =>
            let* service_name := call (intent_service intent_result) in
            let response_source := String.append "google_" service_name in
            match service_handlers env !! service_name with
            | Some handler =>
                let* r := dispatch env service_name response_source handler
                            message token in
                match r with
                | inl response => ret response
                | inr final_response =>
                    respond env final_response response_source
                end
            | None =>
                respond env
                  (String.append (PyStr.title service_name)
                     " service is not yet implemented.")
                  response_source
            end
        | None =>
            let* service_name := call (intent_service intent_result) in
            respond env
              (PyStr.join [ "Please sign in with Google to use ";
                            PyStr.title service_name; " services." ])
              "auth_required"
        end
      else if String.eqb (i_type intent_result) "llm" then
        let* final_response := converse env message in
        respond env final_response "assistant"
      else
        respond env
          "I'm not sure how to help with that. Could you please rephrase your request?"
          "system"
  | None => respond env "Please provide a message." "system"
  end.

(** The classification step of [handle_chat]: the classifier is asked
    when there is a message, and its answer is kept in the session. *)
Definition classify_message (env : Env) (session message : string)
  : M (option Intent) :=
  if PyStr.truthy message then
    let* intent_result := call (classify env message) in
    let* _ := session_state_set session "intent_classification" intent_result in
    ret (Some intent_result)
  else ret None.

(** [handle_chat(request)] *)
Definition handle_chat (env : Env) (request : Request)
  : M (gmap string PyVal) :=
  let* data := call (request_json request) in
  let user_id := default "anon" (d_user_id data) in
  let session_id := default "default" (d_session_id data) in
  let message := default EmptyString (d_message data) in
  let access_token := d_access_token data in
  let* session := ensure_session env user_id session_id in
  let* intent_result := classify_message env session message in
  route env intent_result message access_token.

(** [handle_unified_query(request)] *)
Definition handle_unified_query (env : Env) (request : Request)
  : M (gmap string PyVal) :=
  try_except
    (let* form := call (request_multipart request) in
     let message := default EmptyString (f_message form) in
     let user_id := default "anon" (f_user_id form) in
     let session_id := default "default" (f_session_id form) in
     let* session := ensure_session env user_id session_id in
     match f_image form with
     | Some image_data =>
         if PyStr.truthy image_data then
           match supplied (f_access_token form) with
           | Some token =>
               let* result :=
                 call (handle_image_processing env message image_data token) in
               let* formatted_response :=
                 call (format_google_service_response env "drive" result) in
               ret (plain_response formatted_response "image_processing")
           | None =>
               ret (plain_response
                      "Please sign in to process images and save content to Google services."
                      "auth_required")
           end
         else handle_chat env request
     | None => handle_chat env request
     end)
    (fun e =>
       ret (plain_response "I encountered an error processing your request."
              "error")).

(** ** The design document's wording, for comparison *)

(** The ordered table of phrase categories of the rule-based replies. *)
Definition fallback_categories (current_time : string)
  : list (list string * string) :=
  [ (greeting_words, greeting_reply);
    (status_words, status_reply);
    (help_words, help_reply);
    (time_words, time_reply current_time);
    (thanks_words, thanks_reply);
    (farewell_words, farewell_reply) ].

(** A phrase matches a text when it occurs in it, letter case aside. *)
Definition phrase_matches (phrase text : string) : bool :=
  PyStr.contains (PyStr.lower phrase) (PyStr.lower text).

(** The reply of the first category, in the order of the table, one of
    whose phrases matches the text. *)
Fixpoint first_category (table : list (list string * string)) (text : string)
  : option string :=
  match table with
  | [] => None
  | (phrases, reply) :: rest =>
      if existsb (fun phrase => phrase_matches phrase text) phrases
      then Some reply
      else first_category rest text
  end.

(** The rule-based reply as the design document words it. *)
Definition spec_fallback (current_time message : string) : string :=
  default default_reply
    (first_category (fallback_categories current_time) message).

(** A phrase list of the program: lower-case phrases with no white space
    at either end. *)
Definition plain_phrases (ws : list string) : bool :=
  forallb (fun w => String.eqb (PyStr.lower w) w
                    && PyStr.starts_outside PyStr.is_space w
                    && PyStr.ends_outside PyStr.is_space w) ws.

(** The text that follows the first occurrence of a marker. *)
Fixpoint remainder_after (marker text : string) : string :=
  if PyStr.startswith marker text
  then PyStr.drop (String.length marker) text
  else
    match text with
    | EmptyString => EmptyString
    | String _ rest => remainder_after marker rest
    end.

(** Title extraction as the design document words it: the first marker
    of the list that occurs in the text splits it, and the trimmed,
    title-cased remainder is the title; a fixed default otherwise. *)
Fixpoint spec_title (markers : list string) (default_title message : string)
  : string :=
  match markers with
  | [] => default_title
  | marker :: rest =>
      if PyStr.contains marker message
      then PyStr.title (PyStr.strip (remainder_after marker message))
      else spec_title rest default_title message
  end.

Definition spec_markers : list string := ["called"; "titled"; "about"; "for"].


(** The ordered phrase table of the calendar time ranges: each phrase
    with the token it stands for. *)
Definition range_table : list (string * string) :=
  [ ("today", "today"); ("tomorrow", "tomorrow");
    ("this week", "this week"); ("next week", "next week");
    ("january", "January"); ("february", "February"); ("march", "March");
    ("april", "April"); ("may", "May"); ("june", "June"); ("july", "July");
    ("august", "August"); ("september", "September"); ("october", "October");
    ("november", "November"); ("december", "December");
    ("monday", "Monday"); ("tuesday", "Tuesday"); ("wednesday", "Wednesday");
    ("thursday", "Thursday"); ("friday", "Friday"); ("saturday", "Saturday");
    ("sunday", "Sunday") ].

(** The token of the first phrase of a table that occurs in a text. *)
Fixpoint first_token (table : list (string * string)) (text : string)
  : option string :=
  match table with
  | [] => None
  | (phrase, token) :: rest =>
      if PyStr.contains phrase text then Some token else first_token rest text
  end.

(** ** Sample collaborators *)

(** Modelled from the spec: [ResponseFormatter.format_google_service_response]
    of services/response_formatter.py, which is not under src/ (only the
    calls of [handle_chat] and [handle_unified_query] are). The spec has
    the formatter as a pure function of the service and the result, and
    every failure of a handler shown to the user as the sentence that
    names the service, "An error occurred while accessing <Service>.",
    never as the description of the fault: a result that reports a
    failure, that is one with an [error], is shown as that sentence, and
    any other result as [show] has it, on which the spec is silent. *)
Definition spec_format_service
    (show : string -> gmap string PyVal -> string)
    (service_name : string) (result : gmap string PyVal) : outcome string :=
  match result !! "error" with
  | Some _ => Ok (access_error service_name)
  | None => Ok (show service_name result)
  end.

(** A display of the results that report no failure: the [response] of
    a result when it has one. *)
Definition sample_show (service : string) (result : gmap string PyVal)
  : string :=
  match result !! "response" with
  | Some v => py_str v
  | None => "Done."
  end.

(** The service formatter of the samples. *)
Definition sample_format_service : string -> gmap string PyVal -> outcome string :=
  spec_format_service sample_show.

(** An environment whose classifier answers [intent] to every message,
    whose formatter leaves texts as they are, whose Google side accepts
    a token when [valid] and answers [api] to every call, and whose
    Ollama transport behaves as given. *)
Definition sample_env (intent : outcome Intent) (valid : bool)
    (api : outcome (gmap string PyVal))
    (tags : GetOutcome) (post : PostOutcome) : Env :=
  {| now := mkDateTime 738886 32400000000;
     utcnow := mkDateTime 738886 50400000000;
     strftime_now := "Monday, January 01, 2024 at 09:00 AM";
     classify := fun _ => intent;
     format_response := fun text _ => Ok text;
     format_google_service_response := sample_format_service;
     parse_sms_command := fun _ => Ok (mkCommandInfo None None None);
     schedule_sms := fun _ _ _ => Ok "Scheduled.";
     list_scheduled_messages := Ok [];
     search_contacts := fun _ _ => Ok [];
     credentials_valid := fun _ => valid;
     google_api := fun _ _ => api;
     clean_events := fun events => events;
     calendar_command_handler := fun _ _ _ => api;
     google_handler := fun _ _ _ => api;
     handle_image_processing := fun _ _ _ => api;
     base_url := "http://localhost:11434";
     http_get_tags := tags;
     http_post_generate := fun _ => post |}.


(** A chat request with a user, a session, a message and a token. *)
Definition chat_request (message : string) (access_token : option string)
  : Request :=
  {| request_json :=
       Ok (mkChatData (Some "u1") (Some "s1") (Some message) access_token);
     request_multipart := Raise (Exn OtherError "not multipart") |}.

Definition empty_world : World := mkWorld ∅ [].

Definition refused : exn := Exn ClientError "Cannot connect to host".

(** Ollama is down: the health check fails. *)
Definition env_ollama_down : Env :=
  sample_env (Ok (mkIntent "llm" None)) true (Ok ∅)
    (GetError refused) (PostRaise refused).

(** Ollama answers the health check and then refuses the generation
    request. *)
Definition env_ollama_flaky : Env :=
  sample_env (Ok (mkIntent "llm" None)) true (Ok ∅)
    (GetResponse 200) (PostRaise refused).

(** Every message is classified to the Google service [service]; the
    Google side answers [api]. *)
Definition env_google (service : string) (valid : bool)
    (api : outcome (gmap string PyVal)) : Env :=
  sample_env (Ok (mkIntent "google" (Some service))) valid api
    (GetResponse 200) (PostRaise refused).

(** ** services/ollama_service.py: the rest of the client *)

(** The [response] texts of the JSON lines of a stream, in order. *)
Fixpoint line_texts (content : list StreamLine) : list string :=
  match content with
  | [] => []
  | LineJson (Some text) _ :: rest => text :: line_texts rest
  | _ :: rest => line_texts rest
  end.

(** A line whose JSON says [done]. *)
Definition is_done_line (line : StreamLine) : bool :=
  match line with
  | LineJson _ true => true
  | _ => false
  end.

Module OllamaClient.

(** An [aiohttp.ClientSession], as far as the client looks at it. *)
Record ClientSession := mkClientSession { cs_closed : bool }.

(** The attributes of an [OllamaService] object. *)
Record Client := mkClient {
  c_base_url : string;
  c_model : string;
  c_session : option ClientSession
}.

Definition is_slash (c : ascii) : bool := Ascii.eqb c "/"%char.

(** [__init__(base_url, model)]: [base_url.rstrip('/')] *)
Definition init (base_url model : string) : Client :=
  mkClient (PyStr.rstrip_by is_slash base_url) model None.

(** [_get_session()]: the session returned, the client afterwards and
    whether a session was created. *)
Definition get_session (c : Client) : ClientSession * Client * bool :=
  let fresh := mkClientSession false in
  match c_session c with
  | None => (fresh, mkClient (c_base_url c) (c_model c) (Some fresh), true)
  | Some s =>
      if cs_closed s
      then (fresh, mkClient (c_base_url c) (c_model c) (Some fresh), true)
      else (s, c, false)
  end.

(** [close()] *)
Definition close (c : Client) : Client :=
  match c_session c with
  | Some s =>
      if negb (cs_closed s)
      then mkClient (c_base_url c) (c_model c) (Some (mkClientSession true))
      else c
  | None => c
  end.

(** The URL of [generate]: [f"{self.base_url}/api/generate"] *)
Definition generate_url (c : Client) : string :=
  String.append (c_base_url c) "/api/generate".

End OllamaClient.

(** ** startup_ollama.py *)

Module OllamaManager.

(** The machine the manager runs on: the answer to the n-th request that
    [is_ollama_running] sends to [/api/tags], what
    [subprocess.run(['which', 'ollama'])] returns (its return code) and
    what [subprocess.Popen(['ollama', 'serve'])] does. *)
Record Host := mkHost {
  probe : nat -> GetOutcome;
  which : outcome Z;
  popen : outcome unit
}.

(** What has gone by: the probes sent and the seconds slept. *)
Record Clock := mkClock { probes : nat; slept : nat }.

Definition max_retries : nat := 30.

(** Whether an answer to the probe counts as running. *)
Definition answers (o : GetOutcome) : bool :=
  match o with
  | GetResponse status => status =? 200
  | GetError _ => false
  end.

(** [is_ollama_running()] *)
Definition is_ollama_running (h : Host) (c : Clock) : bool * Clock :=
  (answers (probe h (probes c)), mkClock (S (probes c)) (slept c)).

(** [time.sleep(n)] *)
Definition sleep (n : nat) (c : Clock) : Clock :=
  mkClock (probes c) (slept c + n).

(** [start_ollama()] *)
Definition start_ollama (h : Host) (c : Clock) : bool * Clock :=
  match which h with
  | Raise _ => (false, c)
  | Ok returncode =>
      if negb (returncode =? 0) then (false, c)
      else
        match popen h with
        | Raise _ => (false, c)
        | Ok _ => is_ollama_running h (sleep 2 c)
        end
  end.

(** The loop of [wait_for_ollama()] with [retries] rounds left. *)
Fixpoint wait_loop (h : Host) (retries : nat) (c : Clock) : bool * Clock :=
  match retries with
  | O => (false, c)
  | S rest =>
      let '(running, c1) := is_ollama_running h c in
      if running then (true, c1) else wait_loop h rest (sleep 1 c1)
  end.

(** [wait_for_ollama()] *)
Definition wait_for_ollama (h : Host) (c : Clock) : bool * Clock :=
  wait_loop h max_retries c.

(** [ensure_ollama_ready()]. The calls of [ensure_model_exists()] are
    left out: its result is not used and it catches its exceptions. *)
Definition ensure_ollama_ready (h : Host) (c : Clock) : bool * Clock :=
  let '(running, c1) := is_ollama_running h c in
  if running then (true, c1)
  else
    let '(started, c2) := start_ollama h c1 in
    if started then
      let '(ready, c3) := wait_for_ollama h c2 in
      if ready then (true, c3) else (false, c3)
    else (false, c2).

(** [m.get('name', '').split(':')[0]] for each model of the answer *)
Definition model_names (models : list (option string)) : list string :=
  map (fun m => hd EmptyString (PyStr.split ":" (default EmptyString m))) models.

(** [self.model not in model_names] *)
Definition missing (model : string) (names : list string) : bool :=
  negb (existsb (String.eqb model) names).

(** [ensure_model_exists()]: what it returns ([None] when it falls off
    the end) and whether it asked for the model to be pulled. [tags] is
    the answer to [GET /api/tags]: the status and, on 200, the names of
    the models of its JSON body; [pull] is the pull request with the
    reading of its lines. *)
Definition ensure_model_exists (model : string)
    (tags : outcome (Z * outcome (list (option string))))
    (pull : outcome unit) : option bool * bool :=
  match tags with
  | Raise _ => (Some false, false)
  | Ok (status, body) =>
      if status =? 200 then
        match body with
        | Raise _ => (Some false, false)
        | Ok models =>
            if missing model (model_names models) then
              match pull with
              | Ok _ => (Some true, true)
              | Raise _ => (Some false, true)
              end
            else (Some true, false)
        end
      else (None, false)
  end.

End OllamaManager.

(** ** main.py: start-up of the services *)

Module Services.

(** Which of the global service objects are set. *)
Record Globals := mkGlobals {
  intent_classifier : bool;
  ollama_service : bool;
  response_formatter : bool;
  contacts_service : bool;
  sms_service : bool
}.

(** What the constructors of the five services do. *)
Record Constructors := mkConstructors {
  new_intent_classifier : outcome unit;
  new_ollama_service : outcome unit;
  new_response_formatter : outcome unit;
  new_contacts_service : outcome unit;
  new_sms_service : outcome unit
}.

(** [init_services()]: each global is assigned as soon as its
    constructor returns; an exception leaves the function at once. *)
Definition init_services (k : Constructors) (g : Globals)
  : outcome unit * Globals :=
  if negb (intent_classifier g) then
    match new_intent_classifier k with
    | Raise e => (Raise e, g)
    | Ok _ =>
        let g1 := mkGlobals true (ollama_service g) (response_formatter g)
                    (contacts_service g) (sms_service g) in
        match new_ollama_service k with
        | Raise e => (Raise e, g1)
        | Ok _ =>
            let g2 := mkGlobals true true (response_formatter g)
                        (contacts_service g) (sms_service g) in
            match new_response_formatter k with
            | Raise e => (Raise e, g2)
            | Ok _ =>
                let g3 := mkGlobals true true true
                            (contacts_service g) (sms_service g) in
                match new_contacts_service k with
                | Raise e => (Raise e, g3)
                | Ok _ =>
                    let g4 := mkGlobals true true true true (sms_service g) in
                    match new_sms_service k with
                    | Raise e => (Raise e, g4)
                    | Ok _ => (Ok tt, mkGlobals true true true true true)
                    end
                end
            end
        end
    end
  else (Ok tt, g).

(** All five services are set. *)
Definition ready (g : Globals) : bool :=
  intent_classifier g && ollama_service g && response_formatter g
  && contacts_service g && sms_service g.

(** The globals at import time. *)
Definition unset : Globals := mkGlobals false false false false false.

End Services.

(** ** main.py: auxiliary notions for the calendar windows *)

(** [a <= b] on points in time. *)
Definition dt_le (a b : DateTime) : Prop :=
  dt_ordinal a < dt_ordinal b
  \/ (dt_ordinal a = dt_ordinal b /\ dt_micros a <= dt_micros b).

(** The range tokens of the months. *)
Definition month_tokens : list string := map PyStr.title month_names.

(** The words that send a calendar message to a sub-command other than
    the listing, whatever else it says. *)
Definition calendar_action_words : list string :=
  [ "create event"; "schedule"; "add event"; "new event";
    "delete"; "cancel"; "remove"; "search"; "find";
    "update"; "modify"; "change"; "edit" ].

(** ** main.py: auxiliary notions for the router *)

(** The keys of the dictionary [service_handlers]. *)
Definition registered_services : list string :=
  [ "calendar"; "gmail"; "drive"; "sheets"; "docs"; "contacts"; "tasks";
    "keep"; "slides"; "forms"; "sms" ].

(** The sources a response of [handle_chat] can carry. *)
Definition chat_source (source : string) : Prop :=
  source = "system" \/ source = "auth_required" \/ source = "assistant"
  \/ PyStr.startswith "google_" source = true.

(** The session table once a classification is kept under [key]. *)
Definition keep_classification (key : string) (intent : Intent)
    (table : gmap string Session) : gmap string Session :=
  alter (fun s => mkSession (<["intent_classification" := intent]> (state s))
                    (created_at s)) key table.

(** ** Auxiliary notions for the extracted texts *)

(** A text with no white space at either end. *)
Definition is_trimmed (s : string) : bool :=
  PyStr.is_empty s
  || (PyStr.starts_outside PyStr.is_space s
      && PyStr.ends_outside PyStr.is_space s).

(** ** More Python string operations *)

(** The loop of [s.split()] with no separator: runs of white space
    separate the words; [acc] holds the current word, last character
    first. *)
Fixpoint words_go (s acc : string) : list string :=
  match s with
  | EmptyString =>
      if PyStr.is_empty acc then [] else [PyStr.rev_acc acc EmptyString]
  | String c s' =>
      if PyStr.is_space c then
        if PyStr.is_empty acc then words_go s' EmptyString
        else PyStr.rev_acc acc EmptyString :: words_go s' EmptyString
      else words_go s' (String c acc)
  end.

(** [s.split()] *)
Definition words (s : string) : list string := words_go s EmptyString.

(** [sep.join(parts)] *)
Fixpoint join_with (sep : string) (parts : list string) : string :=
  match parts with
  | [] => EmptyString
  | [part] => part
  | part :: rest => String.append part (String.append sep (join_with sep rest))
  end.

(** [s[:n]] for [0 <= n] *)
Fixpoint str_take (n : nat) (s : string) : string :=
  match n, s with
  | O, _ => EmptyString
  | S n', String c s' => String c (str_take n' s')
  | S _, EmptyString => EmptyString
  end.

(** ** main.py: the contacts handler *)

(** A connection of the People API: the [displayName] of each of its
    names and the [value] of each phone number and e-mail address, when
    present. *)
Record Connection := mkConnection {
  cn_names : list (option string);
  cn_phones : list (option string);
  cn_emails : list (option string)
}.

(** An entry of the [contacts] of the result. *)
Record ContactCard := mkContactCard {
  card_name : string;
  card_phones : list string;
  card_emails : list string
}.

(** What [handle_google_contacts] returns. *)
Inductive ContactsResult :=
| ContactsFound (contacts : list ContactCard) (search_terms : list string)
                (total_count : nat)
| ContactsError (error : string).

(** [[term.lower() for term in message.split() if len(term) > 2]] *)
Definition contact_search_terms (message : string) : list string :=
  map PyStr.lower
    (List.filter (fun term => Nat.ltb 2 (String.length term)) (words message)).

(** [' '.join([x.get(key, '') for x in values]).lower()] *)
Definition field_text (values : list (option string)) : string :=
  PyStr.lower (join_with " " (map (default EmptyString) values)).

(** The test under which a person is kept. *)
Definition person_matches (search_terms : list string) (person : Connection)
  : bool :=
  match search_terms with
  | [] => true
  | _ =>
      existsb (fun term =>
                 PyStr.contains term (field_text (cn_names person))
                 || PyStr.contains term (field_text (cn_phones person))
                 || PyStr.contains term (field_text (cn_emails person)))
        search_terms
  end.

(** The entry appended for a person. *)
Definition contact_card (person : Connection) : ContactCard :=
  mkContactCard
    (match cn_names person with
     | first :: _ => default "Unknown" first
     | [] => "Unknown"
     end)
    (map (default EmptyString) (cn_phones person))
    (map (default EmptyString) (cn_emails person)).

(** [handle_google_contacts(message, access_token)]; [listing] is what
    [people().connections().list(...).execute()] gives: the
    [connections] of the answer, or an exception. *)
Definition handle_google_contacts (env : Env)
    (listing : outcome (list Connection)) (message access_token : string)
  : ContactsResult :=
  if negb (credentials_valid env access_token)
  then ContactsError "Invalid or expired credentials"
  else
    match google_api env access_token (ApiBuild "people" "v1") with
    | Raise e => ContactsError (str_of_exn e)
    | Ok _ =>
        match listing with
        | Raise e => ContactsError (str_of_exn e)
        | Ok connections =>
            let search_terms := contact_search_terms message in
            ContactsFound
              (map contact_card
                 (List.filter (person_matches search_terms) connections))
              search_terms (length connections)
        end
    end.

(** ** main.py: the tasks handler *)

(** [handle_google_tasks(message, access_token)]; [tasklists] is the
    answer of [tasklists().list()]: its [items], when it has the key,
    each with its [id] when present; [tasks_of] is the answer of
    [tasks().list(tasklist=...)]: its [items] when it has the key. *)
Definition handle_google_tasks (env : Env)
    (tasklists : outcome (option (list (option string))))
    (tasks_of : string -> outcome (option (list PyVal)))
    (message access_token : string) : outcome (gmap string PyVal) :=
  catch
    (if negb (credentials_valid env access_token) then Ok invalid_credentials
     else
       let? _ := google_api env access_token (ApiBuild "tasks" "v1") in
       let? answer := tasklists in
       match answer with
       | Some items =>
           let? first :=
             match items with
             | first :: _ => Ok first
             | [] => Raise (Exn OtherError "list index out of range")
             end in
           let? tasklist_id :=
             match first with
             | Some id => Ok id
             | None => Raise (Exn KeyError "'id'")
             end in
           let? tasks := tasks_of tasklist_id in
           Ok {[ "tasks" := VList (default [] tasks) ]}
       | None => Ok {[ "tasks" := VList [] ]}
       end)
    (fun e => Ok (error_result e)).

(** ** main.py: the mail handler *)

(** A message of the Gmail API: the headers of its [payload], when it
    has one, as pairs of name and value, and its [snippet]. *)
Record MailMessage := mkMailMessage {
  mm_payload : option (list (string * string));
  mm_snippet : option string
}.

(** What [handle_google_gmail] returns. *)
Inductive GmailResult :=
| GmailLatest (subject sender date snippet : string) (total_emails : nat)
| GmailEmpty
| GmailSent
| GmailMessages (messages : list (option string))
| GmailError (error : string).

(** [next((h['value'] for h in headers if h['name'] == name), default)] *)
Fixpoint header_value (name default_value : string)
    (headers : list (string * string)) : string :=
  match headers with
  | [] => default_value
  | (n, v) :: rest =>
      if String.eqb n name then v else header_value name default_value rest
  end.

(** [snippet[:200] + '...' if len(snippet) > 200 else snippet] *)
Definition shown_snippet (snippet : string) : string :=
  if Nat.ltb 200 (String.length snippet)
  then String.append (str_take 200 snippet) "..."
  else snippet.

(** The test for a question about the latest mail. *)
Definition asks_latest_mail (message : string) : bool :=
  PyStr.any_in ["last"; "recent"; "latest"; "newest"] (PyStr.lower message)
  && PyStr.any_in ["email"; "mail"; "message"; "inbox"] (PyStr.lower message).

(** [handle_send_email(message, service)] *)
Definition handle_send_email : GmailResult := GmailSent.

(** [handle_google_gmail(message, access_token)]; [inbox] is the list of
    the messages of the inbox (each with its [id] when present),
    [get_message] the message behind an id and [recent] the unfiltered
    list. *)
Definition handle_google_gmail (env : Env)
    (inbox : outcome (list (option string)))
    (get_message : string -> outcome MailMessage)
    (recent : outcome (list (option string)))
    (message access_token : string) : GmailResult :=
  if negb (credentials_valid env access_token)
  then GmailError "Invalid or expired credentials"
  else
    match google_api env access_token (ApiBuild "gmail" "v1") with
    | Raise e => GmailError (str_of_exn e)
    | Ok _ =>
        if asks_latest_mail message then
          match inbox with
          | Raise e => GmailError (str_of_exn e)
          | Ok [] => GmailEmpty
          | Ok (None :: _) => GmailError "'id'"
          | Ok ((Some id :: _) as messages) =>
              match get_message id with
              | Raise e => GmailError (str_of_exn e)
              | Ok msg =>
                  match mm_payload msg with
                  | None => GmailError "'payload'"
                  | Some headers =>
                      GmailLatest
                        (header_value "Subject" "No Subject" headers)
                        (header_value "From" "Unknown Sender" headers)
                        (header_value "Date" EmptyString headers)
                        (shown_snippet (default EmptyString (mm_snippet msg)))
                        (length messages)
                  end
              end
          end
        else if PyStr.contains "send" (PyStr.lower message)
                || PyStr.contains "email" (PyStr.lower message)
        then handle_send_email
        else
          match recent with
          | Raise e => GmailError (str_of_exn e)
          | Ok messages => GmailMessages messages
          end
    end.

(** ** main.py: deleting calendar events *)

(** The loop of [handle_calendar_delete]: the events are deleted one
    after the other and a deletion that raises is passed over; the
    result is the count of deletions that went through. *)
Fixpoint delete_events (delete : string -> outcome unit) (events : list string)
  : nat :=
  match events with
  | [] => O
  | event_id :: rest =>
      match delete event_id with
      | Ok _ => S (delete_events delete rest)
      | Raise _ => delete_events delete rest
      end
  end.

(** [handle_calendar_delete(message, service)]; [search] gives the ids
    of the events found with the message as the query. *)
Definition handle_calendar_delete (search : string -> outcome (list string))
    (delete : string -> outcome unit) (message : string)
  : outcome (gmap string PyVal) :=
  catch
    (let? events := search message in
     let deleted_count := delete_events delete events in
     Ok (list_to_map
           [ ("action", VStr "delete_events");
             ("result",
              VStr (PyStr.join [ "Deleted "; str_of_nat deleted_count;
                                 " event(s)" ]));
             ("search_query", VStr message) ]))
    (fun e => Ok (error_result e)).

(** ** main.py: images *)

Module Images.

Definition extracted_text : string := "Sample extracted text from image".

Definition processed (response : string) : gmap string PyVal :=
  list_to_map
    [ ("action", VStr "image_processed");
      ("response", VStr response);
      ("extracted_text", VStr extracted_text) ].

(** [handle_image_processing(message, image_data, access_token)];
    [open_image] is what [Image.open] does with the bytes and [upload]
    what saving the text to Drive does, temporary file included. *)
Definition handle_image_processing (open_image : string -> outcome unit)
    (upload : string -> string -> outcome unit)
    (message image_data access_token : string) : outcome (gmap string PyVal) :=
  catch
    (let? _ := open_image image_data in
     if PyStr.contains "drive" (PyStr.lower message)
        || PyStr.contains "save" (PyStr.lower message) then
       let? _ := upload access_token extracted_text in
       Ok (processed "Document saved to Google Drive")
     else if PyStr.contains "sheet" (PyStr.lower message)
             || PyStr.contains "spreadsheet" (PyStr.lower message) then
       Ok (processed "Data saved to Google Sheets")
     else if PyStr.contains "doc" (PyStr.lower message)
             || PyStr.contains "document" (PyStr.lower message) then
       Ok (processed "Content saved to Google Docs")
     else Ok (processed "Image processed successfully"))
    (fun e => Ok (<["action" := VStr "image_processed"]> (error_result e))).

End Images.

(** ** main.py: the title of a form *)

(** The title [handle_google_forms] extracts from a creation message. *)
Definition forms_title (message : string) : string :=
  let title := "New Form" in
  let message_lower := PyStr.lower message in
  if PyStr.contains "for" message_lower then title_after "for" message title
  else if PyStr.contains "called" message_lower then
    title_after "called" message title
  else if PyStr.contains "about" message_lower then
    title_after "about" message title
  else title.

(** ** Sample objects for the further properties *)

(** Ollama streams two fragments, says [done], and goes on. *)
Definition env_ollama_streams : Env :=
  sample_env (Ok (mkIntent "llm" None)) true (Ok ∅) (GetResponse 200)
    (PostResponse 200 (Ok EmptyString)
       [ LineJson (Some "Hel") false; LineEmpty; LineJson (Some "lo") true;
         LineJson (Some "!") false ]
       None).

(** A machine where Ollama is installed and answers from the third
    probe on. *)
Definition slow_host : OllamaManager.Host :=
  OllamaManager.mkHost
    (fun n => if Nat.ltb n 2 then GetError refused else GetResponse 200)
    (Ok 0) (Ok tt).

(** Constructors that all return, and constructors of which the one of
    the formatter raises. *)
Definition all_construct : Services.Constructors :=
  Services.mkConstructors (Ok tt) (Ok tt) (Ok tt) (Ok tt) (Ok tt).
Definition formatter_fails : Services.Constructors :=
  Services.mkConstructors (Ok tt) (Ok tt)
    (Raise (Exn OtherError "template directory not found")) (Ok tt) (Ok tt).

(** Monday 1 January 2024, 09:00. *)
Definition monday_morning : DateTime := mkDateTime 738886 32400000000.

(** A chat request that has no message. *)
Definition silent_request : Request :=
  {| request_json := Ok (mkChatData (Some "u1") (Some "s1") None None);
     request_multipart := Raise (Exn OtherError "not multipart") |}.

(** A world in which one session exists. *)
Definition world_with_session : World :=
  mkWorld {[ "u9_s9" := mkSession ∅ (mkDateTime 738000 0) ]} [].

(** The environment of [sample_env] with a parser of SMS commands that
    gives [command] and a scheduler that gives [confirmation]. *)
Definition sms_env (command : outcome CommandInfo)
    (confirmation : outcome string) : Env :=
  {| now := mkDateTime 738886 32400000000;
     utcnow := mkDateTime 738886 50400000000;
     strftime_now := "Monday, January 01, 2024 at 09:00 AM";
     classify := fun _ => Ok (mkIntent "google" (Some "sms"));
     format_response := fun text _ => Ok text;
     format_google_service_response := sample_format_service;
     parse_sms_command := fun _ => command;
     schedule_sms := fun _ _ _ => confirmation;
     list_scheduled_messages := Ok [];
     search_contacts := fun _ _ => Ok [];
     credentials_valid := fun _ => true;
     google_api := fun _ _ => Ok ∅;
     clean_events := fun events => events;
     calendar_command_handler := fun _ _ _ => Ok ∅;
     google_handler := fun _ _ _ => Ok ∅;
     handle_image_processing := fun _ _ _ => Ok ∅;
     base_url := "http://localhost:11434";
     http_get_tags := GetResponse 200;
     http_post_generate := fun _ => PostRaise refused |}.

(** A command to be sent tomorrow to a number. *)
Definition birthday_command : CommandInfo :=
  mkCommandInfo (Some (VStr "tomorrow 09:00")) (Some "5550100")
    (Some "happy birthday").

Definition two_connections : list Connection :=
  [ mkConnection [Some "Alice Smith"] [Some "555-0100"]
      [Some "alice@example.com"];
    mkConnection [Some "Bob Jones"] [] [None] ].

Definition lunch_mail : MailMessage :=
  mkMailMessage
    (Some [("From", "alice@example.com"); ("Subject", "Lunch");
           ("Subject", "Dinner")])
    (Some "See you at noon").

(** A deletion that fails for the event [failing] only. *)
Definition delete_but (failing event_id : string) : outcome unit :=
  if String.eqb event_id failing then Raise refused else Ok tt.

(** A search that finds three events. *)
Definition standup_events (query : string) : outcome (list string) :=
  Ok ["e1"; "e2"; "e3"].

(** [Image.open] on bytes that are not an image. *)
Definition not_an_image : exn := Exn OtherError "cannot identify image file".
Definition open_fails (image_data : string) : outcome unit :=
  Raise not_an_image.

(** * Properties *)

(** ** Worked examples *)

Example title_apostrophe : PyStr.title "i'll be late" = "I'Ll Be Late".
Proof. reflexivity. Qed.

Example split_three : PyStr.split "ab" "xabyabz" = ["x"; "y"; "z"].
Proof. reflexivity. Qed.

Example split_overlap : PyStr.split "aa" "aaa" = [EmptyString; "a"].
Proof. reflexivity. Qed.

Example replace_to_say :
  PyStr.replace "to say" "saying" "text mom to say hi" = "text mom saying hi".
Proof. reflexivity. Qed.

Example strip_both : PyStr.strip "  a b  " = "a b".
Proof. reflexivity. Qed.

Example strip_quote :
  PyStr.strip_chars PyStr.dquote (String.append PyStr.dquote "hi") = "hi".
Proof. reflexivity. Qed.

Example fallback_hello t : get_fallback_response t "hello" = greeting_reply.
Proof. reflexivity. Qed.

Example fallback_this t : get_fallback_response t "what is this" = greeting_reply.
Proof. reflexivity. Qed.

Example fallback_none t : get_fallback_response t "xyzzy" = default_reply.
Proof. reflexivity. Qed.

Example range_tomorrow :
  calendar_time_range "what's on my calendar tomorrow" = "tomorrow".
Proof. reflexivity. Qed.

Example range_default : calendar_time_range "show my calendar" = "upcoming".
Proof. reflexivity. Qed.

Example range_month : calendar_time_range "events in March" = "March".
Proof. reflexivity. Qed.

Example docs_called :
  docs_title "create a document called Budget Plan" = "Budget Plan".
Proof. reflexivity. Qed.

Example docs_default : docs_title "create a new document" = "New Document".
Proof. reflexivity. Qed.

Example docs_about_first :
  docs_title "create a document called Notes about cats" = "Cats".
Proof. reflexivity. Qed.

Example sheets_called_forecast :
  sheets_title "create a spreadsheet called Forecast" = "New Spreadsheet".
Proof. reflexivity. Qed.

Example sheets_performance :
  sheets_title "create a spreadsheet called performance data" = "Mance Data".
Proof. reflexivity. Qed.

Example sms_extract_mom :
  sms_extract "Text Mom saying I'll be late" = Some ("mom", "i'll be late").
Proof. reflexivity. Qed.

Example sms_extract_tom :
  sms_extract "text tom saying hi" = Some ("m", "hi").
Proof. reflexivity. Qed.

(** ** Facts about the string operations *)

Section StringFacts.

Import PyStr.

Lemma startswith_empty_r (p : string) :
  startswith p EmptyString = is_empty p.
Proof. destruct p; reflexivity. Qed.

Lemma contains_cons (sub : string) (c : ascii) (s : string) :
  contains sub (String c s) = startswith sub (String c s) || contains sub s.
Proof. reflexivity. Qed.

Lemma contains_tail (sub : string) (c : ascii) (s : string) :
  contains sub s = true -> contains sub (String c s) = true.
Proof. intros H. rewrite contains_cons, H. apply orb_true_r. Qed.

Lemma append_cons (a : ascii) (s t : string) :
  String.append (String a s) t = String a (String.append s t).
Proof. reflexivity. Qed.

Lemma append_empty_l (t : string) : String.append EmptyString t = t.
Proof. reflexivity. Qed.

Lemma startswith_append (sub rest : string) :
  startswith sub (String.append sub rest) = true.
Proof.
  induction sub as [|a sub IH]; [reflexivity|].
  rewrite append_cons. cbn. rewrite Ascii.eqb_refl. exact IH.
Qed.

Lemma contains_append_l (sub rest : string) :
  contains sub (String.append sub rest) = true.
Proof.
  destruct sub as [|a sub].
  - destruct rest; reflexivity.
  - rewrite append_cons, contains_cons, <- append_cons, startswith_append.
    reflexivity.
Qed.

Lemma contains_append_r (sub pre s : string) :
  contains sub s = true -> contains sub (String.append pre s) = true.
Proof.
  intros H. induction pre as [|a pre IH]; [exact H|].
  rewrite append_cons. apply contains_tail, IH.
Qed.

(** A piece is always produced, whatever the text. *)
Lemma split_go_nonempty (sep s : string) (skip : nat) (acc : string) :
  split_go sep s skip acc <> [].
Proof.
  revert skip acc. induction s as [|c s IH]; intros skip acc; cbn.
  - discriminate.
  - destruct skip; [|apply IH].
    destruct (startswith sep (String c s)); [discriminate|apply IH].
Qed.

(** A text that contains the separator splits in at least two pieces. *)
Lemma split_go_two (sep s acc : string) :
  truthy sep = true ->
  contains sep s = true ->
  exists before after rest, split_go sep s O acc = before :: after :: rest.
Proof.
  intros Hsep. revert acc. induction s as [|c s IH]; intros acc H.
  - destruct sep; discriminate.
  - rewrite contains_cons in H. cbn [split_go].
    destruct (startswith sep (String c s)) eqn:Hsw.
    + destruct (split_go sep s (String.length sep - 1) EmptyString)
        as [|after rest] eqn:Hgo.
      * exfalso. exact (split_go_nonempty _ _ _ _ Hgo).
      * eauto.
    + cbn in H. apply IH. exact H.
Qed.

Lemma split_two (sep s : string) :
  truthy sep = true ->
  contains sep s = true ->
  exists before after rest, split sep s = before :: after :: rest.
Proof. apply split_go_two. Qed.

(** Replacing [old] by [new] leaves a text without [old] as it is, and
    otherwise gives a text that contains [new]. *)
Lemma replace_go_cases (old new s : string) :
  truthy old = true ->
  (replace_go old new s O = s /\ contains old s = false)
  \/ contains new (replace_go old new s O) = true.
Proof.
  intros Hold. induction s as [|c s IH].
  - left. destruct old; [discriminate|]. split; reflexivity.
  - cbn [replace_go]. destruct (startswith old (String c s)) eqn:Hsw.
    + right. apply contains_append_l.
    + destruct IH as [[Heq Hno]|Hyes].
      * left. rewrite Heq, contains_cons, Hsw, Hno. split; reflexivity.
      * right. apply contains_tail, Hyes.
Qed.

Lemma replace_contains_new (old new s : string) :
  truthy old = true ->
  contains new s = true \/ contains old s = true ->
  contains new (replace old new s) = true.
Proof.
  intros Hold H. unfold replace.
  destruct (replace_go_cases old new s Hold) as [[Heq Hno]|Hyes];
    [|exact Hyes].
  rewrite Heq. destruct H as [H|H]; [exact H|congruence].
Qed.

(** *** Stripping and searching *)

Lemma startswith_all (f : ascii -> bool) (p s : string) :
  startswith p s = true -> all_chars f s = true -> all_chars f p = true.
Proof.
  revert s. induction p as [|a p IH]; intros [|b s] Hsw Hall; cbn in *;
    try reflexivity; try discriminate.
  apply andb_prop in Hsw as [Hab Hsw]. apply andb_prop in Hall as [Hb Hall].
  apply Ascii.eqb_eq in Hab. subst b. rewrite Hb. cbn. eauto.
Qed.

Lemma ends_outside_not_all (f : ascii -> bool) (p : string) :
  ends_outside f p = true -> all_chars f p = false.
Proof.
  induction p as [|a p IH]; [discriminate|]. cbn [ends_outside all_chars].
  destruct p as [|b p].
  - intros H. destruct (f a); [discriminate|reflexivity].
  - intros H. rewrite (IH H). apply andb_false_r.
Qed.

Lemma rstrip_by_empty (f : ascii -> bool) (s : string) :
  is_empty (rstrip_by f s) = all_chars f s.
Proof.
  induction s as [|c s IH]; [reflexivity|]. cbn.
  rewrite IH. destruct (f c), (all_chars f s); reflexivity.
Qed.

Lemma rstrip_by_cons (f : ascii -> bool) (c : ascii) (s : string) :
  rstrip_by f (String c s)
  = if f c && all_chars f s then EmptyString
    else String c (rstrip_by f s).
Proof. cbn. rewrite rstrip_by_empty. reflexivity. Qed.

Lemma startswith_rstrip (f : ascii -> bool) (p s : string) :
  ends_outside f p = true ->
  startswith p (rstrip_by f s) = startswith p s.
Proof.
  revert p. induction s as [|b s IH]; intros p Hp; [reflexivity|].
  rewrite rstrip_by_cons.
  destruct (f b && all_chars f s) eqn:Hall.
  - rewrite startswith_empty_r.
    destruct p as [|a p]; [discriminate|]. cbn [is_empty].
    destruct (startswith (String a p) (String b s)) eqn:Hsw; [|reflexivity].
    apply (startswith_all f) in Hsw; [|exact Hall].
    rewrite (ends_outside_not_all f _ Hp) in Hsw. discriminate.
  - destruct p as [|a p]; [discriminate|]. cbn [startswith].
    destruct p as [|a' p]; [reflexivity|].
    rewrite (IH (String a' p)); [reflexivity|exact Hp].
Qed.

Lemma contains_all_false (f : ascii -> bool) (p s : string) :
  ends_outside f p = true -> all_chars f s = true -> contains p s = false.
Proof.
  intros Hp. induction s as [|c s IH]; intros Hall.
  - destruct p; [discriminate|reflexivity].
  - rewrite contains_cons.
    destruct (startswith p (String c s)) eqn:Hsw.
    + apply (startswith_all f) in Hsw; [|exact Hall].
      rewrite (ends_outside_not_all f _ Hp) in Hsw. discriminate.
    + cbn in Hall. apply andb_prop in Hall as [_ Hall]. exact (IH Hall).
Qed.

Lemma contains_rstrip (f : ascii -> bool) (p s : string) :
  ends_outside f p = true ->
  contains p (rstrip_by f s) = contains p s.
Proof.
  intros Hp. induction s as [|c s IH]; [reflexivity|].
  pose proof (startswith_rstrip f p (String c s) Hp) as Hsw.
  rewrite rstrip_by_cons in *.
  destruct (f c && all_chars f s) eqn:Hall.
  - rewrite (contains_all_false f p (String c s) Hp Hall).
    destruct p; [discriminate|reflexivity].
  - rewrite !contains_cons, Hsw, IH. reflexivity.
Qed.

Lemma contains_lstrip (f : ascii -> bool) (p s : string) :
  starts_outside f p = true ->
  contains p (lstrip_by f s) = contains p s.
Proof.
  intros Hp. induction s as [|c s IH]; [reflexivity|].
  cbn [lstrip_by]. destruct (f c) eqn:Hc; [|reflexivity].
  rewrite IH, contains_cons.
  destruct p as [|a p]; [discriminate|]. cbn [startswith].
  destruct (Ascii.eqb a c) eqn:Hac; [|reflexivity].
  apply Ascii.eqb_eq in Hac. subst a. cbn in Hp. rewrite Hc in Hp.
  discriminate.
Qed.

(** Stripping white space does not change which phrases occur, for a
    phrase that neither starts nor ends with white space. *)
Lemma contains_strip (p s : string) :
  starts_outside is_space p = true ->
  ends_outside is_space p = true ->
  contains p (strip s) = contains p s.
Proof.
  intros Hs He. unfold strip, strip_by.
  rewrite contains_rstrip by exact He. apply contains_lstrip, Hs.
Qed.

(** *** Letter case *)

Lemma to_lower_char_not_upper (c : ascii) :
  is_upper (to_lower_char c) = false.
Proof. destruct c as [[] [] [] [] [] [] [] []]; reflexivity. Qed.

Lemma lower_is_lowered (s : string) : is_lowered (lower s) = true.
Proof.
  induction s as [|c s IH]; [reflexivity|].
  cbn. rewrite to_lower_char_not_upper. exact IH.
Qed.

Lemma all_chars_append (f : ascii -> bool) (s t : string) :
  all_chars f (String.append s t) = all_chars f s && all_chars f t.
Proof.
  induction s as [|c s IH]; [reflexivity|].
  rewrite append_cons. cbn. rewrite IH. apply andb_assoc.
Qed.

Lemma all_chars_rev_acc (f : ascii -> bool) (s acc : string) :
  all_chars f (rev_acc s acc) = all_chars f s && all_chars f acc.
Proof.
  revert acc. induction s as [|c s IH]; intros acc; [reflexivity|].
  cbn. rewrite IH. cbn. destruct (f c), (all_chars f s); reflexivity.
Qed.

Lemma all_chars_lstrip (f g : ascii -> bool) (s : string) :
  all_chars g s = true -> all_chars g (lstrip_by f s) = true.
Proof.
  induction s as [|c s IH]; [reflexivity|]. intros H. cbn [lstrip_by].
  destruct (f c); [|exact H].
  cbn in H. apply andb_prop in H as [_ H]. exact (IH H).
Qed.

Lemma all_chars_rstrip (f g : ascii -> bool) (s : string) :
  all_chars g s = true -> all_chars g (rstrip_by f s) = true.
Proof.
  induction s as [|c s IH]; [reflexivity|]. intros H.
  cbn in H. apply andb_prop in H as [Hc H]. cbn.
  destruct (f c && is_empty (rstrip_by f s)); [reflexivity|].
  cbn. rewrite Hc. exact (IH H).
Qed.

Lemma all_chars_strip_by (f g : ascii -> bool) (s : string) :
  all_chars g s = true -> all_chars g (strip_by f s) = true.
Proof. intros H. apply all_chars_rstrip, all_chars_lstrip, H. Qed.

Lemma all_chars_replace_go (g : ascii -> bool) (old new s : string) (k : nat) :
  all_chars g new = true -> all_chars g s = true ->
  all_chars g (replace_go old new s k) = true.
Proof.
  intros Hnew. revert k. induction s as [|c s IH]; intros k H; [reflexivity|].
  cbn in H. apply andb_prop in H as [Hc H]. cbn [replace_go].
  destruct k; [|exact (IH _ H)].
  destruct (startswith old (String c s)).
  - rewrite all_chars_append, Hnew. exact (IH _ H).
  - cbn. rewrite Hc. exact (IH _ H).
Qed.

Lemma all_chars_split_go (g : ascii -> bool) (sep s : string) (k : nat)
    (acc : string) :
  all_chars g s = true -> all_chars g acc = true ->
  Forall (fun part => all_chars g part = true) (split_go sep s k acc).
Proof.
  revert k acc. induction s as [|c s IH]; intros k acc H Hacc.
  - cbn. constructor; [|constructor].
    rewrite all_chars_rev_acc, Hacc. reflexivity.
  - cbn in H. apply andb_prop in H as [Hc H]. cbn [split_go].
    destruct k; [|exact (IH _ _ H Hacc)].
    destruct (startswith sep (String c s)).
    + constructor.
      * rewrite all_chars_rev_acc, Hacc. reflexivity.
      * apply IH; [exact H|reflexivity].
    + apply IH; [exact H|]. cbn. rewrite Hc. exact Hacc.
Qed.

End StringFacts.

(** ** Pieces of a split *)

Section SplitFacts.

Import PyStr.

Lemma append_length (s t : string) :
  String.length (String.append s t) = (String.length s + String.length t)%nat.
Proof.
  induction s as [|c s IH]; [reflexivity|].
  rewrite append_cons. cbn [String.length]. rewrite IH. reflexivity.
Qed.

Lemma append_assoc_r (s t u : string) :
  String.append (String.append s t) u = String.append s (String.append t u).
Proof.
  induction s as [|c s IH]; [reflexivity|].
  rewrite !append_cons, IH. reflexivity.
Qed.

(** Only as many characters as the prefix has are looked at. *)
Lemma startswith_long (p s t : string) :
  (String.length p <= String.length s)%nat ->
  startswith p (String.append s t) = startswith p s.
Proof.
  revert s. induction p as [|a p IH]; intros s H; [reflexivity|].
  destruct s as [|b s]; [cbn in H; lia|].
  rewrite append_cons. cbn [startswith]. rewrite IH; [reflexivity|].
  cbn in H. lia.
Qed.

(** The characters of a separator that was found are passed over. *)
Lemma split_go_skip (sep pre s acc : string) :
  split_go sep (String.append pre s) (String.length pre) acc
  = split_go sep s O acc.
Proof.
  induction pre as [|c pre IH]; [destruct s; reflexivity|].
  rewrite append_cons. cbn [String.length split_go]. exact IH.
Qed.

(** The first piece ends where the separator first occurs. *)
Lemma split_go_first (init : string) (l : ascii) (before after acc : string) :
  contains (String.append init (String l EmptyString))
    (String.append before init) = false ->
  split_go (String.append init (String l EmptyString))
    (String.append before
       (String.append (String.append init (String l EmptyString)) after))
    O acc
  = rev_acc acc before
      :: split_go (String.append init (String l EmptyString)) after O
           EmptyString.
Proof.
  set (sep := String.append init (String l EmptyString)).
  revert acc. induction before as [|b before IH]; intros acc H.
  - change (String.append EmptyString (String.append sep after))
      with (String.append sep after).
    subst sep. destruct init as [|i init].
    + change (String.append EmptyString (String l EmptyString))
        with (String l EmptyString).
      rewrite append_cons. cbn [split_go startswith].
      rewrite Ascii.eqb_refl. destruct after; reflexivity.
    + rewrite !append_cons. cbn [split_go].
      rewrite <- !append_cons, startswith_append. rewrite !append_cons.
      match goal with
      | |- context [(?n - 1)%nat] =>
          replace (n - 1)%nat
            with (String.length (String.append init (String l EmptyString)))
            by (cbn [String.length]; lia)
      end.
      rewrite split_go_skip. reflexivity.
  - rewrite append_cons in H. rewrite contains_cons in H.
    apply orb_false_elim in H as [Hsw Hc].
    rewrite append_cons. cbn [split_go].
    assert (Hno : startswith sep
                    (String b (String.append before (String.append sep after)))
                  = false).
    { subst sep. rewrite (append_assoc_r init), <- append_assoc_r.
      rewrite <- append_cons, startswith_long; [exact Hsw|].
      rewrite !append_length. cbn [String.length]. rewrite append_length. lia. }
    rewrite Hno. rewrite (IH _ Hc). reflexivity.
Qed.

(** A text without the separator is its own only piece. *)
Lemma split_go_without (sep s acc : string) :
  contains sep s = false -> split_go sep s O acc = [rev_acc acc s].
Proof.
  revert acc. induction s as [|c s IH]; intros acc H; [reflexivity|].
  rewrite contains_cons in H. apply orb_false_elim in H as [Hsw Hc].
  cbn [split_go]. rewrite Hsw. rewrite (IH _ Hc). reflexivity.
Qed.







Lemma append_empty_r (s : string) : String.append s EmptyString = s.
Proof.
  induction s as [|c s IH]; [reflexivity|]. rewrite append_cons, IH.
  reflexivity.
Qed.



End SplitFacts.

(** ** The router *)

Section Router.

Variable env : Env.

Lemma plain_response_source (text source : string) :
  plain_response text source !! "source" = Some (VStr source).
Proof. reflexivity. Qed.

Lemma plain_response_text (text source : string) :
  plain_response text source !! "response" = Some (VStr text).
Proof. reflexivity. Qed.

Lemma plain_response_no_instruction (text source : string) :
  plain_response text source !! "instruction" = None.
Proof. reflexivity. Qed.

Lemma ensure_session_ok (user_id session_id : string) (w : World) :
  exists w',
    ensure_session env user_id session_id w
    = (Ok (session_key user_id session_id), w')
    /\ trace w' = trace w.
Proof.
  unfold ensure_session.
  destruct (sessions w !! session_key user_id session_id);
    eexists; split; reflexivity.
Qed.

(** Up to the classification, [handle_chat] only touches the session
    table. *)
Lemma handle_chat_route (request : Request) (data : ChatData)
    (intent : Intent) (w : World) :
  request_json request = Ok data ->
  PyStr.truthy (default EmptyString (d_message data)) = true ->
  classify env (default EmptyString (d_message data)) = Ok intent ->
  exists w1,
    trace w1 = trace w
    /\ handle_chat env request w
       = route env (Some intent) (default EmptyString (d_message data))
           (d_access_token data) w1.
Proof.
  intros Hreq Hmsg Hcls. unfold handle_chat, bind, call. rewrite Hreq.
  destruct (ensure_session_ok (default "anon" (d_user_id data))
              (default "default" (d_session_id data)) w) as (w0 & -> & Htr).
  unfold classify_message, bind, call, ret, session_state_set.
  rewrite Hmsg, Hcls. cbn.
  eexists. split; [|reflexivity]. exact Htr.
Qed.

Lemma respond_ok (final_response source text : string) (w : World) :
  format_response env final_response source = Ok text ->
  respond env final_response source w = (Ok (plain_response text source), w).
Proof. intros H. unfold respond, bind, call, ret. rewrite H. reflexivity. Qed.

Lemma respond_trace (final_response source : string) (w : World) :
  snd (respond env final_response source w) = w.
Proof.
  unfold respond, bind, call, ret.
  destruct (format_response env final_response source); reflexivity.
Qed.

End Router.

(** C2. A message classified to a Google service that comes without a
    token (absent or empty) is answered with source [auth_required], and
    no handler is called: the trace of calls is left as it was, whatever
    the final clean-up of the text does. *)
Theorem auth_gate (env : Env) (request : Request) (data : ChatData)
    (intent : Intent) (service : string) (w : World) :
  request_json request = Ok data ->
  PyStr.truthy (default EmptyString (d_message data)) = true ->
  classify env (default EmptyString (d_message data)) = Ok intent ->
  i_type intent = "google" ->
  i_service intent = Some service ->
  supplied (d_access_token data) = None ->
  trace (snd (handle_chat env request w)) = trace w
  /\ (forall response,
        fst (handle_chat env request w) = Ok response ->
        response !! "source" = Some (VStr "auth_required"))
  /\ (forall text,
        format_response env
          (PyStr.join [ "Please sign in with Google to use ";
                        PyStr.title service; " services." ])
          "auth_required" = Ok text ->
        fst (handle_chat env request w)
        = Ok (plain_response text "auth_required")).
Proof.
  intros Hreq Hmsg Hcls Hty Hsvc Htok.
  destruct (handle_chat_route env request data intent w Hreq Hmsg Hcls)
    as (w1 & Htr & ->).
  unfold route. rewrite Hty, Htok, String.eqb_refl.
  unfold bind, call, intent_service. rewrite Hsvc.
  split; [|split].
  - rewrite respond_trace. exact Htr.
  - intros response. unfold respond, bind, call, ret.
    destruct (format_response env _ "auth_required"); cbn [fst];
      [|discriminate].
    intros [= <-]. reflexivity.
  - intros text Hfmt. rewrite (respond_ok env _ _ _ w1 Hfmt). reflexivity.
Qed.

Section Dispatch.

Variable env : Env.

Lemma dispatch_handler_raises (service_name source message token : string)
    (handler : string -> string -> outcome (gmap string PyVal))
    (e : exn) (w : World) :
  handler message token = Raise e ->
  dispatch env service_name source handler message token w
  = (Ok (inr (access_error service_name)),
     called service_name message token w).
Proof.
  intros H. unfold dispatch, try_except, bind, emit, call. cbn.
  rewrite H. reflexivity.
Qed.

Lemma dispatch_format_raises (service_name source message token : string)
    (handler : string -> string -> outcome (gmap string PyVal))
    (r : gmap string PyVal) (e : exn) (w : World) :
  handler message token = Ok r ->
  format_google_service_response env service_name r = Raise e ->
  dispatch env service_name source handler message token w
  = (Ok (inr (access_error service_name)),
     called service_name message token w).
Proof.
  intros H Hf. unfold dispatch, try_except, bind, emit, call. cbn.
  rewrite H, Hf. reflexivity.
Qed.

Lemma dispatch_plain (service_name source message token : string)
    (handler : string -> string -> outcome (gmap string PyVal))
    (r : gmap string PyVal) (shown : string) (w : World) :
  handler message token = Ok r ->
  format_google_service_response env service_name r = Ok shown ->
  (service_name = "sms" -> r !! "instruction" = None) ->
  dispatch env service_name source handler message token w
  = (Ok (inr shown), called service_name message token w).
Proof.
  intros H Hf Hi. unfold dispatch, try_except, bind, emit, call. cbn.
  rewrite H, Hf.
  destruct (String.eqb service_name "sms") eqn:Hs; [|reflexivity].
  apply String.eqb_eq in Hs. rewrite (Hi Hs). reflexivity.
Qed.

Lemma dispatch_instruction (source message token : string)
    (handler : string -> string -> outcome (gmap string PyVal))
    (r : gmap string PyVal) (shown : string) (instruction : PyVal)
    (w : World) :
  handler message token = Ok r ->
  format_google_service_response env "sms" r = Ok shown ->
  r !! "instruction" = Some instruction ->
  dispatch env "sms" source handler message token w
  = (Ok (inl (instruction_response shown source instruction r)),
     called "sms" message token w).
Proof.
  intros H Hf Hi. unfold dispatch, try_except, bind, emit, call. cbn.
  rewrite H, Hf, Hi. reflexivity.
Qed.

(** The dispatch always returns, after exactly one call of the
    handler. *)
Lemma dispatch_total (service_name source message token : string)
    (handler : string -> string -> outcome (gmap string PyVal)) (w : World) :
  exists r,
    dispatch env service_name source handler message token w
    = (Ok r, called service_name message token w).
Proof.
  destruct (handler message token) as [r|e] eqn:H.
  - destruct (format_google_service_response env service_name r)
      as [shown|e] eqn:Hf.
    + destruct (String.eqb service_name "sms") eqn:Hs.
      * apply String.eqb_eq in Hs. subst service_name.
        destruct (r !! "instruction") as [i|] eqn:Hi.
        -- eexists. eapply dispatch_instruction; eassumption.
        -- eexists. eapply dispatch_plain; eauto.
      * eexists. eapply dispatch_plain; eauto.
        intros ->. discriminate.
    + eexists. eapply dispatch_format_raises; eassumption.
  - eexists. eapply dispatch_handler_raises; eassumption.
Qed.

(** A message classified to a Google service that comes with a token
    and has a handler goes through the dispatch. *)
Lemma handle_chat_dispatch (request : Request) (data : ChatData)
    (intent : Intent) (service_name token : string)
    (handler : string -> string -> outcome (gmap string PyVal)) (w : World) :
  request_json request = Ok data ->
  PyStr.truthy (default EmptyString (d_message data)) = true ->
  classify env (default EmptyString (d_message data)) = Ok intent ->
  i_type intent = "google" ->
  i_service intent = Some service_name ->
  supplied (d_access_token data) = Some token ->
  service_handlers env !! service_name = Some handler ->
  exists w1,
    trace w1 = trace w
    /\ handle_chat env request w
       = (let* r := dispatch env service_name
                      (String.append "google_" service_name) handler
                      (default EmptyString (d_message data)) token in
          match r with
          | inl response => ret response
          | inr final_response =>
              respond env final_response
                (String.append "google_" service_name)
          end) w1.
Proof.
  intros Hreq Hmsg Hcls Hty Hsvc Htok Hh.
  destruct (handle_chat_route env request data intent w Hreq Hmsg Hcls)
    as (w1 & Htr & ->).
  exists w1. split; [exact Htr|].
  unfold route. rewrite Hty, Htok, String.eqb_refl.
  unfold bind at 1. unfold call, intent_service. rewrite Hsvc, Hh.
  reflexivity.
Qed.

End Dispatch.

Example access_error_calendar :
  access_error "calendar" = "An error occurred while accessing Calendar.".
Proof. reflexivity. Qed.





(** C1. An exception raised while the body of the request is read
    leaves [handle_chat]: no response is produced. *)
Theorem request_fault_escapes (env : Env) (e : exn) (form : outcome FormData)
    (w : World) :
  handle_chat env (mkRequest (Raise e) form) w = (Raise e, w).
Proof. reflexivity. Qed.

(** So does an exception of the classifier. *)
Lemma classifier_fault_escapes (env : Env) (request : Request)
    (data : ChatData) (e : exn) (w : World) :
  request_json request = Ok data ->
  PyStr.truthy (default EmptyString (d_message data)) = true ->
  classify env (default EmptyString (d_message data)) = Raise e ->
  fst (handle_chat env request w) = Raise e.
Proof.
  intros Hreq Hmsg Hcls. unfold handle_chat, bind, call. rewrite Hreq.
  destruct (ensure_session_ok env (default "anon" (d_user_id data))
              (default "default" (d_session_id data)) w) as (w0 & -> & _).
  unfold classify_message, bind, call. rewrite Hmsg, Hcls. reflexivity.
Qed.

(** So does an exception of the final clean-up of the text. *)
Lemma formatter_fault_escapes (env : Env) (request : Request)
    (data : ChatData) (e : exn) (w : World) :
  request_json request = Ok data ->
  PyStr.truthy (default EmptyString (d_message data)) = false ->
  format_response env "Please provide a message." "system" = Raise e ->
  fst (handle_chat env request w) = Raise e.
Proof.
  intros Hreq Hmsg Hfmt. unfold handle_chat, bind, call. rewrite Hreq.
  destruct (ensure_session_ok env (default "anon" (d_user_id data))
              (default "default" (d_session_id data)) w) as (w0 & -> & _).
  unfold classify_message. rewrite Hmsg. unfold ret, route, respond, bind, call.
  rewrite Hfmt. reflexivity.
Qed.

(** The unified entry point, in contrast, converts every exception into
    a response with source [error]. *)
Lemma handle_unified_query_total (env : Env) (request : Request) (w : World) :
  exists response w', handle_unified_query env request w = (Ok response, w').
Proof.
  unfold handle_unified_query, try_except.
  match goal with |- context [match ?m w with _ => _ end] => destruct (m w) as [[r|e] w'] end;
    eexists; eexists; reflexivity.
Qed.

Lemma handle_unified_query_error (env : Env) (e : exn)
    (json : outcome ChatData) (w : World) :
  handle_unified_query env (mkRequest json (Raise e)) w
  = (Ok (plain_response "I encountered an error processing your request."
           "error"), w).
Proof. reflexivity. Qed.

Section Conversation.

Variable env : Env.

(** A transport fault of the generation request comes back as a
    fragment of text, not as an exception. *)
Lemma generate_transport_fault (prompt msg : string) :
  http_post_generate env prompt = PostRaise (Exn ClientError msg) ->
  OllamaService.generate env prompt
  = [ PyStr.join [ "Error: Could not connect to Ollama at "; base_url env;
                   ". Is Ollama running?" ] ].
Proof. intros H. unfold OllamaService.generate. rewrite H. reflexivity. Qed.

Lemma converse_transport_fault (message msg : string) (w : World) :
  OllamaService.health_check env = true ->
  http_post_generate env message = PostRaise (Exn ClientError msg) ->
  forall text,
    format_response env
      (PyStr.join [ "Error: Could not connect to Ollama at "; base_url env;
                    ". Is Ollama running?" ]) "ollama" = Ok text ->
    fst (converse env message w) = Ok text.
Proof.
  intros Hh Hp text Hf. unfold converse, try_except, bind, emit, call. cbn.
  rewrite Hh, (generate_transport_fault _ _ Hp). cbn [PyStr.join fold_right].
  cbn [PyStr.join fold_right] in Hf.
  replace (String.append
             (String.append "Error: Could not connect to Ollama at "
                (String.append (base_url env)
                   (String.append ". Is Ollama running?" EmptyString)))
             EmptyString)
    with (String.append "Error: Could not connect to Ollama at "
            (String.append (base_url env)
               (String.append ". Is Ollama running?" EmptyString))).
  - rewrite Hf. reflexivity.
  - generalize (String.append "Error: Could not connect to Ollama at "
            (String.append (base_url env)
               (String.append ". Is Ollama running?" EmptyString))).
    intros s. induction s as [|c s IH]; [reflexivity|].
    rewrite append_cons, <- IH. reflexivity.
Qed.

(** The open-ended branch keeps nothing in the session table. *)
Lemma converse_sessions (message : string) (w : World) :
  sessions (snd (converse env message w)) = sessions w.
Proof.
  unfold converse, try_except, bind, emit, call, ret. cbn.
  destruct (OllamaService.health_check env); [|reflexivity]. cbn.
  destruct (format_response env _ "ollama"); reflexivity.
Qed.

End Conversation.

(** C5. With a health check that passes and a generation request that
    the transport refuses, the reply to "hello" is the text of the
    fault, not the rule-based greeting. *)
Theorem generation_fault_reaches_user :
  OllamaService.health_check env_ollama_flaky = true
  /\ http_post_generate env_ollama_flaky "hello" = PostRaise refused
  /\ fst (handle_chat env_ollama_flaky (chat_request "hello" None) empty_world)
     = Ok (plain_response
             "Error: Could not connect to Ollama at http://localhost:11434. Is Ollama running?"
             "assistant")
  /\ get_fallback_response (strftime_now env_ollama_flaky) "hello"
     = greeting_reply.
Proof.
  split; [reflexivity|]. split; [reflexivity|].
  split; [vm_compute; reflexivity|reflexivity].
Qed.

(** ** When [handle_chat] returns *)

(** With a body that is a JSON object, a classifier that answers (with a
    service for a Google message) and a clean-up that returns,
    [handle_chat] returns a response. *)
Lemma handle_chat_returns (env : Env) (request : Request) (data : ChatData)
    (w : World) :
  request_json request = Ok data ->
  (forall message, exists intent,
      classify env message = Ok intent
      /\ (i_type intent = "google" -> is_Some (i_service intent))) ->
  (forall text source, exists text', format_response env text source = Ok text') ->
  exists response, fst (handle_chat env request w) = Ok response.
Proof.
  intros Hreq Hcls Hfmt.
  assert (Hresp : forall final source w0,
             exists response, fst (respond env final source w0) = Ok response).
  { intros final source w0. destruct (Hfmt final source) as (text & Ht).
    rewrite (respond_ok env _ _ _ w0 Ht). eexists. reflexivity. }
  unfold handle_chat, bind, call. rewrite Hreq.
  destruct (ensure_session_ok env (default "anon" (d_user_id data))
              (default "default" (d_session_id data)) w) as (w0 & -> & _).
  unfold classify_message, bind, call, ret.
  destruct (PyStr.truthy (default EmptyString (d_message data))); [|apply Hresp].
  destruct (Hcls (default EmptyString (d_message data))) as (intent & -> & Hs).
  unfold session_state_set.
  match goal with |- context [route env _ _ _ ?w1] => generalize w1 end.
  intros w1. unfold route.
  destruct (String.eqb (i_type intent) "google") eqn:Hty.
  - apply String.eqb_eq in Hty. destruct (Hs Hty) as (service_name & Hsvc).
    unfold bind, call, intent_service. rewrite Hsvc.
    destruct (supplied (d_access_token data)) as [token|]; [|apply Hresp].
    destruct (service_handlers env !! service_name) as [handler|];
      [|apply Hresp].
    destruct (dispatch_total env service_name
                (String.append "google_" service_name)
                (default EmptyString (d_message data)) token handler w1)
      as (r & ->).
    destruct r as [response|final]; [eexists; reflexivity|apply Hresp].
  - destruct (String.eqb (i_type intent) "llm"); [|apply Hresp].
    unfold bind.
    assert (Hconv : exists final w2,
               converse env (default EmptyString (d_message data)) w1
               = (Ok final, w2)).
    { unfold converse, try_except, bind, emit, call, ret. cbn.
      destruct (OllamaService.health_check env); cbn;
        [|eexists; eexists; reflexivity].
      destruct (format_response env _ "ollama");
        eexists; eexists; reflexivity. }
    destruct Hconv as (final & w2 & ->). apply Hresp.
Qed.


Section SideChannel.

Variable env : Env.

Lemma service_handlers_sms :
  service_handlers env !! "sms" = Some (handle_sms env).
Proof. reflexivity. Qed.

Lemma respond_no_instruction (final source : string) (w : World)
    (response : gmap string PyVal) :
  fst (respond env final source w) = Ok response ->
  response !! "instruction" = None.
Proof.
  unfold respond, bind, call, ret.
  destruct (format_response env final source); cbn; [|discriminate].
  intros [= <-]. reflexivity.
Qed.

Lemma instruction_response_fields (text source : string) (instruction : PyVal)
    (r : gmap string PyVal) :
  let response := instruction_response text source instruction r in
  response !! "instruction" = Some instruction
  /\ response !! "response" = Some (VStr text)
  /\ response !! "source" = Some (VStr source)
  /\ response !! "recipient" = Some (get_or_none r "recipient")
  /\ response !! "message_content" = Some (get_or_none r "message_content").
Proof. repeat split; reflexivity. Qed.

(** A response of the branch on the classification that carries an
    instruction comes from the SMS handler. *)
Lemma route_instruction (intent_result : option Intent) (message : string)
    (access_token : option string) (w : World)
    (response : gmap string PyVal) (instruction : PyVal) :
  fst (route env intent_result message access_token w) = Ok response ->
  response !! "instruction" = Some instruction ->
  exists intent token r,
    intent_result = Some intent
    /\ i_type intent = "google"
    /\ i_service intent = Some "sms"
    /\ supplied access_token = Some token
    /\ handle_sms env message token = Ok r
    /\ r !! "instruction" = Some instruction
    /\ response !! "recipient" = Some (get_or_none r "recipient")
    /\ response !! "message_content"
       = Some (get_or_none r "message_content").
Proof.
  intros Hr Hi.
  assert (Hplain : forall final source w0,
             fst (respond env final source w0) = Ok response -> False).
  { intros final source w0 H. apply respond_no_instruction in H. congruence. }
  unfold route in Hr.
  destruct intent_result as [intent|]; [|exfalso; eauto].
  destruct (String.eqb (i_type intent) "google") eqn:Hty.
  - apply String.eqb_eq in Hty.
    unfold bind, call, intent_service in Hr.
    destruct (supplied access_token) as [token|] eqn:Htok;
      destruct (i_service intent) as [service_name|] eqn:Hsvc;
      try discriminate; [|exfalso; eauto].
    destruct (service_handlers env !! service_name) as [handler|] eqn:Hh;
      [|exfalso; eauto].
    destruct (handler message token) as [r|e] eqn:Hres.
    + destruct (format_google_service_response env service_name r)
        as [shown|e] eqn:Hf.
      * destruct (String.eqb service_name "sms") eqn:Hs.
        -- apply String.eqb_eq in Hs. subst service_name.
           rewrite service_handlers_sms in Hh. injection Hh as <-.
           destruct (r !! "instruction") as [i|] eqn:Hri.
           ++ rewrite (dispatch_instruction env _ _ _ _ r shown i w Hres Hf Hri)
                in Hr.
              cbn [fst] in Hr. injection Hr as <-.
              destruct (instruction_response_fields shown
                          (String.append "google_" "sms") i r)
                as (Hx & _ & _ & Hrec & Hcontent).
              rewrite Hx in Hi. injection Hi as ->.
              exists intent, token, r. repeat split; auto.
           ++ rewrite (dispatch_plain env _ _ _ _ _ r shown w Hres Hf) in Hr
                by (intros _; exact Hri).
              exfalso; eauto.
        -- rewrite (dispatch_plain env _ _ _ _ _ r shown w Hres Hf) in Hr.
           ++ exfalso; eauto.
           ++ intros ->. discriminate.
      * rewrite (dispatch_format_raises env _ _ _ _ _ r e w Hres Hf) in Hr.
        exfalso; eauto.
    + rewrite (dispatch_handler_raises env _ _ _ _ _ e w Hres) in Hr.
      exfalso; eauto.
  - destruct (String.eqb (i_type intent) "llm"); [|exfalso; eauto].
    unfold bind in Hr.
    destruct (converse env message w) as [[final|e] w']; [|discriminate].
    exfalso; eauto.
Qed.

End SideChannel.

(** C7. When the SMS handler returns a result with an instruction, the
    response carries that very instruction next to the text of the
    service formatter, with the recipient and the message content of the
    handler result. Conversely a response of [handle_chat] that has an
    [instruction] field answers a message classified to the SMS service,
    and the field is the instruction of the SMS handler's result. *)
Theorem instruction_side_channel (env : Env) (request : Request) (w : World) :
  (forall data intent token r instruction shown,
      request_json request = Ok data ->
      PyStr.truthy (default EmptyString (d_message data)) = true ->
      classify env (default EmptyString (d_message data)) = Ok intent ->
      i_type intent = "google" ->
      i_service intent = Some "sms" ->
      supplied (d_access_token data) = Some token ->
      handle_sms env (default EmptyString (d_message data)) token = Ok r ->
      r !! "instruction" = Some instruction ->
      format_google_service_response env "sms" r = Ok shown ->
      exists response,
        fst (handle_chat env request w) = Ok response
        /\ response !! "instruction" = Some instruction
        /\ response !! "response" = Some (VStr shown)
        /\ response !! "source" = Some (VStr "google_sms")
        /\ response !! "recipient" = Some (get_or_none r "recipient")
        /\ response !! "message_content"
           = Some (get_or_none r "message_content"))
  /\ (forall response instruction,
        fst (handle_chat env request w) = Ok response ->
        response !! "instruction" = Some instruction ->
        exists data intent token r,
          request_json request = Ok data
          /\ classify env (default EmptyString (d_message data)) = Ok intent
          /\ i_type intent = "google"
          /\ i_service intent = Some "sms"
          /\ supplied (d_access_token data) = Some token
          /\ handle_sms env (default EmptyString (d_message data)) token = Ok r
          /\ r !! "instruction" = Some instruction
          /\ response !! "recipient" = Some (get_or_none r "recipient")
          /\ response !! "message_content"
             = Some (get_or_none r "message_content")).
Proof.
  split.
  - intros data intent token r instruction shown
      Hreq Hmsg Hcls Hty Hsvc Htok Hr Hi Hf.
    destruct (handle_chat_dispatch env request data intent "sms" token
                (handle_sms env) w Hreq Hmsg Hcls Hty Hsvc Htok
                (service_handlers_sms env)) as (w1 & _ & ->).
    unfold bind.
    rewrite (dispatch_instruction env _ _ _ _ r shown instruction w1 Hr Hf Hi).
    eexists. split; [reflexivity|].
    apply instruction_response_fields.
  - intros response instruction Hr Hi.
    unfold handle_chat, bind, call in Hr.
    destruct (request_json request) as [data|e] eqn:Hreq; [|discriminate].
    destruct (ensure_session_ok env (default "anon" (d_user_id data))
                (default "default" (d_session_id data)) w) as (w0 & Hs & _).
    rewrite Hs in Hr. unfold classify_message, bind, call, ret in Hr.
    destruct (PyStr.truthy (default EmptyString (d_message data))) eqn:Hmsg.
    + destruct (classify env (default EmptyString (d_message data)))
        as [intent|e] eqn:Hcls; [|discriminate].
      change (fst (route env (Some intent)
                     (default EmptyString (d_message data))
                     (d_access_token data)
                     (snd (session_state_set
                             (session_key (default "anon" (d_user_id data))
                                (default "default" (d_session_id data)))
                             "intent_classification" intent w0)))
              = Ok response) in Hr.
      destruct (route_instruction env _ _ _ _ _ _ Hr Hi)
        as (intent' & token & r & [= <-] & H).
      exists data, intent, token, r. tauto.
    + destruct (route_instruction env _ _ _ _ _ _ Hr Hi)
        as (intent' & token & r & [=] & _).
Qed.

(** ** The rule-based replies *)

Section Fallback.

Import PyStr.

Lemma any_in_matches (ws : list string) (message : string) :
  plain_phrases ws = true ->
  any_in ws (strip (lower message))
  = existsb (fun phrase => phrase_matches phrase message) ws.
Proof.
  unfold any_in, phrase_matches.
  induction ws as [|w ws IH]; [reflexivity|]. cbn [plain_phrases forallb existsb].
  intros H. apply andb_prop in H as [Hw Hws].
  apply andb_prop in Hw as [Hw He]. apply andb_prop in Hw as [Hl Hs].
  apply String.eqb_eq in Hl. rewrite Hl, contains_strip by assumption.
  f_equal. exact (IH Hws).
Qed.

Lemma get_fallback_response_spec (current_time message : string) :
  get_fallback_response current_time message
  = spec_fallback current_time message.
Proof.
  unfold get_fallback_response, spec_fallback, fallback_categories.
  cbn [first_category].
  rewrite !any_in_matches by reflexivity.
  repeat match goal with
         | |- context [existsb ?f ?ws] => destruct (existsb f ws); [reflexivity|]
         end.
  reflexivity.
Qed.

Lemma time_reply_nonempty (current_time : string) :
  time_reply current_time <> EmptyString.
Proof. discriminate. Qed.

Lemma get_fallback_response_nonempty (current_time message : string) :
  get_fallback_response current_time message <> EmptyString.
Proof.
  unfold get_fallback_response.
  repeat match goal with
         | |- context [any_in ?ws ?s] => destruct (any_in ws s)
         end; discriminate.
Qed.

Lemma converse_degraded (env : Env) (message : string) (w : World) :
  OllamaService.health_check env = false ->
  converse env message w
  = (Ok (get_fallback_response (strftime_now env) message),
     mkWorld (sessions w) (trace w ++ [EvHealthCheck])).
Proof.
  intros H. unfold converse, try_except, bind, emit. cbn. rewrite H.
  reflexivity.
Qed.

(** The response to an open-ended message when the health check fails:
    the cleaned-up rule-based reply, with source [assistant]. *)
Lemma handle_chat_degraded (env : Env) (request : Request) (data : ChatData)
    (intent : Intent) (text : string) (w : World) :
  request_json request = Ok data ->
  truthy (default EmptyString (d_message data)) = true ->
  classify env (default EmptyString (d_message data)) = Ok intent ->
  i_type intent = "llm" ->
  OllamaService.health_check env = false ->
  format_response env
    (get_fallback_response (strftime_now env)
       (default EmptyString (d_message data))) "assistant" = Ok text ->
  fst (handle_chat env request w) = Ok (plain_response text "assistant").
Proof.
  intros Hreq Hmsg Hcls Hty Hh Hfmt.
  destruct (handle_chat_route env request data intent w Hreq Hmsg Hcls)
    as (w1 & _ & ->).
  unfold route. rewrite Hty.
  change (String.eqb "llm" "google") with false.
  change (String.eqb "llm" "llm") with true. cbv iota.
  unfold bind. rewrite (converse_degraded env _ w1 Hh).
  rewrite (respond_ok env _ _ _ _ Hfmt). reflexivity.
Qed.

End Fallback.

(** C4. For a message classified as open-ended, when the health check
    of the generation service fails, the reply is the rule-based one:
    it is never empty, it is the reply of the first category of the
    ordered table (greeting, status, help, date and time, thanks,
    farewell) one of whose phrases occurs in the message, letter case
    aside, it is the greeting for "hello", and it is the capability
    summary when no category matches. The response carries it, cleaned
    up, under the source [assistant]. *)
Theorem fallback_reply_when_degraded (env : Env) (request : Request)
    (data : ChatData) (intent : Intent) (w : World) :
  request_json request = Ok data ->
  PyStr.truthy (default EmptyString (d_message data)) = true ->
  classify env (default EmptyString (d_message data)) = Ok intent ->
  i_type intent = "llm" ->
  OllamaService.health_check env = false ->
  let message := default EmptyString (d_message data) in
  let reply := get_fallback_response (strftime_now env) message in
  (forall text,
      format_response env reply "assistant" = Ok text ->
      fst (handle_chat env request w) = Ok (plain_response text "assistant"))
  /\ (forall w0, fst (converse env message w0) = Ok reply)
  /\ reply <> EmptyString
  /\ reply = default default_reply
               (first_category (fallback_categories (strftime_now env)) message)
  /\ get_fallback_response (strftime_now env) "hello" = greeting_reply
  /\ (first_category (fallback_categories (strftime_now env)) message = None ->
      reply = default_reply).
Proof.
  intros Hreq Hmsg Hcls Hty Hh message reply. subst message reply.
  split.
  { intros text Hfmt.
    exact (handle_chat_degraded env request data intent text w
             Hreq Hmsg Hcls Hty Hh Hfmt). }
  split; [intros w0; rewrite (converse_degraded env _ w0 Hh); reflexivity|].
  split; [apply get_fallback_response_nonempty|].
  split; [apply get_fallback_response_spec|].
  split; [reflexivity|].
  intros Hnone. rewrite get_fallback_response_spec. unfold spec_fallback.
  rewrite Hnone. reflexivity.
Qed.

(** ** The SMS handler *)

Section Sms.

Import PyStr.

Variable env : Env.

(** A message with "saying" or "to say" always splits in two, and
    what is extracted has no upper-case letter left. *)
Lemma sms_extract_some (message : string) :
  contains "saying" (lower message) || contains "to say" (lower message)
  = true ->
  exists recipient_query sms_content,
    sms_extract message = Some (recipient_query, sms_content)
    /\ is_lowered recipient_query = true
    /\ is_lowered sms_content = true.
Proof.
  intros H. apply orb_prop in H. unfold sms_extract.
  set (normal := replace "to say" "saying" (lower message)).
  assert (Hc : contains "saying" normal = true)
    by (apply replace_contains_new; [reflexivity|exact H]).
  assert (Hl : is_lowered normal = true)
    by (apply all_chars_replace_go; [reflexivity|apply lower_is_lowered]).
  destruct (split_two "saying" normal eq_refl Hc)
    as (before & after & rest & Hsplit).
  pose proof (all_chars_split_go (fun c => negb (is_upper c)) "saying"
                normal O EmptyString Hl eq_refl) as Hparts.
  fold (split "saying" normal) in Hparts. rewrite Hsplit in Hparts |- *.
  inversion Hparts as [|? ? Hb Hparts']; subst.
  inversion Hparts' as [|? ? Ha _]; subst.
  eexists. eexists. split; [reflexivity|]. split.
  - apply all_chars_strip_by.
    repeat (apply all_chars_replace_go; [reflexivity|]). exact Hb.
  - unfold strip_chars, strip. repeat apply all_chars_strip_by. exact Ha.
Qed.


Lemma sms_help_fields :
  sms_help !! "instruction" = None
  /\ sms_help !! "action" = Some (VStr "sms").
Proof. split; reflexivity. Qed.

Lemma handle_sms_immediate (message token : string) (ci : CommandInfo)
    (recipient_query sms_content : string) :
  parse_sms_command env message = Ok ci ->
  scheduled ci = None ->
  is_text_saying message = true ->
  sms_extract message = Some (recipient_query, sms_content) ->
  handle_sms env message token
  = Ok (sms_send_branch env token recipient_query sms_content).
Proof.
  intros Hp Hs Ht He. unfold handle_sms, catch, obind.
  rewrite Hp, Hs, Ht, He. reflexivity.
Qed.


(** The handler never raises. *)
Lemma handle_sms_total (message token : string) :
  exists r, handle_sms env message token = Ok r.
Proof.
  unfold handle_sms, catch.
  match goal with |- context [match ?o with Ok _ => _ | Raise _ => _ end] =>
    destruct o end; eexists; reflexivity.
Qed.

End Sms.




(** ** The calendar time range *)

Section Calendar.

Import PyStr.

Lemma any_in_first_in (ws : list string) (s : string) :
  any_in ws s = match first_in ws s with Some _ => true | None => false end.
Proof.
  unfold any_in. induction ws as [|w ws IH]; [reflexivity|]. cbn.
  destruct (contains w s); [reflexivity|exact IH].
Qed.

Lemma first_token_app (t1 t2 : list (string * string)) (s : string) :
  first_token (t1 ++ t2) s
  = match first_token t1 s with
    | Some token => Some token
    | None => first_token t2 s
    end.
Proof.
  induction t1 as [|[phrase token] t1 IH]; [reflexivity|]. cbn.
  destruct (contains phrase s); [reflexivity|exact IH].
Qed.

Lemma first_token_map (f : string -> string) (ws : list string) (s : string) :
  first_token (map (fun w => (w, f w)) ws) s = f <$> first_in ws s.
Proof.
  induction ws as [|w ws IH]; [reflexivity|]. cbn.
  destruct (contains w s); [reflexivity|exact IH].
Qed.

Lemma first_token_none (table : list (string * string)) (s : string) :
  (forall phrase token, In (phrase, token) table -> contains phrase s = false) ->
  first_token table s = None.
Proof.
  induction table as [|[phrase token] table IH]; [reflexivity|].
  intros H. cbn. rewrite (H phrase token) by (left; reflexivity).
  apply IH. intros p t Hin. apply (H p t). right. exact Hin.
Qed.

(** The range is the token of the first phrase of the table that
    occurs in the lower-cased message. *)
Lemma calendar_time_range_table (message : string) :
  calendar_time_range message
  = default "upcoming" (first_token range_table (lower message)).
Proof.
  unfold calendar_time_range.
  change range_table with
    ([ ("today", "today"); ("tomorrow", "tomorrow");
       ("this week", "this week"); ("next week", "next week") ]
     ++ map (fun month => (month, title month)) month_names
     ++ map (fun day => (day, title day)) day_names).
  rewrite !first_token_app, !first_token_map, !any_in_first_in.
  cbn [first_token].
  repeat match goal with
         | |- context [contains ?p (lower message)] =>
             destruct (contains p (lower message)); [reflexivity|]
         end.
  destruct (first_in month_names (lower message)); [reflexivity|].
  destruct (first_in day_names (lower message)); reflexivity.
Qed.

Lemma handle_google_calendar_list (env : Env) (message token : string)
    (built : gmap string PyVal) :
  credentials_valid env token = true ->
  google_api env token (ApiBuild "calendar" "v3") = Ok built ->
  calendar_command message = CmdList ->
  handle_google_calendar env message token
  = list_calendar_events env token (calendar_time_range message).
Proof.
  intros Hv Hb Hc. unfold handle_google_calendar, obind.
  rewrite Hv, Hb, Hc. cbn.
  unfold list_calendar_events, catch.
  destruct (list_window _ _) as [tmin tmax]. unfold obind.
  destruct (google_api env token (CalendarEventsList tmin tmax));
    reflexivity.
Qed.

End Calendar.

(** C8. The time range of a calendar message is the token of the first
    phrase, in the order "today", "tomorrow", "this week", "next week",
    the months, the days of the week, that occurs in the lower-cased
    message; each phrase alone gives its own token; a message with none
    of the phrases gives "upcoming", for which the listing covers the 30
    days from now. "what's on my calendar tomorrow" gives "tomorrow" and
    "show my calendar" gives "upcoming". *)
Theorem calendar_range_tokens (message : string) (now : DateTime) :
  calendar_time_range message
  = default "upcoming" (first_token range_table (PyStr.lower message))
  /\ forallb (fun entry => String.eqb (calendar_time_range (fst entry))
                             (snd entry)) range_table = true
  /\ (forallb (fun entry =>
                  negb (PyStr.contains (fst entry) (PyStr.lower message)))
         range_table = true ->
      calendar_time_range message = "upcoming")
  /\ list_window now "upcoming" = (now, add_days 30 now)
  /\ calendar_time_range "what's on my calendar tomorrow" = "tomorrow"
  /\ calendar_time_range "show my calendar" = "upcoming".
Proof.
  split; [apply calendar_time_range_table|].
  split; [vm_compute; reflexivity|].
  split; [|repeat split; reflexivity].
  intros H. rewrite calendar_time_range_table, first_token_none; [reflexivity|].
  intros phrase token Hin. rewrite forallb_forall in H.
  apply negb_true_iff. exact (H (phrase, token) Hin).
Qed.

(** ** Titles *)

Section Titles.

Import PyStr.

Lemma first_in_found (ws : list string) (s w : string) :
  first_in ws s = Some w -> In w ws /\ contains w s = true.
Proof.
  induction ws as [|w0 ws IH]; [discriminate|]. cbn.
  destruct (contains w0 s) eqn:Hc.
  - intros [= <-]. split; [left; reflexivity|exact Hc].
  - intros H. destruct (IH H) as [Hin Hw]. split; [right; exact Hin|exact Hw].
Qed.

(** A marker that occurs in the message splits it, and the piece that
    follows gives the title. *)
Lemma title_after_found (marker message default_title : string) :
  truthy marker = true ->
  contains marker message = true ->
  exists before piece rest,
    split marker message = before :: piece :: rest
    /\ title_after marker message default_title = title (strip piece).
Proof.
  intros Hm Hc.
  destruct (split_two marker message Hm Hc) as (before & piece & rest & Hs).
  exists before, piece, rest. split; [exact Hs|].
  unfold title_after. rewrite Hs. reflexivity.
Qed.

Lemma docs_title_order (message : string) :
  docs_title message
  = match first_in ["about"; "called"; "titled"] (lower message) with
    | Some marker => title_after marker message "New Document"
    | None =>
        if contains "document" (lower message)
        then title_after_kind "document" ["for"; "about"; "on"; "with"]
               (lower message) "New Document"
        else "New Document"
    end.
Proof.
  unfold docs_title. cbn [first_in].
  repeat match goal with
         | |- context [contains ?p (lower message)] =>
             destruct (contains p (lower message)); [reflexivity|]
         end.
  reflexivity.
Qed.

Lemma sheets_title_order (message : string) :
  sheets_title message
  = match first_in ["for"; "called"] (lower message) with
    | Some marker => title_after marker message "New Spreadsheet"
    | None =>
        if contains "spreadsheet" (lower message)
        then title_after_kind "spreadsheet"
               ["for"; "about"; "to track"; "to manage"]
               (lower message) "New Spreadsheet"
        else "New Spreadsheet"
    end.
Proof.
  unfold sheets_title. cbn [first_in].
  repeat match goal with
         | |- context [contains ?p (lower message)] =>
             destruct (contains p (lower message)); [reflexivity|]
         end.
  reflexivity.
Qed.

Lemma docs_title_default (message : string) :
  any_in ["about"; "called"; "titled"; "document"] (lower message) = false ->
  docs_title message = "New Document".
Proof.
  unfold any_in. cbn [existsb]. intros H.
  repeat (apply orb_false_elim in H as [? H]).
  unfold docs_title.
  repeat match goal with
         | Hc : contains ?p (lower message) = false |- _ => rewrite Hc; clear Hc
         end.
  reflexivity.
Qed.

Lemma sheets_title_default (message : string) :
  any_in ["for"; "called"; "spreadsheet"] (lower message) = false ->
  sheets_title message = "New Spreadsheet".
Proof.
  unfold any_in. cbn [existsb]. intros H.
  repeat (apply orb_false_elim in H as [? H]).
  unfold sheets_title.
  repeat match goal with
         | Hc : contains ?p (lower message) = false |- _ => rewrite Hc; clear Hc
         end.
  reflexivity.
Qed.

(** The title extracted is the one the creation request carries. *)
Lemma handle_google_docs_creates (env : Env) (message token : string)
    (built : gmap string PyVal) (e : exn) :
  credentials_valid env token = true ->
  google_api env token (ApiBuild "docs" "v1") = Ok built ->
  is_creation message = true ->
  google_api env token (DocsCreate (docs_title message)) = Raise e ->
  handle_google_docs env message token = Ok (error_result e).
Proof.
  intros Hv Hb Hc Hd. unfold handle_google_docs, catch, obind.
  rewrite Hv, Hb, Hc, Hd. reflexivity.
Qed.

End Titles.

(** The common word taken off is the first of the list that the text
    begins with. *)
Lemma strip_leading_word_find (words : list string) (t : string) :
  strip_leading_word words t
  = match List.find (fun word => PyStr.startswith word t) words with
    | Some word => PyStr.strip (PyStr.drop (String.length word) t)
    | None => t
    end.
Proof.
  induction words as [|word words IH]; [reflexivity|]. cbn.
  destruct (PyStr.startswith word t); [reflexivity|exact IH].
Qed.

(** The title taken from what follows the name of the kind of file. *)
Lemma title_after_kind_pieces (kind : string) (words : list string)
    (message_lower default_title before piece : string) (rest : list string) :
  Forall (fun word => PyStr.truthy word = true) words ->
  PyStr.split kind message_lower = before :: piece :: rest ->
  title_after_kind kind words message_lower default_title
  = let text := PyStr.strip piece in
    let potential_title :=
      match List.find (fun word => PyStr.startswith word text) words with
      | Some word => PyStr.strip (PyStr.drop (String.length word) text)
      | None => text
      end in
    if PyStr.truthy potential_title then PyStr.title potential_title
    else default_title.
Proof.
  intros Hw Hs. unfold title_after_kind. rewrite Hs.
  rewrite strip_leading_word_find. cbv zeta.
  destruct (PyStr.strip piece) as [|c text] eqn:Ht; [|reflexivity].
  cbn [PyStr.truthy PyStr.is_empty negb].
  assert (Hnone : List.find (fun word => PyStr.startswith word EmptyString)
                    words = None).
  { induction Hw as [|word words Hword _ IH]; [reflexivity|]. cbn.
    destruct word; [discriminate|]. exact IH. }
  rewrite Hnone. reflexivity.
Qed.

(** C9 (amended). For a document the markers are tried in the order
    "about", "called", "titled", for a spreadsheet in the order "for",
    "called", letter case aside: when the first marker found occurs in
    the message as typed, it splits the message and the trimmed,
    title-cased piece that follows it is the title. With no marker, the
    lower-cased message is split on "document" or "spreadsheet": the
    piece that follows, trimmed, less the first of the common words
    that it begins with and trimmed again, is the title, title-cased,
    if anything is left; the title is the default "New Document" or
    "New Spreadsheet" otherwise. "create a document called Budget Plan"
    gives "Budget Plan" and "create a new document" gives
    "New Document". *)
Theorem title_extraction (message marker : string) :
  (first_in ["about"; "called"; "titled"] (PyStr.lower message) = Some marker ->
   PyStr.contains marker message = true ->
   exists before piece rest,
     PyStr.split marker message = before :: piece :: rest
     /\ docs_title message = PyStr.title (PyStr.strip piece))
  /\ (first_in ["for"; "called"] (PyStr.lower message) = Some marker ->
      PyStr.contains marker message = true ->
      exists before piece rest,
        PyStr.split marker message = before :: piece :: rest
        /\ sheets_title message = PyStr.title (PyStr.strip piece))
  /\ (first_in ["about"; "called"; "titled"] (PyStr.lower message) = None ->
      (PyStr.contains "document" (PyStr.lower message) = false ->
       docs_title message = "New Document")
      /\ (PyStr.contains "document" (PyStr.lower message) = true ->
          exists before piece rest,
            PyStr.split "document" (PyStr.lower message)
            = before :: piece :: rest)
      /\ (forall before piece rest,
             PyStr.split "document" (PyStr.lower message)
             = before :: piece :: rest ->
             let text := PyStr.strip piece in
             let potential_title :=
               match List.find (fun word => PyStr.startswith word text)
                       ["for"; "about"; "on"; "with"] with
               | Some word => PyStr.strip (PyStr.drop (String.length word) text)
               | None => text
               end in
             docs_title message
             = if PyStr.truthy potential_title
               then PyStr.title potential_title
               else "New Document"))
  /\ (first_in ["for"; "called"] (PyStr.lower message) = None ->
      (PyStr.contains "spreadsheet" (PyStr.lower message) = false ->
       sheets_title message = "New Spreadsheet")
      /\ (PyStr.contains "spreadsheet" (PyStr.lower message) = true ->
          exists before piece rest,
            PyStr.split "spreadsheet" (PyStr.lower message)
            = before :: piece :: rest)
      /\ (forall before piece rest,
             PyStr.split "spreadsheet" (PyStr.lower message)
             = before :: piece :: rest ->
             let text := PyStr.strip piece in
             let potential_title :=
               match List.find (fun word => PyStr.startswith word text)
                       ["for"; "about"; "to track"; "to manage"] with
               | Some word => PyStr.strip (PyStr.drop (String.length word) text)
               | None => text
               end in
             sheets_title message
             = if PyStr.truthy potential_title
               then PyStr.title potential_title
               else "New Spreadsheet"))
  /\ (PyStr.any_in ["about"; "called"; "titled"; "document"]
        (PyStr.lower message) = false ->
      docs_title message = "New Document")
  /\ (PyStr.any_in ["for"; "called"; "spreadsheet"] (PyStr.lower message)
      = false ->
      sheets_title message = "New Spreadsheet")
  /\ docs_title "create a document called Budget Plan" = "Budget Plan"
  /\ docs_title "create a new document" = "New Document".
Proof.
  split; [|split; [|split; [|split; [|split; [|split; [|split]]]]]].
  - intros Hf Hc. rewrite docs_title_order, Hf.
    apply title_after_found; [|exact Hc].
    apply first_in_found in Hf as [Hin _].
    repeat (destruct Hin as [<-|Hin]; [reflexivity|]). destruct Hin.
  - intros Hf Hc. rewrite sheets_title_order, Hf.
    apply title_after_found; [|exact Hc].
    apply first_in_found in Hf as [Hin _].
    repeat (destruct Hin as [<-|Hin]; [reflexivity|]). destruct Hin.
  - intros Hf. rewrite docs_title_order, Hf. split; [|split].
    + intros ->. reflexivity.
    + intros Hc. exact (split_two "document" _ eq_refl Hc).
    + intros before piece rest Hs.
      assert (Hc : PyStr.contains "document" (PyStr.lower message) = true).
      { destruct (PyStr.contains "document" (PyStr.lower message)) eqn:E;
          [reflexivity|].
        unfold PyStr.split in Hs.
        rewrite (split_go_without _ _ _ E) in Hs. discriminate. }
      rewrite Hc.
      apply title_after_kind_pieces with (before := before) (rest := rest);
        [repeat constructor|exact Hs].
  - intros Hf. rewrite sheets_title_order, Hf. split; [|split].
    + intros ->. reflexivity.
    + intros Hc. exact (split_two "spreadsheet" _ eq_refl Hc).
    + intros before piece rest Hs.
      assert (Hc : PyStr.contains "spreadsheet" (PyStr.lower message) = true).
      { destruct (PyStr.contains "spreadsheet" (PyStr.lower message)) eqn:E;
          [reflexivity|].
        unfold PyStr.split in Hs.
        rewrite (split_go_without _ _ _ E) in Hs. discriminate. }
      rewrite Hc.
      apply title_after_kind_pieces with (before := before) (rest := rest);
        [repeat constructor|exact Hs].
  - apply docs_title_default.
  - apply sheets_title_default.
  - reflexivity.
  - reflexivity.
Qed.

(** C9, as stated, fails. With the order "called", "titled", "about",
    "for" the first message below would get the title "Notes About
    Cats" and the third "Budget For Q3": the handlers look for "about",
    respectively "for", first. The second message has no marker and does
    not get the default title. The title stops at the next occurrence of
    the marker. *)
Lemma title_marker_order_differs :
  docs_title "create a document called Notes about cats" = "Cats"
  /\ spec_title spec_markers "New Document"
       "create a document called Notes about cats" = "Notes About Cats"
  /\ docs_title "create a document budget report" = "Budget Report"
  /\ spec_title spec_markers "New Document" "create a document budget report"
     = "New Document"
  /\ sheets_title "create a spreadsheet called Budget for Q3" = "Q3"
  /\ spec_title spec_markers "New Spreadsheet"
       "create a spreadsheet called Budget for Q3" = "Budget For Q3"
  /\ docs_title "new notes about cats about dogs" = "Cats"
  /\ spec_title spec_markers "New Document" "new notes about cats about dogs"
     = "Cats About Dogs".
Proof. repeat split; reflexivity. Qed.

(** ** Sessions *)

Section Sessions.

Variable env : Env.

Lemma ensure_session_creates (user_id session_id : string) (w : World) :
  sessions w !! session_key user_id session_id = None ->
  ensure_session env user_id session_id w
  = (Ok (session_key user_id session_id),
     mkWorld (<[session_key user_id session_id := mkSession ∅ (now env)]>
                (sessions w)) (trace w)).
Proof. intros H. unfold ensure_session. rewrite H. reflexivity. Qed.

Lemma ensure_session_keeps (user_id session_id : string) (w : World)
    (s : Session) :
  sessions w !! session_key user_id session_id = Some s ->
  ensure_session env user_id session_id w
  = (Ok (session_key user_id session_id), w).
Proof. intros H. unfold ensure_session. rewrite H. reflexivity. Qed.

(** After a call the entry exists. *)
Lemma ensure_session_present (user_id session_id : string) (w : World) :
  is_Some (sessions (snd (ensure_session env user_id session_id w))
             !! session_key user_id session_id).
Proof.
  destruct (sessions w !! session_key user_id session_id) as [s|] eqn:H.
  - rewrite (ensure_session_keeps _ _ _ s H). cbn [snd]. rewrite H. eauto.
  - rewrite (ensure_session_creates _ _ _ H). cbn [snd sessions].
    rewrite lookup_insert_eq. eauto.
Qed.

(** A second call with the same pair returns the same entry and
    changes nothing. *)
Lemma ensure_session_again (user_id session_id : string) (w : World) :
  let w' := snd (ensure_session env user_id session_id w) in
  ensure_session env user_id session_id w'
  = (Ok (session_key user_id session_id), w').
Proof.
  intros w'. destruct (ensure_session_present user_id session_id w) as [s Hs].
  exact (ensure_session_keeps user_id session_id w' s Hs).
Qed.

(** Entries under other keys are left alone. *)
Lemma ensure_session_other (user_id session_id key : string) (w : World) :
  key <> session_key user_id session_id ->
  sessions (snd (ensure_session env user_id session_id w)) !! key
  = sessions w !! key.
Proof.
  intros Hne.
  destruct (sessions w !! session_key user_id session_id) as [s|] eqn:H.
  - rewrite (ensure_session_keeps _ _ _ s H). reflexivity.
  - rewrite (ensure_session_creates _ _ _ H). cbn [snd sessions].
    rewrite lookup_insert_ne; [reflexivity|congruence].
Qed.

End Sessions.

(** C10. Two distinct pairs can share a session entry: the pairs
    ("a_b", "c") and ("a", "b_c") have the same key, so the call for the
    second pair returns the entry created for the first and creates
    nothing. *)
Theorem session_pairs_collide (env : Env) :
  ("a_b", "c") <> ("a", "b_c")
  /\ session_key "a_b" "c" = session_key "a" "b_c"
  /\ fst (ensure_session env "a_b" "c" empty_world) = Ok "a_b_c"
  /\ ensure_session env "a" "b_c"
       (snd (ensure_session env "a_b" "c" empty_world))
     = (Ok "a_b_c", snd (ensure_session env "a_b" "c" empty_world)).
Proof.
  split; [discriminate|]. split; [reflexivity|]. split; [reflexivity|].
  exact (ensure_session_again env "a_b" "c" empty_world).
Qed.
(** ** Instances *)

Lemma fallback_reply_when_degraded_witness :
  PyStr.truthy "hello" = true
  /\ OllamaService.health_check env_ollama_down = false
  /\ fst (handle_chat env_ollama_down (chat_request "hello" None) empty_world)
     = Ok (plain_response greeting_reply "assistant").
Proof.
  split; [reflexivity|]. split; [reflexivity|].
  apply (proj1 (fallback_reply_when_degraded env_ollama_down
                  (chat_request "hello" None)
                  (mkChatData (Some "u1") (Some "s1") (Some "hello") None)
                  (mkIntent "llm" None) empty_world
                  eq_refl eq_refl eq_refl eq_refl eq_refl)).
  reflexivity.
Defined.

Lemma auth_gate_witness :
  PyStr.truthy "what's on my calendar" = true
  /\ supplied None = None
  /\ trace (snd (handle_chat (env_google "calendar" true (Ok ∅))
                   (chat_request "what's on my calendar" None) empty_world))
     = []
  /\ fst (handle_chat (env_google "calendar" true (Ok ∅))
            (chat_request "what's on my calendar" None) empty_world)
     = Ok (plain_response
             "Please sign in with Google to use Calendar services."
             "auth_required").
Proof.
  split; [reflexivity|]. split; [reflexivity|].
  destruct (auth_gate (env_google "calendar" true (Ok ∅))
              (chat_request "what's on my calendar" None)
              (mkChatData (Some "u1") (Some "s1")
                 (Some "what's on my calendar") None)
              (mkIntent "google" (Some "calendar")) "calendar" empty_world
              eq_refl eq_refl eq_refl eq_refl eq_refl eq_refl)
    as (Htrace & _ & Htext).
  split; [exact Htrace|]. apply Htext. reflexivity.
Defined.


Lemma instruction_side_channel_witness :
  handle_sms (env_google "sms" true (Ok ∅)) "Text Mom saying I'll be late"
    "token"
  = Ok (sms_send_branch (env_google "sms" true (Ok ∅)) "token" "mom"
          "i'll be late")
  /\ exists response,
       fst (handle_chat (env_google "sms" true (Ok ∅))
              (chat_request "Text Mom saying I'll be late" (Some "token"))
              empty_world) = Ok response
       /\ response !! "instruction" = Some (VStr "SEND_SMS")
       /\ response !! "recipient" = Some (VStr "mom")
       /\ response !! "message_content" = Some (VStr "i'll be late").
Proof.
  split; [reflexivity|].
  destruct (proj1 (instruction_side_channel (env_google "sms" true (Ok ∅))
                     (chat_request "Text Mom saying I'll be late"
                        (Some "token")) empty_world)
              (mkChatData (Some "u1") (Some "s1")
                 (Some "Text Mom saying I'll be late") (Some "token"))
              (mkIntent "google" (Some "sms")) "token"
              (sms_send_branch (env_google "sms" true (Ok ∅)) "token" "mom"
                 "i'll be late")
              (VStr "SEND_SMS")
              (PyStr.join [ "✅ SMS to mom: "; PyStr.dquote; "i'll be late";
                            PyStr.dquote; " is ready. Opening SMS app..." ])
              eq_refl eq_refl eq_refl eq_refl eq_refl eq_refl eq_refl
              eq_refl eq_refl)
    as (response & Hr & Hi & _ & _ & Hrec & Hcontent).
  exists response. repeat split; assumption.
Defined.


Lemma calendar_range_tokens_witness :
  forallb (fun entry =>
             negb (PyStr.contains (fst entry) (PyStr.lower "show my calendar")))
    range_table = true
  /\ calendar_time_range "show my calendar" = "upcoming".
Proof.
  split; [reflexivity|].
  apply (proj1 (proj2 (proj2 (calendar_range_tokens "show my calendar"
                                (mkDateTime 738886 0))))).
  reflexivity.
Defined.

Lemma title_extraction_witness :
  first_in ["about"; "called"; "titled"]
    (PyStr.lower "create a document called Budget Plan") = Some "called"
  /\ PyStr.contains "called" "create a document called Budget Plan" = true
  /\ (exists before piece rest,
         PyStr.split "called" "create a document called Budget Plan"
         = before :: piece :: rest
         /\ docs_title "create a document called Budget Plan"
            = PyStr.title (PyStr.strip piece))
  /\ first_in ["about"; "called"; "titled"]
       (PyStr.lower "Create a Document for budget report") = None
  /\ PyStr.split "document" (PyStr.lower "Create a Document for budget report")
     = ["create a "; " for budget report"]
  /\ docs_title "Create a Document for budget report" = "Budget Report"
  /\ first_in ["for"; "called"] (PyStr.lower "new spreadsheet to track costs")
     = None
  /\ PyStr.split "spreadsheet" (PyStr.lower "new spreadsheet to track costs")
     = ["new "; " to track costs"]
  /\ sheets_title "new spreadsheet to track costs" = "Costs".
Proof.
  split; [reflexivity|]. split; [reflexivity|].
  split.
  { exact (proj1 (title_extraction "create a document called Budget Plan"
                    "called") eq_refl eq_refl). }
  split; [reflexivity|]. split; [reflexivity|].
  split.
  { exact (proj2 (proj2 (proj1 (proj2 (proj2
             (title_extraction "Create a Document for budget report"
                "called"))) eq_refl))
             "create a " " for budget report" [] eq_refl). }
  split; [reflexivity|]. split; [reflexivity|].
  exact (proj2 (proj2 (proj1 (proj2 (proj2 (proj2
           (title_extraction "new spreadsheet to track costs" "called"))))
           eq_refl))
           "new " " to track costs" [] eq_refl).
Defined.

(** * Further properties of the code *)

(** ** The Ollama client *)

Section OllamaStream.

Import OllamaService.

Lemma stream_chunks_upto_done (pre post : list StreamLine) (r : option string) :
  forallb (fun line => negb (is_done_line line)) pre = true ->
  stream_chunks (pre ++ LineJson r true :: post)
  = (line_texts (pre ++ [LineJson r true]), true).
Proof.
  induction pre as [|line pre IH]; intros H.
  - destruct r; reflexivity.
  - cbn in H. apply andb_prop in H as [Hl H]. specialize (IH H).
    destruct line as [| |t d]; cbn; try exact IH.
    destruct d; [discriminate|]. rewrite IH. destruct t; reflexivity.
Qed.

Lemma stream_chunks_without_done (content : list StreamLine) :
  forallb (fun line => negb (is_done_line line)) content = true ->
  stream_chunks content = (line_texts content, false).
Proof.
  induction content as [|line content IH]; intros H; [reflexivity|].
  cbn in H. apply andb_prop in H as [Hl H]. specialize (IH H).
  destruct line as [| |t d]; cbn; try exact IH.
  destruct d; [discriminate|]. rewrite IH. destruct t; reflexivity.
Qed.

Lemma fault_chunk_is_error (env : Env) (e : exn) :
  PyStr.startswith "Error: " (fault_chunk env e) = true.
Proof. destruct e as [[] msg]; reflexivity. Qed.

End OllamaStream.

(** X1. With status 200 the fragments that [generate] yields are the
    [response] texts of the lines up to the first line that says [done],
    that line included; what the stream carries after it, a fault
    included, is never looked at. *)
Theorem generate_stops_at_done (env : Env) (prompt : string)
    (text : outcome string) (pre post : list StreamLine) (r : option string)
    (ending : option exn) :
  http_post_generate env prompt
  = PostResponse 200 text (pre ++ LineJson r true :: post) ending ->
  forallb (fun line => negb (is_done_line line)) pre = true ->
  OllamaService.generate env prompt = line_texts (pre ++ [LineJson r true]).
Proof.
  intros Hp Hpre. unfold OllamaService.generate. rewrite Hp. cbn.
  rewrite (stream_chunks_upto_done pre post r Hpre). reflexivity.
Qed.

(** X2. A failure of the transport is reported inside the generated
    text: when the request raises or the status is not 200, [generate]
    yields one fragment, which starts with "Error: "; when the stream
    breaks before a [done] line, the texts received so far are followed
    by such a fragment. *)
Theorem generate_reports_faults_in_band (env : Env) (prompt : string) :
  (forall e,
      http_post_generate env prompt = PostRaise e ->
      exists fragment,
        OllamaService.generate env prompt = [fragment]
        /\ PyStr.startswith "Error: " fragment = true)
  /\ (forall status text content ending,
        http_post_generate env prompt
        = PostResponse status text content ending ->
        status <> 200 ->
        exists fragment,
          OllamaService.generate env prompt = [fragment]
          /\ PyStr.startswith "Error: " fragment = true)
  /\ (forall text content e,
        http_post_generate env prompt
        = PostResponse 200 text content (Some e) ->
        forallb (fun line => negb (is_done_line line)) content = true ->
        exists fragment,
          OllamaService.generate env prompt = line_texts content ++ [fragment]
          /\ PyStr.startswith "Error: " fragment = true).
Proof.
  split; [|split].
  - intros e Hp. unfold OllamaService.generate. rewrite Hp.
    eexists. split; [reflexivity|apply fault_chunk_is_error].
  - intros status text content ending Hp Hs.
    unfold OllamaService.generate. rewrite Hp.
    apply Z.eqb_neq in Hs. rewrite Hs. cbn [negb].
    destruct text as [body|e].
    + eexists. split; [reflexivity|reflexivity].
    + eexists. split; [reflexivity|apply fault_chunk_is_error].
  - intros text content e Hp Hc.
    unfold OllamaService.generate. rewrite Hp. cbn.
    rewrite (stream_chunks_without_done content Hc).
    eexists. split; [reflexivity|apply fault_chunk_is_error].
Qed.

Section ClientFacts.

Import PyStr OllamaClient.

Lemma rstrip_by_twice (f : ascii -> bool) (s : string) :
  rstrip_by f (rstrip_by f s) = rstrip_by f s.
Proof.
  induction s as [|c s IH]; [reflexivity|].
  rewrite rstrip_by_cons.
  destruct (f c && all_chars f s) eqn:H; [reflexivity|].
  rewrite rstrip_by_cons, IH.
  rewrite <- (rstrip_by_empty f (rstrip_by f s)), IH, rstrip_by_empty, H.
  reflexivity.
Qed.

Lemma rstrip_by_ends (f : ascii -> bool) (s : string) :
  is_empty (rstrip_by f s) || ends_outside f (rstrip_by f s) = true.
Proof.
  induction s as [|c s IH]; [reflexivity|].
  rewrite rstrip_by_cons.
  destruct (f c && all_chars f s) eqn:H; [reflexivity|].
  cbn [is_empty orb ends_outside].
  destruct (rstrip_by f s) as [|c' r] eqn:Hr.
  - pose proof (rstrip_by_empty f s) as He. rewrite Hr in He. cbn in He.
    rewrite <- He, andb_true_r in H. rewrite H. reflexivity.
  - exact IH.
Qed.

Lemma rstrip_by_suffix (f : ascii -> bool) (s : string) :
  exists removed,
    s = String.append (rstrip_by f s) removed /\ all_chars f removed = true.
Proof.
  induction s as [|c s (removed & Hs & Hr)].
  - exists EmptyString. split; reflexivity.
  - rewrite rstrip_by_cons. destruct (f c && all_chars f s) eqn:H.
    + exists (String c s). split; [reflexivity|exact H].
    + exists removed. split; [|exact Hr].
      rewrite append_cons, <- Hs. reflexivity.
Qed.

End ClientFacts.

(** X3. The client keeps the base URL without its trailing slashes, and
    only those are removed: the URL given is the one kept followed by
    slashes, the one kept is empty or ends with another character, and
    building a client from the URL kept changes nothing. *)
Theorem client_base_url_normalised (base_url model : string) :
  let c := OllamaClient.init base_url model in
  (exists slashes,
      base_url = String.append (OllamaClient.c_base_url c) slashes
      /\ PyStr.all_chars OllamaClient.is_slash slashes = true)
  /\ PyStr.is_empty (OllamaClient.c_base_url c)
     || PyStr.ends_outside OllamaClient.is_slash (OllamaClient.c_base_url c)
     = true
  /\ OllamaClient.init (OllamaClient.c_base_url c) model = c.
Proof.
  cbn. split; [apply rstrip_by_suffix|]. split; [apply rstrip_by_ends|].
  unfold OllamaClient.init. rewrite rstrip_by_twice. reflexivity.
Qed.

(** X4. The HTTP session of the client is created once and reused until
    it is closed: the session handed out is open; asking again hands out
    the same session and creates none; after [close] the next request
    creates a new one; closing twice is closing once. *)
Theorem client_session_lifecycle (c : OllamaClient.Client) :
  let '(s, c1, _) := OllamaClient.get_session c in
  OllamaClient.cs_closed s = false
  /\ OllamaClient.c_session c1 = Some s
  /\ OllamaClient.get_session c1 = (s, c1, false)
  /\ snd (OllamaClient.get_session (OllamaClient.close c1)) = true
  /\ OllamaClient.close (OllamaClient.close c1) = OllamaClient.close c1
  /\ OllamaClient.c_base_url (OllamaClient.close c1) = OllamaClient.c_base_url c.
Proof.
  destruct c as [url model [[[]]|]]; cbn; repeat split; reflexivity.
Qed.

(** ** The start-up manager *)

Section Startup.

Import OllamaManager.

Lemma wait_loop_spec (h : Host) (retries : nat) (c : Clock) :
  (let '(ready, c') := wait_loop h retries c in
   if ready then
     exists rounds,
       rounds < retries
       /\ probes c' = probes c + rounds + 1
       /\ slept c' = slept c + rounds
       /\ answers (probe h (probes c + rounds)) = true
       /\ forall i, i < rounds -> answers (probe h (probes c + i)) = false
   else
     probes c' = probes c + retries
     /\ slept c' = slept c + retries
     /\ forall i, i < retries -> answers (probe h (probes c + i)) = false)%nat.
Proof.
  revert c. induction retries as [|n IH]; intros c.
  - cbn. split; [lia|]. split; [lia|]. intros i Hi. lia.
  - cbn [wait_loop is_ollama_running].
    destruct (answers (probe h (probes c))) eqn:Ha.
    + exists 0%nat. cbn. split; [lia|]. split; [lia|]. split; [lia|].
      split; [rewrite Nat.add_0_r; exact Ha|]. intros i Hi. lia.
    + specialize (IH (sleep 1 (mkClock (S (probes c)) (slept c)))).
      destruct (wait_loop h n (sleep 1 (mkClock (S (probes c)) (slept c))))
        as [[] c'].
      * destruct IH as (rounds & Hlt & Hp & Hs & Hyes & Hno). cbn in *.
        exists (S rounds). split; [lia|]. split; [lia|]. split; [lia|].
        split.
        -- replace (probes c + S rounds)%nat with (S (probes c + rounds))
             by lia.
           exact Hyes.
        -- intros i Hi. destruct i as [|i].
           ++ rewrite Nat.add_0_r. exact Ha.
           ++ replace (probes c + S i)%nat with (S (probes c + i)) by lia.
              apply Hno. lia.
      * destruct IH as (Hp & Hs & Hno). cbn in *.
        split; [lia|]. split; [lia|].
        intros i Hi. destruct i as [|i].
        -- rewrite Nat.add_0_r. exact Ha.
        -- replace (probes c + S i)%nat with (S (probes c + i)) by lia.
           apply Hno. lia.
Qed.

(** The first piece of a split on one character does not have that
    character. *)
Lemma split_go_head_free (c : ascii) (s acc : string) :
  PyStr.all_chars (fun a => negb (Ascii.eqb c a)) acc = true ->
  PyStr.all_chars (fun a => negb (Ascii.eqb c a))
    (hd EmptyString (PyStr.split_go (String c EmptyString) s O acc)) = true.
Proof.
  revert acc. induction s as [|a s IH]; intros acc Hacc.
  - cbn. rewrite all_chars_rev_acc, Hacc. reflexivity.
  - cbn [PyStr.split_go PyStr.startswith].
    destruct (Ascii.eqb c a) eqn:Hca.
    + cbn. rewrite all_chars_rev_acc, Hacc. reflexivity.
    + cbn [andb]. apply IH. cbn. rewrite Hca, Hacc. reflexivity.
Qed.

Lemma contains_char_all (c : ascii) (s : string) :
  PyStr.all_chars (fun a => negb (Ascii.eqb c a)) s = true ->
  PyStr.contains (String c EmptyString) s = false.
Proof.
  induction s as [|a s IH]; intros H; [reflexivity|].
  cbn in H. apply andb_prop in H as [Ha H].
  rewrite contains_cons, (IH H). cbn.
  apply negb_true_iff in Ha. rewrite Ha. reflexivity.
Qed.

Lemma model_names_untagged (models : list (option string)) (name : string) :
  In name (model_names models) -> PyStr.contains ":" name = false.
Proof.
  unfold model_names. rewrite in_map_iff. intros (m & <- & _).
  apply contains_char_all. apply split_go_head_free. reflexivity.
Qed.

End Startup.

(** X5. [wait_for_ollama] gives up after 30 probes and 30 seconds, all
    of them unanswered; otherwise it returns at the first probe that is
    answered, having slept one second after each of the unanswered
    probes before it. *)
Theorem wait_for_ollama_bounded (h : OllamaManager.Host)
    (c : OllamaManager.Clock) :
  (let '(ready, c') := OllamaManager.wait_for_ollama h c in
   if ready then
     exists rounds,
       rounds < 30
       /\ OllamaManager.probes c' = OllamaManager.probes c + rounds + 1
       /\ OllamaManager.slept c' = OllamaManager.slept c + rounds
       /\ OllamaManager.answers
            (OllamaManager.probe h (OllamaManager.probes c + rounds)) = true
       /\ forall i, i < rounds ->
            OllamaManager.answers
              (OllamaManager.probe h (OllamaManager.probes c + i)) = false
   else
     OllamaManager.probes c' = OllamaManager.probes c + 30
     /\ OllamaManager.slept c' = OllamaManager.slept c + 30
     /\ forall i, i < 30 ->
          OllamaManager.answers
            (OllamaManager.probe h (OllamaManager.probes c + i)) = false)%nat.
Proof. exact (wait_loop_spec h OllamaManager.max_retries c). Qed.

(** X6. When Ollama does not answer at first, is installed and
    launched, and does not answer two seconds later, the manager
    reports failure at once: two probes, two seconds, and no waiting
    loop, whatever later probes would have answered. *)
Theorem ensure_ollama_ready_gives_up_early (h : OllamaManager.Host)
    (c : OllamaManager.Clock) :
  OllamaManager.answers (OllamaManager.probe h (OllamaManager.probes c))
  = false ->
  OllamaManager.which h = Ok 0 ->
  OllamaManager.popen h = Ok tt ->
  OllamaManager.answers (OllamaManager.probe h (S (OllamaManager.probes c)))
  = false ->
  OllamaManager.ensure_ollama_ready h c
  = (false,
     OllamaManager.mkClock (S (S (OllamaManager.probes c)))
       (OllamaManager.slept c + 2)%nat).
Proof.
  intros H1 Hw Hp H2.
  unfold OllamaManager.ensure_ollama_ready, OllamaManager.is_ollama_running,
    OllamaManager.start_ollama, OllamaManager.is_ollama_running.
  rewrite H1, Hw, Hp. cbn. rewrite H2. reflexivity.
Qed.

(** X7. A model configured with a tag (a name with a colon) is never
    found among the installed models, whose names are cut at the colon:
    with status 200 the pull is requested whatever is installed. *)
Theorem tagged_model_always_pulled (model : string)
    (models : list (option string)) (pull : outcome unit) :
  PyStr.contains ":" model = true ->
  snd (OllamaManager.ensure_model_exists model (Ok (200, Ok models)) pull)
  = true.
Proof.
  intros Hm. unfold OllamaManager.ensure_model_exists. cbn.
  assert (Hmiss : OllamaManager.missing model
                    (OllamaManager.model_names models) = true).
  { unfold OllamaManager.missing. apply negb_true_iff.
    destruct (existsb (String.eqb model) (OllamaManager.model_names models))
      eqn:He; [|reflexivity].
    apply existsb_exists in He as (name & Hin & Heq).
    apply String.eqb_eq in Heq. subst name.
    apply model_names_untagged in Hin. congruence. }
  rewrite Hmiss. destruct pull; reflexivity.
Qed.

(** X8. [init_services] is guarded by the classifier alone. Once it
    has succeeded a further call constructs nothing and changes nothing.
    But when the first call, made with nothing set, raises after the
    classifier is constructed, every later call returns without
    constructing anything, so the services that were not set stay
    unset. *)
Theorem init_services_guard (k k' : Services.Constructors) :
  (forall g,
      fst (Services.init_services k g) = Ok tt ->
      Services.intent_classifier g = false ->
      Services.ready (snd (Services.init_services k g)) = true
      /\ Services.init_services k' (snd (Services.init_services k g))
         = (Ok tt, snd (Services.init_services k g)))
  /\ (forall e,
        fst (Services.init_services k Services.unset) = Raise e ->
        Services.new_intent_classifier k = Ok tt ->
        Services.init_services k' (snd (Services.init_services k Services.unset))
        = (Ok tt, snd (Services.init_services k Services.unset))
        /\ Services.ready (snd (Services.init_services k Services.unset))
           = false).
Proof.
  destruct k as [k1 k2 k3 k4 k5].
  unfold Services.init_services, Services.ready, Services.unset. cbn.
  split.
  - intros [ic os rf cs ss] H Hic. cbn in *. subst ic. cbn in *.
    destruct k1 as [[]|]; [|discriminate].
    destruct k2 as [[]|]; [|discriminate].
    destruct k3 as [[]|]; [|discriminate].
    destruct k4 as [[]|]; [|discriminate].
    destruct k5 as [[]|]; [|discriminate].
    split; reflexivity.
  - intros e H Hk1. subst k1.
    destruct k2 as [[]|]; [|split; reflexivity].
    destruct k3 as [[]|]; [|split; reflexivity].
    destruct k4 as [[]|]; [|split; reflexivity].
    destruct k5 as [[]|]; [discriminate|split; reflexivity].
Qed.

(** ** The calendar windows *)

Section Windows.

Lemma list_window_day (now : DateTime) (time_range : string) :
  In time_range day_tokens ->
  list_window now time_range
  = (let days_ahead := index_of time_range day_tokens - weekday now in
     let days_ahead := if days_ahead <=? 0 then days_ahead + 7 else days_ahead in
     (day_start (add_days days_ahead now), day_end (add_days days_ahead now)))
  /\ 0 <= index_of time_range day_tokens <= 6.
Proof.
  intros H.
  repeat (destruct H as [<-|H]; [split; [reflexivity|cbn; lia]|]).
  destruct H.
Qed.

Lemma weekday_range (d : DateTime) : 0 <= weekday d < 7.
Proof. unfold weekday. apply Z.mod_pos_bound. lia. Qed.

Lemma weekday_shift (d : DateTime) (n k : Z) :
  0 <= k < 7 ->
  (exists q, n = k - weekday d + 7 * q) ->
  weekday (day_start (add_days n d)) = k.
Proof.
  intros Hk (q & ->). unfold weekday, day_start, add_days. cbn [dt_ordinal].
  pose proof (Z.div_mod (dt_ordinal d + 6) 7 ltac:(lia)) as Hdm.
  replace (dt_ordinal d + (k - (dt_ordinal d + 6) mod 7 + 7 * q) + 6)
    with (k + (q + (dt_ordinal d + 6) / 7) * 7) by lia.
  rewrite Z.mod_add by lia. apply Z.mod_small. exact Hk.
Qed.

End Windows.

(** X9. Whatever the time range, the window that
    [list_calendar_events] asks for is not inverted: [time_min] is not
    after [time_max]. *)
Theorem list_window_ordered (now : DateTime) (time_range : string) :
  dt_le (fst (list_window now time_range)) (snd (list_window now time_range)).
Proof.
  unfold list_window, dt_le.
  repeat match goal with
         | |- context [String.eqb time_range ?t] =>
             destruct (String.eqb time_range t)
         end;
    try (cbn; lia).
  destruct (existsb (String.eqb time_range) day_tokens); cbn; lia.
Qed.

(** X10. For the name of a day of the week the window is one whole day,
    from midnight to the last microsecond, that falls on that day of the
    week and lies one to seven days ahead: a request for today's day of
    the week gets the same day of next week, never today. *)
Theorem list_window_weekday (now : DateTime) (time_range : string) :
  In time_range day_tokens ->
  exists days_ahead,
    1 <= days_ahead <= 7
    /\ list_window now time_range
       = (day_start (add_days days_ahead now),
          day_end (add_days days_ahead now))
    /\ weekday (fst (list_window now time_range))
       = index_of time_range day_tokens.
Proof.
  intros H. destruct (list_window_day now time_range H) as (-> & Hidx).
  pose proof (weekday_range now) as Hw. cbn zeta.
  destruct (index_of time_range day_tokens - weekday now <=? 0) eqn:Hle.
  - apply Z.leb_le in Hle.
    exists (index_of time_range day_tokens - weekday now + 7).
    split; [lia|]. split; [reflexivity|]. cbn [fst].
    apply weekday_shift; [lia|]. exists 1. lia.
  - apply Z.leb_gt in Hle.
    exists (index_of time_range day_tokens - weekday now).
    split; [lia|]. split; [reflexivity|]. cbn [fst].
    apply weekday_shift; [lia|]. exists 0. lia.
Qed.

(** X11. The window of "this week" runs from the Monday on or before
    today, at midnight, to the end of the Sunday six days later, and so
    contains today; the window of "next week" is the same seven days
    later. *)
Theorem list_window_weeks (now : DateTime) :
  let this_week := list_window now "this week" in
  let next_week := list_window now "next week" in
  weekday (fst this_week) = 0
  /\ dt_micros (fst this_week) = 0
  /\ dt_ordinal (fst this_week) <= dt_ordinal now <= dt_ordinal (snd this_week)
  /\ snd this_week = day_end (add_days 6 (fst this_week))
  /\ fst next_week = add_days 7 (fst this_week)
  /\ snd next_week = add_days 7 (snd this_week).
Proof.
  change (list_window now "this week")
    with (day_start (add_days (- weekday now) now),
          day_end (add_days 6 (add_days (- weekday now) now))).
  change (list_window now "next week")
    with (day_start (add_days 7 (add_days (- weekday now) now)),
          day_end (add_days 6 (add_days 7 (add_days (- weekday now) now)))).
  pose proof (weekday_range now) as Hw. cbn zeta. cbn [fst snd].
  split; [apply weekday_shift; [lia|exists 0; lia]|].
  split; [reflexivity|].
  split; [cbn; lia|].
  split; [reflexivity|].
  split; [reflexivity|].
  unfold day_end, add_days. cbn [dt_ordinal dt_micros]. f_equal. lia.
Qed.

(** X12. A message whose time range is the name of a month is listed
    with the window of "upcoming", from now to 30 days from now: the
    month does not bound the listing. *)
Theorem month_range_listed_as_upcoming (now : DateTime) (message : string) :
  In (calendar_time_range message) month_tokens ->
  list_window now (calendar_time_range message) = (now, add_days 30 now)
  /\ list_window now (calendar_time_range message)
     = list_window now "upcoming".
Proof.
  generalize (calendar_time_range message). intros token H.
  repeat (destruct H as [<-|H]; [split; reflexivity|]).
  destruct H.
Qed.

Lemma first_token_in (table : list (string * string)) (text token : string) :
  first_token table text = Some token -> In token (map snd table).
Proof.
  induction table as [|[phrase t] table IH]; [discriminate|]. cbn.
  destruct (PyStr.contains phrase text).
  - intros [= <-]. left. reflexivity.
  - intros H. right. exact (IH H).
Qed.

(** X13. The time range parsed from a message is always one of 24
    tokens: "upcoming", "today", "tomorrow", "this week", "next week",
    the name of a month or the name of a day of the week, with a
    capital. *)
Theorem calendar_time_range_closed (message : string) :
  In (calendar_time_range message)
    (["upcoming"; "today"; "tomorrow"; "this week"; "next week"]
       ++ month_tokens ++ day_tokens).
Proof.
  change (In (calendar_time_range message)
            ("upcoming" :: map snd range_table)).
  rewrite calendar_time_range_table.
  destruct (first_token range_table (PyStr.lower message)) as [token|] eqn:H.
  - right. exact (first_token_in _ _ _ H).
  - left. reflexivity.
Qed.

(** X14. A calendar message reaches the listing exactly when it has
    none of the action words ("schedule", "find", "change", "cancel",
    ...) and does not pair "invite" or "attendees" with "meeting": any
    one of them, anywhere in the message, sends it to another
    sub-command. *)
Theorem calendar_listing_only_without_action_words (message : string) :
  calendar_command message = CmdList
  <-> PyStr.any_in calendar_action_words (PyStr.lower message) = false
      /\ PyStr.any_in ["invite"; "attendees"] (PyStr.lower message)
         && PyStr.contains "meeting" (PyStr.lower message) = false.
Proof.
  unfold calendar_command.
  change calendar_action_words
    with (["create event"; "schedule"; "add event"; "new event"]
            ++ ["delete"; "cancel"; "remove"]
            ++ ["search"; "find"]
            ++ ["update"; "modify"; "change"; "edit"]).
  unfold PyStr.any_in at 6. rewrite !existsb_app.
  repeat match goal with
         | |- context [existsb ?f ?l] =>
             change (existsb f l) with (PyStr.any_in l (PyStr.lower message))
         end.
  repeat match goal with
         | |- context [PyStr.any_in ?l (PyStr.lower message)] =>
             destruct (PyStr.any_in l (PyStr.lower message))
         end;
    destruct (PyStr.contains "meeting" (PyStr.lower message));
    cbn; split; try discriminate; try tauto; intros [? ?]; discriminate.
Qed.

(** ** Sessions across a request *)

Section RouterState.

Variable env : Env.

Lemma respond_world (final source : string) (w : World) :
  snd (respond env final source w) = w.
Proof. apply respond_trace. Qed.

(** The branch on the classification never touches the session table. *)
Lemma route_sessions (intent_result : option Intent) (message : string)
    (access_token : option string) (w : World) :
  sessions (snd (route env intent_result message access_token w)) = sessions w.
Proof.
  unfold route.
  destruct intent_result as [intent|]; [|rewrite respond_world; reflexivity].
  destruct (String.eqb (i_type intent) "google").
  - unfold bind, call, intent_service.
    destruct (supplied access_token) as [token|];
      destruct (i_service intent) as [service_name|];
      try reflexivity; [|rewrite respond_world; reflexivity].
    destruct (service_handlers env !! service_name) as [handler|];
      [|rewrite respond_world; reflexivity].
    destruct (dispatch_total env service_name
                (String.append "google_" service_name) message token
                handler w) as (r & ->).
    destruct r as [response|final]; [reflexivity|].
    rewrite respond_world. reflexivity.
  - destruct (String.eqb (i_type intent) "llm");
      [|rewrite respond_world; reflexivity].
    unfold bind.
    pose proof (converse_sessions env message w) as Hc.
    destruct (converse env message w) as [[final|e] w']; cbn [snd] in Hc.
    + rewrite respond_world. exact Hc.
    + exact Hc.
Qed.

(** The session table after [handle_chat]: as it was when the body is
    not read, with the session of the request ensured when nothing is
    classified, and with the classification kept otherwise. *)
Lemma handle_chat_sessions (request : Request) (w : World) :
  match request_json request with
  | Raise _ => sessions (snd (handle_chat env request w)) = sessions w
  | Ok data =>
      let key := session_key (default "anon" (d_user_id data))
                   (default "default" (d_session_id data)) in
      let ensured :=
        sessions (snd (ensure_session env (default "anon" (d_user_id data))
                         (default "default" (d_session_id data)) w)) in
      if PyStr.truthy (default EmptyString (d_message data)) then
        match classify env (default EmptyString (d_message data)) with
        | Ok intent =>
            sessions (snd (handle_chat env request w))
            = keep_classification key intent ensured
        | Raise _ => sessions (snd (handle_chat env request w)) = ensured
        end
      else sessions (snd (handle_chat env request w)) = ensured
  end.
Proof.
  unfold handle_chat, bind, call.
  destruct (request_json request) as [data|e]; [|reflexivity].
  cbn zeta.
  destruct (ensure_session_ok env (default "anon" (d_user_id data))
              (default "default" (d_session_id data)) w) as (w0 & Hw0 & _).
  rewrite Hw0. cbn [snd].
  unfold classify_message, bind, call, ret, session_state_set.
  destruct (PyStr.truthy (default EmptyString (d_message data))).
  - destruct (classify env (default EmptyString (d_message data)));
      [|reflexivity].
    rewrite route_sessions. reflexivity.
  - rewrite route_sessions. reflexivity.
Qed.

Lemma ensure_session_lookup (user_id session_id key : string) (w : World)
    (s : Session) :
  sessions w !! key = Some s ->
  sessions (snd (ensure_session env user_id session_id w)) !! key = Some s.
Proof.
  intros H. destruct (decide (key = session_key user_id session_id)) as [->|Hne].
  - rewrite (ensure_session_keeps env _ _ _ s H). exact H.
  - rewrite (ensure_session_other env _ _ _ _ Hne). exact H.
Qed.

Lemma service_handlers_unregistered (service_name : string) :
  ~ In service_name registered_services ->
  service_handlers env !! service_name = None.
Proof.
  intros H. unfold service_handlers.
  apply not_elem_of_list_to_map_1. cbn.
  rewrite list_elem_of_In. exact H.
Qed.

(** Every response of the branch on the classification has a text and
    one of the sources of the chat. *)
Lemma route_source (intent_result : option Intent) (message : string)
    (access_token : option string) (w : World) (response : gmap string PyVal) :
  fst (route env intent_result message access_token w) = Ok response ->
  exists text source,
    response !! "response" = Some (VStr text)
    /\ response !! "source" = Some (VStr source)
    /\ chat_source source.
Proof.
  assert (Hresp : forall final source w0,
             chat_source source ->
             fst (respond env final source w0) = Ok response ->
             exists text source,
               response !! "response" = Some (VStr text)
               /\ response !! "source" = Some (VStr source)
               /\ chat_source source).
  { intros final source w0 Hs. unfold respond, bind, call, ret.
    destruct (format_response env final source) as [text|e]; cbn [fst];
      [|discriminate].
    intros [= <-]. exists text, source.
    split; [reflexivity|]. split; [reflexivity|exact Hs]. }
  assert (Hg : forall service_name,
             chat_source (String.append "google_" service_name)).
  { intros service_name. right. right. right. apply startswith_append. }
  unfold route.
  destruct intent_result as [intent|];
    [|apply Hresp; left; reflexivity].
  destruct (String.eqb (i_type intent) "google").
  - unfold bind, call, intent_service.
    destruct (supplied access_token) as [token|];
      destruct (i_service intent) as [service_name|];
      try discriminate;
      [|apply Hresp; right; left; reflexivity].
    destruct (service_handlers env !! service_name) as [handler|];
      [|apply Hresp; apply Hg].
    destruct (handler message token) as [r|e] eqn:Hres.
    + destruct (format_google_service_response env service_name r)
        as [shown|e] eqn:Hf.
      * destruct (String.eqb service_name "sms") eqn:Hs.
        -- apply String.eqb_eq in Hs. subst service_name.
           destruct (r !! "instruction") as [i|] eqn:Hri.
           ++ rewrite (dispatch_instruction env _ _ _ _ r shown i w Hres Hf Hri).
              cbn [fst ret]. intros [= <-].
              destruct (instruction_response_fields shown
                          (String.append "google_" "sms") i r)
                as (_ & Htext & Hsource & _).
              exists shown, (String.append "google_" "sms").
              split; [exact Htext|]. split; [exact Hsource|apply Hg].
           ++ rewrite (dispatch_plain env _ _ _ _ _ r shown w Hres Hf)
                by (intros _; exact Hri).
              apply Hresp, Hg.
        -- rewrite (dispatch_plain env _ _ _ _ _ r shown w Hres Hf).
           ++ apply Hresp, Hg.
           ++ intros ->. discriminate.
      * rewrite (dispatch_format_raises env _ _ _ _ _ r e w Hres Hf).
        apply Hresp, Hg.
    + rewrite (dispatch_handler_raises env _ _ _ _ _ e w Hres).
      apply Hresp, Hg.
  - destruct (String.eqb (i_type intent) "llm");
      [|apply Hresp; left; reflexivity].
    unfold bind.
    destruct (converse env message w) as [[final|e] w']; [|discriminate].
    apply Hresp. right. right. left. reflexivity.
Qed.

End RouterState.

(** X15. After a request with a message that the classifier answers,
    the session of the request holds that classification, whatever the
    rest of the request does (a handler that fails, a formatter that
    raises); a session that existed keeps its creation time. *)
Theorem handle_chat_keeps_classification (env : Env) (request : Request)
    (data : ChatData) (intent : Intent) (w : World) :
  request_json request = Ok data ->
  PyStr.truthy (default EmptyString (d_message data)) = true ->
  classify env (default EmptyString (d_message data)) = Ok intent ->
  let key := session_key (default "anon" (d_user_id data))
               (default "default" (d_session_id data)) in
  exists s,
    sessions (snd (handle_chat env request w)) !! key = Some s
    /\ state s !! "intent_classification" = Some intent
    /\ (forall old, sessions w !! key = Some old ->
                    created_at s = created_at old).
Proof.
  intros Hreq Hmsg Hcls key.
  pose proof (handle_chat_sessions env request w) as H.
  rewrite Hreq in H. cbn zeta in H. rewrite Hmsg, Hcls in H. rewrite H.
  unfold keep_classification. fold key.
  destruct (ensure_session_present env (default "anon" (d_user_id data))
              (default "default" (d_session_id data)) w) as [s0 Hs0].
  fold key in Hs0.
  exists (mkSession (<["intent_classification" := intent]> (state s0))
            (created_at s0)).
  split; [|split].
  - rewrite lookup_alter. case_decide; [|congruence]. rewrite Hs0. reflexivity.
  - cbn. apply lookup_insert_eq.
  - intros old Hold. cbn.
    rewrite (ensure_session_lookup env _ _ key w old Hold) in Hs0.
    congruence.
Qed.

(** X16. A request never removes a session and never re-creates one:
    every session that exists before [handle_chat] exists after it, with
    the same creation time and the same state except, at most, the
    classification kept under [intent_classification]. *)
Theorem handle_chat_preserves_sessions (env : Env) (request : Request)
    (w : World) (key : string) (s : Session) :
  sessions w !! key = Some s ->
  exists s',
    sessions (snd (handle_chat env request w)) !! key = Some s'
    /\ created_at s' = created_at s
    /\ (forall k, k <> "intent_classification" ->
                  state s' !! k = state s !! k).
Proof.
  intros Hs.
  pose proof (handle_chat_sessions env request w) as H.
  destruct (request_json request) as [data|e].
  - cbn zeta in H.
    pose proof (ensure_session_lookup env (default "anon" (d_user_id data))
                  (default "default" (d_session_id data)) key w s Hs) as He.
    destruct (PyStr.truthy (default EmptyString (d_message data))).
    + destruct (classify env (default EmptyString (d_message data)))
        as [intent|e].
      * rewrite H. unfold keep_classification. rewrite lookup_alter.
        case_decide as Hk.
        -- subst key. rewrite He. cbn. eexists. split; [reflexivity|].
           split; [reflexivity|]. intros k Hne. cbn.
           apply lookup_insert_ne. congruence.
        -- exists s. rewrite He. repeat split; reflexivity.
      * rewrite H. exists s. rewrite He. repeat split; reflexivity.
    + rewrite H. exists s. rewrite He. repeat split; reflexivity.
  - rewrite H. exists s. rewrite Hs. repeat split; reflexivity.
Qed.

(** X17. A request without a message, or with an empty one, is answered
    "Please provide a message." under the source [system]: no handler,
    health check or generation is recorded, and the world is left as
    [ensure_session] leaves it, so the session of the request exists
    and no classification is kept. *)
Theorem handle_chat_without_message (env : Env) (request : Request)
    (data : ChatData) (w : World) :
  request_json request = Ok data ->
  PyStr.truthy (default EmptyString (d_message data)) = false ->
  let ensured := snd (ensure_session env (default "anon" (d_user_id data))
                        (default "default" (d_session_id data)) w) in
  snd (handle_chat env request w) = ensured
  /\ trace ensured = trace w
  /\ (forall text,
        format_response env "Please provide a message." "system" = Ok text ->
        fst (handle_chat env request w) = Ok (plain_response text "system")).
Proof.
  intros Hreq Hmsg ensured. subst ensured.
  unfold handle_chat, bind, call. rewrite Hreq.
  destruct (ensure_session_ok env (default "anon" (d_user_id data))
              (default "default" (d_session_id data)) w) as (w0 & Hw0 & Htr).
  rewrite Hw0. cbn [snd]. unfold classify_message. rewrite Hmsg.
  unfold ret, route. split; [apply respond_trace|]. split; [exact Htr|].
  intros text Hf. rewrite (respond_ok env _ _ _ _ Hf). reflexivity.
Qed.

(** X18. A message classified to a Google service that is not a key of
    the dispatch table, sent with a token, calls no handler: the answer
    is "<Service> service is not yet implemented." under the source
    [google_<service>]. *)
Theorem handle_chat_unregistered_service (env : Env) (request : Request)
    (data : ChatData) (intent : Intent) (service_name token : string)
    (w : World) :
  request_json request = Ok data ->
  PyStr.truthy (default EmptyString (d_message data)) = true ->
  classify env (default EmptyString (d_message data)) = Ok intent ->
  i_type intent = "google" ->
  i_service intent = Some service_name ->
  supplied (d_access_token data) = Some token ->
  ~ In service_name registered_services ->
  trace (snd (handle_chat env request w)) = trace w
  /\ (forall text,
        format_response env
          (String.append (PyStr.title service_name)
             " service is not yet implemented.")
          (String.append "google_" service_name) = Ok text ->
        fst (handle_chat env request w)
        = Ok (plain_response text (String.append "google_" service_name))).
Proof.
  intros Hreq Hmsg Hcls Hty Hsvc Htok Hun.
  destruct (handle_chat_route env request data intent w Hreq Hmsg Hcls)
    as (w1 & Htr & ->).
  unfold route. rewrite Hty, Htok, String.eqb_refl.
  unfold bind, call, intent_service.
  rewrite Hsvc, (service_handlers_unregistered env service_name Hun).
  split.
  - rewrite respond_trace. exact Htr.
  - intros text Hf. rewrite (respond_ok env _ _ _ _ Hf). reflexivity.
Qed.

Lemma handle_chat_source (env : Env) (request : Request) (w : World)
    (response : gmap string PyVal) :
  fst (handle_chat env request w) = Ok response ->
  exists text source,
    response !! "response" = Some (VStr text)
    /\ response !! "source" = Some (VStr source)
    /\ chat_source source.
Proof.
  unfold handle_chat, bind, call.
  destruct (request_json request) as [data|e]; [|discriminate].
  destruct (ensure_session_ok env (default "anon" (d_user_id data))
              (default "default" (d_session_id data)) w) as (w0 & -> & _).
  unfold classify_message, bind, call, ret, session_state_set.
  destruct (PyStr.truthy (default EmptyString (d_message data))).
  - destruct (classify env (default EmptyString (d_message data)));
      [|discriminate].
    apply route_source.
  - apply route_source.
Qed.

(** X19. Every response carries a text and a source of a closed list:
    [handle_chat] answers under [system], [auth_required], [assistant] or
    [google_<service>]; [handle_unified_query] always returns a response,
    under one of those sources, [image_processing] or [error]. *)
Theorem response_sources (env : Env) (request : Request) (w : World) :
  (forall response,
      fst (handle_chat env request w) = Ok response ->
      exists text source,
        response !! "response" = Some (VStr text)
        /\ response !! "source" = Some (VStr source)
        /\ chat_source source)
  /\ (exists response text source,
        fst (handle_unified_query env request w) = Ok response
        /\ response !! "response" = Some (VStr text)
        /\ response !! "source" = Some (VStr source)
        /\ (chat_source source \/ source = "image_processing"
            \/ source = "error")).
Proof.
  split; [apply handle_chat_source|].
  assert (Herr : exists text source,
             plain_response "I encountered an error processing your request."
               "error" !! "response" = Some (VStr text)
             /\ plain_response
                  "I encountered an error processing your request." "error"
                !! "source" = Some (VStr source)
             /\ (chat_source source \/ source = "image_processing"
                 \/ source = "error")).
  { eexists. eexists. split; [reflexivity|]. split; [reflexivity|].
    right. right. reflexivity. }
  assert (Hchat : forall w0,
             exists response text source,
               fst (try_except (handle_chat env request)
                      (fun _ => ret (plain_response
                         "I encountered an error processing your request."
                         "error")) w0) = Ok response
               /\ response !! "response" = Some (VStr text)
               /\ response !! "source" = Some (VStr source)
               /\ (chat_source source \/ source = "image_processing"
                   \/ source = "error")).
  { intros w0. unfold try_except.
    destruct (handle_chat env request w0) as [[resp|e] w'] eqn:Hc.
    - destruct (handle_chat_source env request w0 resp) as (t & s & Ht & Hs & Hc').
      { rewrite Hc. reflexivity. }
      exists resp, t, s. cbn [fst]. repeat split; auto.
    - destruct Herr as (t & s & H). eexists. exists t, s.
      split; [reflexivity|exact H]. }
  unfold handle_unified_query, try_except, bind, call.
  destruct (request_multipart request) as [form|e].
  - destruct (ensure_session_ok env (default "anon" (f_user_id form))
                (default "default" (f_session_id form)) w) as (w0 & -> & _).
    destruct (f_image form) as [image|].
    + destruct (PyStr.truthy image).
      * destruct (supplied (f_access_token form)) as [token|].
        -- destruct (handle_image_processing env _ image token) as [r|e].
           ++ destruct (format_google_service_response env "drive" r)
                as [shown|e].
              ** eexists. eexists. eexists. cbn [fst ret].
                 split; [reflexivity|]. split; [reflexivity|].
                 split; [reflexivity|]. right. left. reflexivity.
              ** destruct Herr as (t & s & H). eexists. exists t, s.
                 split; [reflexivity|exact H].
           ++ destruct Herr as (t & s & H). eexists. exists t, s.
              split; [reflexivity|exact H].
        -- eexists. eexists. eexists. cbn [fst ret].
           split; [reflexivity|]. split; [reflexivity|].
           split; [reflexivity|]. left. right. left. reflexivity.
      * apply (Hchat w0).
    + apply (Hchat w0).
  - destruct Herr as (t & s & H). eexists. exists t, s.
    split; [reflexivity|exact H].
Qed.

(** ** The SMS handler, further *)

Section SmsFurther.

Variable env : Env.

Lemma phone_or_truthy (phone_number : option string) (recipient : string) :
  PyStr.truthy recipient = true ->
  PyStr.truthy (phone_or phone_number recipient) = true.
Proof.
  intros H. unfold phone_or. destruct phone_number as [p|]; [|exact H].
  destruct (PyStr.truthy p) eqn:Hp; [exact Hp|exact H].
Qed.

Lemma sms_send_branch_recipient (token recipient_query sms_content : string) :
  let found := if PyStr.truthy token
               then find_contact env token recipient_query
               else (None, recipient_query) in
  let r := sms_send_branch env token recipient_query sms_content in
  r !! "recipient" = Some (VStr (phone_or (fst found) recipient_query))
  /\ r !! "contact_name" = Some (VStr (snd found)).
Proof.
  unfold sms_send_branch.
  destruct (if PyStr.truthy token then find_contact env token recipient_query
            else (None, recipient_query)) as [phone name].
  split; reflexivity.
Qed.

End SmsFurther.

(** X20. In the immediate branch the recipient falls back to the
    recipient query: the result always has a recipient, which is not
    empty when the query is not, and when the contact search raises or
    finds nobody both the recipient and the contact name are the query
    itself. *)
Theorem sms_recipient_falls_back (env : Env) (message token : string)
    (ci : CommandInfo) (recipient_query sms_content : string) :
  parse_sms_command env message = Ok ci ->
  scheduled ci = None ->
  is_text_saying message = true ->
  sms_extract message = Some (recipient_query, sms_content) ->
  exists r recipient contact_name,
    handle_sms env message token = Ok r
    /\ r !! "recipient" = Some (VStr recipient)
    /\ r !! "contact_name" = Some (VStr contact_name)
    /\ (PyStr.truthy recipient_query = true -> PyStr.truthy recipient = true)
    /\ ((exists e, search_contacts env token recipient_query = Raise e)
        \/ search_contacts env token recipient_query = Ok [] ->
        recipient = recipient_query /\ contact_name = recipient_query).
Proof.
  intros Hp Hs Ht He.
  rewrite (handle_sms_immediate env message token ci _ _ Hp Hs Ht He).
  destruct (sms_send_branch_recipient env token recipient_query sms_content)
    as (Hr & Hn).
  eexists. eexists. eexists. split; [reflexivity|].
  split; [exact Hr|]. split; [exact Hn|]. split.
  - apply phone_or_truthy.
  - intros Hsearch. unfold find_contact.
    destruct (PyStr.truthy token); [|split; reflexivity].
    destruct Hsearch as [[e ->]| ->]; split; reflexivity.
Qed.

(** X21. In the scheduled branch a recipient made of digits is taken as
    the phone number: whatever the contacts hold, the message is
    scheduled for, and reported with, the recipient as parsed. *)
Theorem sms_schedule_numeric_recipient (env : Env) (message token : string)
    (ci : CommandInfo) (schedule_info : PyVal)
    (recipient confirmation : string) :
  parse_sms_command env message = Ok ci ->
  scheduled ci = Some schedule_info ->
  ci_recipient ci = Some recipient ->
  PyStr.isdigit recipient = true ->
  schedule_sms env recipient (default EmptyString (ci_message ci))
    schedule_info = Ok confirmation ->
  exists r,
    handle_sms env message token = Ok r
    /\ r !! "recipient" = Some (VStr recipient)
    /\ r !! "contact_name" = Some (VStr recipient)
    /\ r !! "instruction" = Some (VStr "SCHEDULE_SMS")
    /\ r !! "response" = Some (VStr confirmation).
Proof.
  intros Hp Hs Hr Hd Hsch.
  unfold handle_sms, catch, obind. rewrite Hp, Hs.
  unfold sms_schedule_branch, obind. rewrite Hr.
  change (default EmptyString (Some recipient)) with recipient.
  rewrite Hd, andb_false_r. cbn [phone_or]. rewrite Hsch.
  eexists. split; [reflexivity|]. repeat split; reflexivity.
Qed.

(** X22. [handle_sms] never raises, and every result has an [action]
    and a [response] or an [error]; a result with an [error] has the
    action [send_sms], whichever branch failed, and no instruction. *)
Theorem handle_sms_result_shape (env : Env) (message token : string) :
  exists r,
    handle_sms env message token = Ok r
    /\ is_Some (r !! "action")
    /\ (is_Some (r !! "response") \/ is_Some (r !! "error"))
    /\ (is_Some (r !! "error") ->
        r !! "action" = Some (VStr "send_sms") /\ r !! "instruction" = None).
Proof.
  assert (Herr : forall e,
             let r := <["action" := VStr "send_sms"]> (error_result e) in
             is_Some (r !! "action")
             /\ (is_Some (r !! "response") \/ is_Some (r !! "error"))
             /\ (is_Some (r !! "error") ->
                 r !! "action" = Some (VStr "send_sms")
                 /\ r !! "instruction" = None)).
  { intros e r. subst r. split; [eexists; reflexivity|].
    split; [right; eexists; reflexivity|]. intros _. split; reflexivity. }
  assert (Hhelp : is_Some (sms_help !! "action")
             /\ (is_Some (sms_help !! "response") \/ is_Some (sms_help !! "error"))
             /\ (is_Some (sms_help !! "error") ->
                 sms_help !! "action" = Some (VStr "send_sms")
                 /\ sms_help !! "instruction" = None)).
  { split; [eexists; reflexivity|]. split; [left; eexists; reflexivity|].
    intros [x Hx]. discriminate. }
  unfold handle_sms, catch, obind.
  destruct (parse_sms_command env message) as [ci|e];
    [|eexists; split; [reflexivity|apply Herr]].
  destruct (scheduled ci) as [schedule_info|].
  - unfold sms_schedule_branch, obind.
    destruct (if PyStr.truthy token
                 && PyStr.truthy (default EmptyString (ci_recipient ci))
                 && negb (PyStr.isdigit (default EmptyString (ci_recipient ci)))
              then find_contact env token (default EmptyString (ci_recipient ci))
              else (None, default EmptyString (ci_recipient ci)))
      as [phone name].
    destruct (schedule_sms env _ _ schedule_info) as [confirmation|e];
      [|eexists; split; [reflexivity|apply Herr]].
    eexists. split; [reflexivity|]. split; [eexists; reflexivity|].
    split; [left; eexists; reflexivity|]. intros [x Hx]. discriminate.
  - destruct (is_text_saying message).
    + destruct (sms_extract message) as [[rq body]|];
        [|eexists; split; [reflexivity|apply Hhelp]].
      eexists. split; [reflexivity|].
      unfold sms_send_branch.
      destruct (if PyStr.truthy token then find_contact env token rq
                else (None, rq)) as [phone name].
      split; [eexists; reflexivity|].
      split; [left; eexists; reflexivity|]. intros [x Hx]. discriminate.
    + destruct (PyStr.contains "list" (PyStr.lower message)
                && PyStr.contains "scheduled" (PyStr.lower message)).
      * destruct (list_scheduled_messages env) as [l|e];
          [|eexists; split; [reflexivity|apply Herr]].
        eexists. split; [reflexivity|]. split; [eexists; reflexivity|].
        split; [left; eexists; reflexivity|]. intros [x Hx]. discriminate.
      * destruct (PyStr.contains "cancel" (PyStr.lower message)
                  && PyStr.contains "sms" (PyStr.lower message)).
        -- eexists. split; [reflexivity|]. split; [eexists; reflexivity|].
           split; [left; eexists; reflexivity|]. intros [x Hx]. discriminate.
        -- eexists. split; [reflexivity|apply Hhelp].
Qed.

(** ** Titles, further *)

Section TitlesFurther.

Import PyStr.

Lemma case_keeps_space (c : ascii) :
  is_space (to_upper_char c) = is_space c
  /\ is_space (to_lower_char c) = is_space c.
Proof. destruct c as [[] [] [] [] [] [] [] []]; split; reflexivity. Qed.

Lemma title_go_empty (b : bool) (s : string) :
  is_empty (title_go b s) = is_empty s.
Proof.
  destruct s as [|c s]; [reflexivity|]. cbn.
  destruct (is_lower c); [reflexivity|]. destruct (is_upper c); reflexivity.
Qed.

Lemma title_go_head (b : bool) (c : ascii) (s : string) :
  exists c' b',
    title_go b (String c s) = String c' (title_go b' s)
    /\ is_space c' = is_space c.
Proof.
  destruct (case_keeps_space c) as [Hu Hl]. cbn.
  destruct (is_lower c).
  - eexists. exists true. split; [reflexivity|]. destruct b; [reflexivity|exact Hu].
  - destruct (is_upper c).
    + eexists. exists true. split; [reflexivity|].
      destruct b; [exact Hl|reflexivity].
    + eexists. exists false. split; reflexivity.
Qed.

Lemma title_go_starts (b : bool) (s : string) :
  starts_outside is_space (title_go b s) = starts_outside is_space s.
Proof.
  destruct s as [|c s]; [reflexivity|].
  destruct (title_go_head b c s) as (c' & b' & -> & Hc). cbn. rewrite Hc.
  reflexivity.
Qed.

Lemma title_go_ends (b : bool) (s : string) :
  ends_outside is_space (title_go b s) = ends_outside is_space s.
Proof.
  revert b. induction s as [|c s IH]; intros b; [reflexivity|].
  destruct (title_go_head b c s) as (c' & b' & -> & Hc).
  cbn [ends_outside].
  pose proof (title_go_empty b' s) as He.
  destruct s as [|d s].
  - cbn. rewrite Hc. reflexivity.
  - destruct (title_go b' (String d s)) as [|d' t] eqn:Ht; [discriminate|].
    rewrite <- Ht. apply IH.
Qed.

Lemma title_trimmed (s : string) :
  is_trimmed s = true -> is_trimmed (title s) = true.
Proof.
  unfold is_trimmed, title.
  rewrite title_go_empty, title_go_starts, title_go_ends. trivial.
Qed.

Lemma lstrip_by_starts (f : ascii -> bool) (s : string) :
  is_empty (lstrip_by f s) || starts_outside f (lstrip_by f s) = true.
Proof.
  induction s as [|c s IH]; [reflexivity|]. cbn [lstrip_by].
  destruct (f c) eqn:Hc; [exact IH|]. cbn. rewrite Hc. reflexivity.
Qed.

Lemma rstrip_by_starts (f : ascii -> bool) (s : string) :
  starts_outside f s = true -> starts_outside f (rstrip_by f s) = true.
Proof.
  destruct s as [|c s]; [discriminate|]. cbn [starts_outside]. intros Hc.
  rewrite rstrip_by_cons. apply negb_true_iff in Hc. rewrite Hc. cbn.
  rewrite Hc. reflexivity.
Qed.

Lemma strip_trimmed (s : string) : is_trimmed (strip s) = true.
Proof.
  unfold is_trimmed, strip, strip_by.
  pose proof (lstrip_by_starts is_space s) as Hl.
  pose proof (rstrip_by_ends is_space (lstrip_by is_space s)) as Hr.
  destruct (is_empty (rstrip_by is_space (lstrip_by is_space s))) eqn:He;
    [reflexivity|].
  cbn [orb] in *. rewrite Hr, andb_true_r.
  destruct (is_empty (lstrip_by is_space s)) eqn:Hel.
  - destruct (lstrip_by is_space s); [discriminate|discriminate].
  - cbn [orb] in Hl. apply rstrip_by_starts. exact Hl.
Qed.

Lemma rstrip_by_fixed (f : ascii -> bool) (s : string) :
  is_empty s || ends_outside f s = true -> rstrip_by f s = s.
Proof.
  induction s as [|c s IH]; [reflexivity|]. cbn [is_empty orb]. intros He.
  rewrite rstrip_by_cons.
  pose proof (ends_outside_not_all f (String c s) He) as Hall.
  cbn [all_chars] in Hall. rewrite Hall. f_equal. apply IH.
  destruct s as [|d s]; [reflexivity|]. exact He.
Qed.

Lemma strip_fixed (s : string) : is_trimmed s = true -> strip s = s.
Proof.
  unfold is_trimmed, strip, strip_by. intros H.
  destruct s as [|c s]; [reflexivity|]. cbn [is_empty orb] in H.
  apply andb_prop in H as [Hs He]. cbn [starts_outside] in Hs.
  apply negb_true_iff in Hs. cbn [lstrip_by]. rewrite Hs.
  apply rstrip_by_fixed. cbn [is_empty orb]. exact He.
Qed.

Lemma strip_leading_word_trimmed (words : list string) (t : string) :
  is_trimmed t = true -> is_trimmed (strip_leading_word words t) = true.
Proof.
  intros Ht. induction words as [|word words IH]; [exact Ht|]. cbn.
  destruct (startswith word t); [apply strip_trimmed|exact IH].
Qed.

Lemma title_after_trimmed (marker message default_title : string) :
  is_trimmed default_title = true ->
  is_trimmed (title_after marker message default_title) = true.
Proof.
  intros Hd. unfold title_after.
  destruct (split marker message) as [|before [|piece rest]]; try exact Hd.
  apply title_trimmed, strip_trimmed.
Qed.

Lemma title_after_kind_trimmed (kind : string) (words : list string)
    (message_lower default_title : string) :
  is_trimmed default_title = true ->
  is_trimmed (title_after_kind kind words message_lower default_title) = true.
Proof.
  intros Hd. unfold title_after_kind.
  destruct (split kind message_lower) as [|before [|piece rest]]; try exact Hd.
  destruct (truthy (strip piece)); [|exact Hd].
  destruct (truthy (strip_leading_word words (strip piece))); [|exact Hd].
  apply title_trimmed, strip_leading_word_trimmed, strip_trimmed.
Qed.

Lemma title_after_without (marker message default_title : string) :
  contains marker message = false ->
  title_after marker message default_title = default_title.
Proof.
  intros H. unfold title_after, split.
  rewrite (split_go_without _ _ _ H). reflexivity.
Qed.

Lemma forms_title_order (message : string) :
  forms_title message
  = match first_in ["for"; "called"; "about"] (lower message) with
    | Some marker => title_after marker message "New Form"
    | None => "New Form"
    end.
Proof.
  unfold forms_title. cbn [first_in].
  repeat match goal with
         | |- context [contains ?p (lower message)] =>
             destruct (contains p (lower message)); [reflexivity|]
         end.
  reflexivity.
Qed.

End TitlesFurther.

(** X23. The title extracted for a document, a spreadsheet or a form
    never begins or ends with white space: trimming it again changes
    nothing. *)
Theorem extracted_titles_trimmed (message : string) :
  PyStr.strip (docs_title message) = docs_title message
  /\ PyStr.strip (sheets_title message) = sheets_title message
  /\ PyStr.strip (forms_title message) = forms_title message.
Proof.
  repeat split; apply strip_fixed.
  - rewrite docs_title_order.
    destruct (first_in ["about"; "called"; "titled"] (PyStr.lower message)).
    + apply title_after_trimmed. reflexivity.
    + destruct (PyStr.contains "document" (PyStr.lower message));
        [|reflexivity].
      apply title_after_kind_trimmed. reflexivity.
  - rewrite sheets_title_order.
    destruct (first_in ["for"; "called"] (PyStr.lower message)).
    + apply title_after_trimmed. reflexivity.
    + destruct (PyStr.contains "spreadsheet" (PyStr.lower message));
        [|reflexivity].
      apply title_after_kind_trimmed. reflexivity.
  - rewrite forms_title_order.
    destruct (first_in ["for"; "called"; "about"] (PyStr.lower message));
      [|reflexivity].
    apply title_after_trimmed. reflexivity.
Qed.

(** X24. A marker is looked for without regard to letter case but the
    message is split on the marker in lower case: when the first marker
    found is typed with a capital letter nowhere in lower case, the
    title is the default, and neither a later marker nor the text after
    "document" or "spreadsheet" is tried. *)
Theorem capitalised_marker_gives_default (message marker : string) :
  PyStr.contains marker message = false ->
  (first_in ["about"; "called"; "titled"] (PyStr.lower message) = Some marker ->
   docs_title message = "New Document")
  /\ (first_in ["for"; "called"] (PyStr.lower message) = Some marker ->
      sheets_title message = "New Spreadsheet")
  /\ (first_in ["for"; "called"; "about"] (PyStr.lower message) = Some marker ->
      forms_title message = "New Form").
Proof.
  intros Hc. repeat split; intros Hf.
  - rewrite docs_title_order, Hf. apply title_after_without, Hc.
  - rewrite sheets_title_order, Hf. apply title_after_without, Hc.
  - rewrite forms_title_order, Hf. apply title_after_without, Hc.
Qed.

(** ** Contacts, tasks, mail, forms, deletions and images *)

Section HandlersFurther.

Import PyStr.

Lemma map_chars_length (f : ascii -> ascii) (s : string) :
  String.length (map_chars f s) = String.length s.
Proof. induction s as [|c s IH]; [reflexivity|]. cbn. rewrite IH. reflexivity. Qed.

(** A run of characters that are not white space is read as one word. *)
Lemma words_go_scan (word post acc : string) :
  all_chars (fun c => negb (is_space c)) word = true ->
  words_go (String.append word post) acc = words_go post (rev_acc word acc).
Proof.
  revert acc. induction word as [|c word IH]; intros acc H; [reflexivity|].
  cbn [all_chars] in H. apply andb_prop in H as [Hc H].
  apply negb_true_iff in Hc. rewrite append_cons. cbn [words_go rev_acc].
  rewrite Hc. apply IH, H.
Qed.

(** The word is given out at the white space or at the end. *)
Lemma words_go_emit (post acc : string) :
  starts_outside is_space post = false ->
  truthy acc = true ->
  In (rev_acc acc EmptyString) (words_go post acc).
Proof.
  intros Hp Ha. destruct acc as [|a acc]; [discriminate|].
  destruct post as [|c post]; [left; reflexivity|].
  cbn [starts_outside] in Hp. apply negb_false_iff in Hp.
  cbn [words_go]. rewrite Hp. left. reflexivity.
Qed.

Lemma rev_acc_twice (s a b : string) :
  rev_acc (rev_acc s a) b = rev_acc a (String.append s b).
Proof.
  revert a. induction s as [|c s IH]; intros a; [reflexivity|].
  cbn [rev_acc]. rewrite IH. reflexivity.
Qed.

Lemma rev_acc_truthy (s a : string) :
  truthy s = true -> truthy (rev_acc s a) = true.
Proof.
  assert (H : forall s a, truthy a = true -> truthy (rev_acc s a) = true).
  { clear. induction s as [|c s IH]; intros a Ha; [exact Ha|].
    cbn [rev_acc]. apply IH. reflexivity. }
  destruct s as [|c s]; [discriminate|]. intros _. cbn [rev_acc].
  apply H. reflexivity.
Qed.

(** What stands before a white space does not change the words after
    it. *)
Lemma words_go_prefix (pre s acc w : string) :
  ends_outside is_space pre = false ->
  (pre = EmptyString -> acc = EmptyString) ->
  In w (words_go s EmptyString) ->
  In w (words_go (String.append pre s) acc).
Proof.
  revert acc. induction pre as [|c pre IH]; intros acc He Ha Hin.
  - rewrite (Ha eq_refl). exact Hin.
  - rewrite append_cons. cbn [words_go].
    destruct pre as [|d pre].
    + cbn [ends_outside] in He. apply negb_false_iff in He. rewrite He.
      destruct (is_empty acc); [exact Hin|right; exact Hin].
    + assert (He' : ends_outside is_space (String d pre) = false)
        by exact He.
      destruct (is_space c).
      * destruct (is_empty acc); [|right];
          apply IH; auto; discriminate.
      * apply IH; auto; discriminate.
Qed.

(** A word of the message between white space, or at an end of the
    message, is one of its words. *)
Lemma words_complete (pre word post : string) :
  ends_outside is_space pre = false ->
  starts_outside is_space post = false ->
  all_chars (fun c => negb (is_space c)) word = true ->
  truthy word = true ->
  In word (words (String.append pre (String.append word post))).
Proof.
  intros Hpre Hpost Hw Ht. unfold words.
  apply words_go_prefix; [exact Hpre|reflexivity|].
  rewrite (words_go_scan _ _ _ Hw).
  pose proof (words_go_emit post (rev_acc word EmptyString) Hpost
                (rev_acc_truthy _ _ Ht)) as H.
  rewrite rev_acc_twice in H. cbn [rev_acc] in H.
  rewrite append_empty_r in H. exact H.
Qed.

(** No word holds white space. *)
Lemma words_go_nospace (s acc : string) :
  all_chars (fun c => negb (is_space c)) acc = true ->
  List.Forall (fun w => all_chars (fun c => negb (is_space c)) w = true)
    (words_go s acc).
Proof.
  revert acc. induction s as [|c s IH]; intros acc Ha.
  - cbn [words_go]. destruct (is_empty acc); constructor; [|constructor].
    rewrite all_chars_rev_acc, Ha. reflexivity.
  - cbn [words_go]. destruct (is_space c) eqn:Hc.
    + destruct (is_empty acc); [apply IH; reflexivity|].
      constructor; [|apply IH; reflexivity].
      rewrite all_chars_rev_acc, Ha. reflexivity.
    + apply IH. cbn [all_chars]. rewrite Hc, Ha. reflexivity.
Qed.

Lemma lower_nospace (s : string) :
  all_chars (fun c => negb (is_space c)) s = true ->
  all_chars (fun c => negb (is_space c)) (lower s) = true.
Proof.
  induction s as [|c s IH]; intros H; [reflexivity|].
  cbn [all_chars] in H. apply andb_prop in H as [Hc H].
  unfold lower. cbn [map_chars all_chars].
  rewrite (proj2 (case_keeps_space c)), Hc. exact (IH H).
Qed.

Lemma contact_search_terms_long (message : string) :
  List.Forall
    (fun term =>
       (2 < String.length term)%nat /\ is_lowered term = true
       /\ all_chars (fun c => negb (is_space c)) term = true)
    (contact_search_terms message).
Proof.
  apply List.Forall_forall. intros term Hin. unfold contact_search_terms in Hin.
  apply List.in_map_iff in Hin as (word & <- & Hw).
  apply List.filter_In in Hw as [Hword Hw]. apply Nat.ltb_lt in Hw.
  split; [|split; [apply lower_is_lowered|]].
  - unfold lower. rewrite map_chars_length. exact Hw.
  - apply lower_nospace.
    pose proof (words_go_nospace message EmptyString eq_refl) as Hall.
    rewrite List.Forall_forall in Hall. exact (Hall _ Hword).
Qed.

Lemma filter_no_terms (connections : list Connection) :
  List.filter (person_matches []) connections = connections.
Proof.
  induction connections as [|p l IH]; [reflexivity|]. cbn. rewrite IH.
  reflexivity.
Qed.

Lemma str_take_length (n : nat) (s : string) :
  (String.length (str_take n s) <= n)%nat.
Proof.
  revert s. induction n as [|n IH]; intros s; [cbn; lia|].
  destruct s as [|c s]; cbn; [lia|]. specialize (IH s). lia.
Qed.

Lemma shown_snippet_bound (snippet : string) :
  (String.length (shown_snippet snippet) <= 203)%nat.
Proof.
  unfold shown_snippet.
  destruct (Nat.ltb 200 (String.length snippet)) eqn:H.
  - rewrite append_length. pose proof (str_take_length 200 snippet).
    change (String.length "...") with 3%nat. lia.
  - apply Nat.ltb_ge in H. lia.
Qed.

Lemma shown_snippet_short (snippet : string) :
  (String.length snippet <= 200)%nat -> shown_snippet snippet = snippet.
Proof.
  intros H. unfold shown_snippet.
  destruct (Nat.ltb 200 (String.length snippet)) eqn:E; [|reflexivity].
  apply Nat.ltb_lt in E. lia.
Qed.

Lemma header_value_first (name default_value value : string)
    (pre post : list (string * string)) :
  (forall v, ~ In (name, v) pre) ->
  header_value name default_value (pre ++ (name, value) :: post) = value.
Proof.
  induction pre as [|[n v] pre IH]; intros H.
  - cbn. rewrite String.eqb_refl. reflexivity.
  - cbn. destruct (String.eqb n name) eqn:E.
    + apply String.eqb_eq in E. subst n. exfalso. apply (H v). left.
      reflexivity.
    + apply IH. intros v' Hin. apply (H v'). right. exact Hin.
Qed.

Lemma header_value_missing (name default_value : string)
    (headers : list (string * string)) :
  (forall value, ~ In (name, value) headers) ->
  header_value name default_value headers = default_value.
Proof.
  induction headers as [|[n v] rest IH]; intros H; [reflexivity|].
  cbn [header_value]. destruct (String.eqb n name) eqn:E.
  - apply String.eqb_eq in E. subst n. exfalso. apply (H v). left. reflexivity.
  - apply IH. intros value Hin. apply (H value). right. exact Hin.
Qed.

Lemma delete_events_count (delete : string -> outcome unit)
    (events : list string) :
  delete_events delete events
  = length (List.filter
              (fun event_id =>
                 match delete event_id with Ok _ => true | Raise _ => false end)
              events).
Proof.
  induction events as [|event_id rest IH]; [reflexivity|].
  cbn. destruct (delete event_id); cbn; rewrite IH; reflexivity.
Qed.

End HandlersFurther.

(** X25. The contacts handler searches with the words of the message
    that have more than two characters, put in lower case: every such
    word, standing between white space or at an end of the message, is
    a search term, and a term has no white space. When there are terms,
    a card is returned exactly for the persons in whose names, phone
    numbers or addresses, joined by a space and put in lower case, one
    of the terms occurs; a message with short words only gets the card
    of every person. The card holds the first name of the person, or
    "Unknown", with all the numbers and addresses, and [total_count]
    counts all the connections, kept or not. *)
Theorem contacts_search (env : Env) (connections : list Connection)
    (message token : string) :
  credentials_valid env token = true ->
  (exists service, google_api env token (ApiBuild "people" "v1") = Ok service) ->
  let search_terms :=
    map PyStr.lower
      (List.filter (fun word => Nat.ltb 2 (String.length word))
         (words message)) in
  let text_of (values : list (option string)) :=
    PyStr.lower (join_with " " (map (default EmptyString) values)) in
  let card_of (person : Connection) :=
    mkContactCard
      (match cn_names person with
       | first :: _ => default "Unknown" first
       | [] => "Unknown"
       end)
      (map (default EmptyString) (cn_phones person))
      (map (default EmptyString) (cn_emails person)) in
  (forall pre word post,
      message = String.append pre (String.append word post) ->
      PyStr.ends_outside PyStr.is_space pre = false ->
      PyStr.starts_outside PyStr.is_space post = false ->
      PyStr.all_chars (fun c => negb (PyStr.is_space c)) word = true ->
      (2 < String.length word)%nat ->
      In (PyStr.lower word) search_terms)
  /\ List.Forall
       (fun term =>
          (2 < String.length term)%nat /\ PyStr.is_lowered term = true
          /\ PyStr.all_chars (fun c => negb (PyStr.is_space c)) term = true)
       search_terms
  /\ exists contacts,
       handle_google_contacts env (Ok connections) message token
       = ContactsFound contacts search_terms (length connections)
       /\ (search_terms = [] -> contacts = map card_of connections)
       /\ (search_terms <> [] ->
           forall card,
             In card contacts <->
             exists person term,
               In person connections
               /\ In term search_terms
               /\ PyStr.contains term (text_of (cn_names person))
                  || PyStr.contains term (text_of (cn_phones person))
                  || PyStr.contains term (text_of (cn_emails person)) = true
               /\ card = card_of person).
Proof.
  intros Hv [service Hb] search_terms text_of card_of.
  split; [|split].
  - intros pre word post -> Hpre Hpost Hword Hlen. subst search_terms.
    apply List.in_map. apply List.filter_In. split.
    + apply words_complete; try assumption.
      destruct word; [cbn in Hlen; lia|reflexivity].
    + apply Nat.ltb_lt. exact Hlen.
  - exact (contact_search_terms_long message).
  - unfold handle_google_contacts. rewrite Hv, Hb. cbn [negb].
    fold search_terms.
    change (contact_search_terms message) with search_terms.
    eexists. split; [reflexivity|]. split.
    + intros Ht. rewrite Ht, filter_no_terms. reflexivity.
    + intros Hne card. rewrite List.in_map_iff. split.
      * intros (person & Hc & Hin). apply List.filter_In in Hin as [Hin Hm].
        unfold person_matches in Hm.
        destruct search_terms as [|t0 terms] eqn:Et; [contradiction|].
        apply List.existsb_exists in Hm as (term & Hterm & Hm).
        exists person, term.
        split; [exact Hin|]. split; [exact Hterm|].
        split; [exact Hm|symmetry; exact Hc].
      * intros (person & term & Hin & Hterm & Hm & Hc). exists person.
        split; [symmetry; exact Hc|]. apply List.filter_In.
        split; [exact Hin|]. unfold person_matches.
        destruct search_terms as [|t0 terms] eqn:Et; [contradiction|].
        apply List.existsb_exists. exists term. split; [exact Hterm|exact Hm].
Qed.

(** X26. The tasks handler reads the first task list only. An answer
    without [items] gives an empty list of tasks, but an answer whose
    [items] is empty gives an error result, "list index out of range",
    with no list of tasks; the handler itself never raises. *)
Theorem tasks_first_list_only (env : Env)
    (tasks_of : string -> outcome (option (list PyVal)))
    (message token : string) :
  credentials_valid env token = true ->
  (exists service, google_api env token (ApiBuild "tasks" "v1") = Ok service) ->
  handle_google_tasks env (Ok None) tasks_of message token
  = Ok {[ "tasks" := VList [] ]}
  /\ (exists result,
         handle_google_tasks env (Ok (Some [])) tasks_of message token
         = Ok result
         /\ result !! "error" = Some (VStr "list index out of range")
         /\ result !! "tasks" = None)
  /\ (forall first rest,
         handle_google_tasks env (Ok (Some (first :: rest))) tasks_of message
           token
         = handle_google_tasks env (Ok (Some [first])) tasks_of message token)
  /\ (forall tasklists,
         exists result,
           handle_google_tasks env tasklists tasks_of message token
           = Ok result).
Proof.
  intros Hv [service Hb]. unfold handle_google_tasks. rewrite Hv, Hb.
  cbn [negb obind]. split; [reflexivity|].
  split. { eexists. split; [reflexivity|]. split; reflexivity. }
  split; [reflexivity|].
  intros [[items|]|e]; cbn [obind catch]; eauto.
  destruct items as [|[id|] rest]; cbn [obind catch]; eauto.
  destruct (tasks_of id); cbn [obind catch]; eauto.
Qed.

(** X27. For a question about the latest mail the handler shows the
    first message of the inbox: at most 203 characters of its snippet (a
    snippet of up to 200 characters whole, a longer one cut to its first
    200 characters and three dots), the value of the first header named
    [Subject] or "No Subject" without one, and the count of the messages
    listed. *)
Theorem gmail_latest_mail (env : Env) (id : string)
    (rest : list (option string))
    (get_message : string -> outcome MailMessage)
    (recent : outcome (list (option string)))
    (message token : string) (msg : MailMessage)
    (headers : list (string * string)) :
  credentials_valid env token = true ->
  (exists service, google_api env token (ApiBuild "gmail" "v1") = Ok service) ->
  asks_latest_mail message = true ->
  get_message id = Ok msg ->
  mm_payload msg = Some headers ->
  exists subject sender date snippet,
    handle_google_gmail env (Ok (Some id :: rest)) get_message recent message
      token
    = GmailLatest subject sender date snippet (S (length rest))
    /\ (String.length snippet <= 203)%nat
    /\ ((String.length (default EmptyString (mm_snippet msg)) <= 200)%nat ->
        snippet = default EmptyString (mm_snippet msg))
    /\ ((200 < String.length (default EmptyString (mm_snippet msg)))%nat ->
        snippet
        = String.append (str_take 200 (default EmptyString (mm_snippet msg)))
            "...")
    /\ (forall pre value post,
           headers = pre ++ ("Subject", value) :: post ->
           (forall v, ~ In ("Subject", v) pre) ->
           subject = value)
    /\ ((forall value, ~ In ("Subject", value) headers) ->
        subject = "No Subject").
Proof.
  intros Hv [service Hb] Hq Hg Hp. unfold handle_google_gmail.
  rewrite Hv, Hb, Hq, Hg, Hp. cbn [negb]. eexists _, _, _, _.
  split; [reflexivity|].
  split; [apply shown_snippet_bound|].
  split; [apply shown_snippet_short|].
  split.
  { intros H. unfold shown_snippet. apply Nat.ltb_lt in H. rewrite H.
    reflexivity. }
  split; [|apply header_value_missing].
  intros pre value post -> Hpre. apply header_value_first, Hpre.
Qed.

Section FormTitle.

Import PyStr.

Lemma map_chars_append (f : ascii -> ascii) (s t : string) :
  map_chars f (String.append s t)
  = String.append (map_chars f s) (map_chars f t).
Proof.
  induction s as [|c s IH]; [reflexivity|].
  rewrite append_cons. cbn [map_chars]. rewrite append_cons, IH. reflexivity.
Qed.

Lemma lower_form (before after : string) :
  contains "for"
    (lower (String.append before (String.append "form" after))) = true.
Proof.
  unfold lower. rewrite map_chars_append. apply contains_append_r.
  rewrite map_chars_append. reflexivity.
Qed.

End FormTitle.

(** X28. A message that says "form" holds the marker "for", the first
    one tried: when that is where "for" first occurs, and nothing after
    it holds "for", the title is made of the "m" of "form" and of what
    follows it, whatever the message says the form is called or is
    about. *)
Theorem form_title_cut_at_for (before after : string) :
  PyStr.contains "for" (String.append before "fo") = false ->
  PyStr.contains "for" after = false ->
  forms_title (String.append before (String.append "form" after))
  = PyStr.title (PyStr.strip (String.append "m" after)).
Proof.
  intros Hb Ha. unfold forms_title. rewrite lower_form.
  unfold title_after, PyStr.split.
  change (String.append "form" after)
    with (String.append (String.append "fo" (String "r" EmptyString))
            (String.append "m" after)).
  rewrite (split_go_first "fo" "r" before (String.append "m" after) _ Hb).
  rewrite split_go_without; [reflexivity|]. exact Ha.
Qed.

(** X29. Deleting calendar events tries every event that the search
    with the message as query returns: a deletion that fails is passed
    over and the following ones are still made; the result reports the
    count of the deletions that went through, which is at most the count
    of the events found; only a failure of the search gives an error
    result. *)
Theorem calendar_delete_counts (search : string -> outcome (list string))
    (delete : string -> outcome unit) (message : string) :
  (forall e,
      search message = Raise e ->
      handle_calendar_delete search delete message = Ok (error_result e))
  /\ (forall events,
         search message = Ok events ->
         exists deleted,
           handle_calendar_delete search delete message
           = Ok (list_to_map
                   [ ("action", VStr "delete_events");
                     ("result",
                      VStr (PyStr.join [ "Deleted "; str_of_nat deleted;
                                         " event(s)" ]));
                     ("search_query", VStr message) ])
           /\ deleted
              = length (List.filter
                          (fun event_id =>
                             match delete event_id with
                             | Ok _ => true
                             | Raise _ => false
                             end) events)
           /\ (deleted <= length events)%nat).
Proof.
  split.
  - intros e He. unfold handle_calendar_delete. rewrite He. reflexivity.
  - intros events He. unfold handle_calendar_delete. rewrite He.
    cbn [obind catch]. eexists. split; [reflexivity|].
    split; [apply delete_events_count|].
    rewrite delete_events_count. apply List.filter_length_le.
Qed.

(** X30. Image processing never raises and every result has the action
    [image_processed]. A result without an error carries the same
    sample text as the text extracted, whatever the image and the
    message; a file that cannot be opened as an image gives an error
    result with the text of the exception and no extracted text. *)
Theorem image_text_is_sample (open_image : string -> outcome unit)
    (upload : string -> string -> outcome unit)
    (message image_data token : string) :
  exists result,
    Images.handle_image_processing open_image upload message image_data token
    = Ok result
    /\ result !! "action" = Some (VStr "image_processed")
    /\ (result !! "error" = None ->
        result !! "extracted_text"
        = Some (VStr "Sample extracted text from image"))
    /\ (forall e,
           open_image image_data = Raise e ->
           result !! "error" = Some (VStr (str_of_exn e))
           /\ result !! "extracted_text" = None).
Proof.
  unfold Images.handle_image_processing.
  destruct (open_image image_data) as [u|e] eqn:Ho; cbn [obind catch].
  - destruct (PyStr.contains "drive" (PyStr.lower message)
              || PyStr.contains "save" (PyStr.lower message)).
    + destruct (upload token Images.extracted_text) as [v|e];
        cbn [obind catch]; eexists; (split; [reflexivity|]);
        (split; [reflexivity|]); (split; [|discriminate]).
      * intros _. reflexivity.
      * intros H. exfalso. destruct e as [cls msg]. vm_compute in H.
        discriminate.
    + destruct (PyStr.contains "sheet" (PyStr.lower message)
                || PyStr.contains "spreadsheet" (PyStr.lower message));
        [|destruct (PyStr.contains "doc" (PyStr.lower message)
                    || PyStr.contains "document" (PyStr.lower message))];
        eexists; (split; [reflexivity|]); (split; [reflexivity|]);
        (split; [|discriminate]); intros _; reflexivity.
  - eexists. split; [reflexivity|]. split; [reflexivity|].
    split.
    + intros H. exfalso. destruct e as [cls msg]. vm_compute in H.
      discriminate.
    + intros e' He. inversion He; subst. split; reflexivity.
Qed.

(** ** Instances of the further properties *)

Lemma generate_stops_at_done_witness :
  http_post_generate env_ollama_streams "hi"
  = PostResponse 200 (Ok EmptyString)
      ([LineJson (Some "Hel") false; LineEmpty]
         ++ LineJson (Some "lo") true :: [LineJson (Some "!") false])
      None
  /\ forallb (fun line => negb (is_done_line line))
       [LineJson (Some "Hel") false; LineEmpty] = true
  /\ OllamaService.generate env_ollama_streams "hi" = ["Hel"; "lo"].
Proof.
  split; [reflexivity|]. split; [reflexivity|].
  exact (generate_stops_at_done env_ollama_streams "hi" (Ok EmptyString)
           [LineJson (Some "Hel") false; LineEmpty]
           [LineJson (Some "!") false] (Some "lo") None eq_refl eq_refl).
Defined.

Lemma generate_reports_faults_in_band_witness :
  http_post_generate env_ollama_flaky "hi" = PostRaise refused
  /\ exists fragment,
       OllamaService.generate env_ollama_flaky "hi" = [fragment]
       /\ PyStr.startswith "Error: " fragment = true.
Proof.
  split; [reflexivity|].
  exact (proj1 (generate_reports_faults_in_band env_ollama_flaky "hi")
           refused eq_refl).
Defined.

Lemma ensure_ollama_ready_gives_up_early_witness :
  OllamaManager.answers (OllamaManager.probe slow_host 0) = false
  /\ OllamaManager.which slow_host = Ok 0
  /\ OllamaManager.popen slow_host = Ok tt
  /\ OllamaManager.answers (OllamaManager.probe slow_host 1) = false
  /\ OllamaManager.answers (OllamaManager.probe slow_host 2) = true
  /\ OllamaManager.ensure_ollama_ready slow_host (OllamaManager.mkClock 0 0)
     = (false, OllamaManager.mkClock 2 2).
Proof.
  do 5 (split; [reflexivity|]).
  exact (ensure_ollama_ready_gives_up_early slow_host
           (OllamaManager.mkClock 0 0) eq_refl eq_refl eq_refl eq_refl).
Defined.

Lemma tagged_model_always_pulled_witness :
  PyStr.contains ":" "llama2:7b" = true
  /\ snd (OllamaManager.ensure_model_exists "llama2:7b"
            (Ok (200, Ok [Some "llama2:7b"])) (Ok tt)) = true.
Proof.
  split; [reflexivity|].
  exact (tagged_model_always_pulled "llama2:7b" [Some "llama2:7b"] (Ok tt)
           eq_refl).
Defined.

Lemma init_services_guard_witness :
  fst (Services.init_services formatter_fails Services.unset)
  = Raise (Exn OtherError "template directory not found")
  /\ Services.new_intent_classifier formatter_fails = Ok tt
  /\ Services.init_services all_construct
       (snd (Services.init_services formatter_fails Services.unset))
     = (Ok tt, Services.mkGlobals true true false false false)
  /\ Services.ready
       (snd (Services.init_services formatter_fails Services.unset)) = false.
Proof.
  split; [reflexivity|]. split; [reflexivity|].
  exact (proj2 (init_services_guard formatter_fails all_construct) _
           eq_refl eq_refl).
Defined.

Lemma list_window_weekday_witness :
  In "Monday" day_tokens
  /\ exists days_ahead,
       1 <= days_ahead <= 7
       /\ list_window monday_morning "Monday"
          = (day_start (add_days days_ahead monday_morning),
             day_end (add_days days_ahead monday_morning))
       /\ weekday (fst (list_window monday_morning "Monday")) = 0.
Proof.
  split; [left; reflexivity|].
  exact (list_window_weekday monday_morning "Monday" (or_introl eq_refl)).
Defined.

Lemma month_range_listed_as_upcoming_witness :
  In (calendar_time_range "what is planned in march") month_tokens
  /\ list_window monday_morning
       (calendar_time_range "what is planned in march")
     = (monday_morning, add_days 30 monday_morning).
Proof.
  assert (H : In (calendar_time_range "what is planned in march") month_tokens).
  { right. right. left. reflexivity. }
  split; [exact H|].
  exact (proj1 (month_range_listed_as_upcoming monday_morning
                  "what is planned in march" H)).
Defined.

Lemma handle_chat_keeps_classification_witness :
  request_json (chat_request "check my mail" (Some "token"))
  = Ok (mkChatData (Some "u1") (Some "s1") (Some "check my mail")
          (Some "token"))
  /\ PyStr.truthy "check my mail" = true
  /\ classify (env_google "gmail" true (Raise refused)) "check my mail"
     = Ok (mkIntent "google" (Some "gmail"))
  /\ exists s,
       sessions
         (snd (handle_chat (env_google "gmail" true (Raise refused))
                 (chat_request "check my mail" (Some "token")) empty_world))
       !! "u1_s1" = Some s
       /\ state s !! "intent_classification"
          = Some (mkIntent "google" (Some "gmail")).
Proof.
  do 3 (split; [reflexivity|]).
  destruct (handle_chat_keeps_classification
              (env_google "gmail" true (Raise refused))
              (chat_request "check my mail" (Some "token"))
              (mkChatData (Some "u1") (Some "s1") (Some "check my mail")
                 (Some "token"))
              (mkIntent "google" (Some "gmail")) empty_world
              eq_refl eq_refl eq_refl) as (s & Hs & Hi & _).
  exists s. split; [exact Hs|exact Hi].
Defined.

Lemma handle_chat_preserves_sessions_witness :
  sessions world_with_session !! "u9_s9"
  = Some (mkSession ∅ (mkDateTime 738000 0))
  /\ exists s',
       sessions
         (snd (handle_chat (env_google "gmail" true (Raise refused))
                 (chat_request "check my mail" (Some "token"))
                 world_with_session))
       !! "u9_s9" = Some s'
       /\ created_at s' = mkDateTime 738000 0.
Proof.
  split; [reflexivity|].
  destruct (handle_chat_preserves_sessions
              (env_google "gmail" true (Raise refused))
              (chat_request "check my mail" (Some "token"))
              world_with_session "u9_s9"
              (mkSession ∅ (mkDateTime 738000 0)) eq_refl)
    as (s' & Hs & Hc & _).
  exists s'. split; [exact Hs|exact Hc].
Defined.

Lemma handle_chat_without_message_witness :
  request_json silent_request
  = Ok (mkChatData (Some "u1") (Some "s1") None None)
  /\ PyStr.truthy EmptyString = false
  /\ format_response env_ollama_down "Please provide a message." "system"
     = Ok "Please provide a message."
  /\ snd (handle_chat env_ollama_down silent_request empty_world)
     = snd (ensure_session env_ollama_down "u1" "s1" empty_world)
  /\ fst (handle_chat env_ollama_down silent_request empty_world)
     = Ok (plain_response "Please provide a message." "system").
Proof.
  do 3 (split; [reflexivity|]).
  destruct (handle_chat_without_message env_ollama_down silent_request
              (mkChatData (Some "u1") (Some "s1") None None) empty_world
              eq_refl eq_refl) as (Hw & _ & Hr).
  split; [exact Hw|exact (Hr _ eq_refl)].
Defined.

Lemma handle_chat_unregistered_service_witness :
  request_json (chat_request "find a route" (Some "token"))
  = Ok (mkChatData (Some "u1") (Some "s1") (Some "find a route")
          (Some "token"))
  /\ PyStr.truthy "find a route" = true
  /\ classify (env_google "maps" true (Ok ∅)) "find a route"
     = Ok (mkIntent "google" (Some "maps"))
  /\ supplied (Some "token") = Some "token"
  /\ ~ In "maps" registered_services
  /\ fst (handle_chat (env_google "maps" true (Ok ∅))
            (chat_request "find a route" (Some "token")) empty_world)
     = Ok (plain_response "Maps service is not yet implemented."
             "google_maps").
Proof.
  do 4 (split; [reflexivity|]).
  assert (H : ~ In "maps" registered_services).
  { intros H. cbn in H. intuition discriminate. }
  split; [exact H|].
  exact (proj2 (handle_chat_unregistered_service
                  (env_google "maps" true (Ok ∅))
                  (chat_request "find a route" (Some "token"))
                  (mkChatData (Some "u1") (Some "s1") (Some "find a route")
                     (Some "token"))
                  (mkIntent "google" (Some "maps")) "maps" "token" empty_world
                  eq_refl eq_refl eq_refl eq_refl eq_refl eq_refl H)
           _ eq_refl).
Defined.

Lemma response_sources_witness :
  fst (handle_chat (env_google "gmail" true (Raise refused))
         (chat_request "check my mail" (Some "token")) empty_world)
  = Ok (plain_response "An error occurred while accessing Gmail."
          "google_gmail")
  /\ exists text source,
       plain_response "An error occurred while accessing Gmail." "google_gmail"
       !! "response" = Some (VStr text)
       /\ plain_response "An error occurred while accessing Gmail."
            "google_gmail" !! "source" = Some (VStr source)
       /\ chat_source source.
Proof.
  split; [reflexivity|].
  exact (proj1 (response_sources (env_google "gmail" true (Raise refused))
                  (chat_request "check my mail" (Some "token")) empty_world)
           _ eq_refl).
Defined.

Lemma sms_recipient_falls_back_witness :
  parse_sms_command (env_google "sms" true (Ok ∅))
    "Text Mom saying I'll be late" = Ok (mkCommandInfo None None None)
  /\ scheduled (mkCommandInfo None None None) = None
  /\ is_text_saying "Text Mom saying I'll be late" = true
  /\ sms_extract "Text Mom saying I'll be late" = Some ("mom", "i'll be late")
  /\ search_contacts (env_google "sms" true (Ok ∅)) "token" "mom" = Ok []
  /\ exists r,
       handle_sms (env_google "sms" true (Ok ∅))
         "Text Mom saying I'll be late" "token" = Ok r
       /\ r !! "recipient" = Some (VStr "mom")
       /\ r !! "contact_name" = Some (VStr "mom").
Proof.
  do 5 (split; [reflexivity|]).
  destruct (sms_recipient_falls_back (env_google "sms" true (Ok ∅))
              "Text Mom saying I'll be late" "token"
              (mkCommandInfo None None None) "mom" "i'll be late"
              eq_refl eq_refl eq_refl eq_refl)
    as (r & recipient & contact_name & Hr & Hrec & Hcn & _ & Hfb).
  destruct (Hfb (or_intror eq_refl)) as [Hx Hy].
  exists r. split; [exact Hr|].
  split; [rewrite <- Hx; exact Hrec|rewrite <- Hy; exact Hcn].
Defined.

Lemma sms_schedule_numeric_recipient_witness :
  parse_sms_command (sms_env (Ok birthday_command) (Ok "Scheduled."))
    "text 5550100 happy birthday tomorrow at 9" = Ok birthday_command
  /\ scheduled birthday_command = Some (VStr "tomorrow 09:00")
  /\ ci_recipient birthday_command = Some "5550100"
  /\ PyStr.isdigit "5550100" = true
  /\ schedule_sms (sms_env (Ok birthday_command) (Ok "Scheduled."))
       "5550100" "happy birthday" (VStr "tomorrow 09:00") = Ok "Scheduled."
  /\ exists r,
       handle_sms (sms_env (Ok birthday_command) (Ok "Scheduled."))
         "text 5550100 happy birthday tomorrow at 9" "token" = Ok r
       /\ r !! "recipient" = Some (VStr "5550100")
       /\ r !! "contact_name" = Some (VStr "5550100")
       /\ r !! "instruction" = Some (VStr "SCHEDULE_SMS")
       /\ r !! "response" = Some (VStr "Scheduled.").
Proof.
  do 5 (split; [reflexivity|]).
  exact (sms_schedule_numeric_recipient
           (sms_env (Ok birthday_command) (Ok "Scheduled."))
           "text 5550100 happy birthday tomorrow at 9" "token"
           birthday_command (VStr "tomorrow 09:00") "5550100" "Scheduled."
           eq_refl eq_refl eq_refl eq_refl eq_refl).
Defined.

Lemma handle_sms_result_shape_witness :
  handle_sms (sms_env (Raise refused) (Ok "Scheduled.")) "text mom" "token"
  = Ok (<["action" := VStr "send_sms"]> (error_result refused))
  /\ exists r,
       handle_sms (sms_env (Raise refused) (Ok "Scheduled.")) "text mom"
         "token" = Ok r
       /\ is_Some (r !! "error")
       /\ r !! "action" = Some (VStr "send_sms")
       /\ r !! "instruction" = None.
Proof.
  assert (Hk : handle_sms (sms_env (Raise refused) (Ok "Scheduled."))
                 "text mom" "token"
               = Ok (<["action" := VStr "send_sms"]> (error_result refused)))
    by reflexivity.
  split; [exact Hk|].
  destruct (handle_sms_result_shape (sms_env (Raise refused) (Ok "Scheduled."))
              "text mom" "token") as (r & Hr & _ & _ & He).
  exists r. split; [exact Hr|].
  assert (Hs : is_Some (r !! "error")).
  { rewrite Hk in Hr. injection Hr as <-. eexists. reflexivity. }
  split; [exact Hs|exact (He Hs)].
Defined.

Lemma capitalised_marker_gives_default_witness :
  PyStr.contains "about" "Create a doc About cats" = false
  /\ first_in ["about"; "called"; "titled"]
       (PyStr.lower "Create a doc About cats") = Some "about"
  /\ docs_title "Create a doc About cats" = "New Document".
Proof.
  split; [reflexivity|]. split; [reflexivity|].
  exact (proj1 (capitalised_marker_gives_default "Create a doc About cats"
                  "about" eq_refl) eq_refl).
Defined.

Lemma contacts_search_witness :
  credentials_valid (env_google "contacts" true (Ok ∅)) "token" = true
  /\ (exists service,
         google_api (env_google "contacts" true (Ok ∅)) "token"
           (ApiBuild "people" "v1") = Ok service)
  /\ In "alice" ["find"; "alice"; "please"]
  /\ exists contacts,
       handle_google_contacts (env_google "contacts" true (Ok ∅))
         (Ok two_connections) "Find Alice please" "token"
       = ContactsFound contacts ["find"; "alice"; "please"] 2
       /\ In (mkContactCard "Alice Smith" ["555-0100"] ["alice@example.com"])
            contacts
       /\ ~ In (mkContactCard "Bob Jones" [] [EmptyString]) contacts.
Proof.
  split; [reflexivity|]. split; [exists ∅; reflexivity|].
  split; [right; left; reflexivity|].
  destruct (proj2 (proj2
              (contacts_search (env_google "contacts" true (Ok ∅))
                 two_connections "Find Alice please" "token" eq_refl
                 (ex_intro _ ∅ eq_refl))))
    as (contacts & Heq & _ & Hiff).
  exists contacts. split; [exact Heq|].
  assert (Hne : ["find"; "alice"; "please"] <> @nil string) by discriminate.
  split.
  - apply (Hiff Hne).
    exists (mkConnection [Some "Alice Smith"] [Some "555-0100"]
              [Some "alice@example.com"]), "alice".
    split; [left; reflexivity|]. split; [right; left; reflexivity|].
    split; reflexivity.
  - intros Hin. apply (Hiff Hne) in Hin
      as (person & term & Hp & Ht & Hm & Hc).
    destruct Hp as [<-|[<-|[]]]; [discriminate Hc|].
    destruct Ht as [<-|[<-|[<-|[]]]]; discriminate Hm.
Defined.

Lemma tasks_first_list_only_witness :
  credentials_valid (env_google "tasks" true (Ok ∅)) "token" = true
  /\ (exists service,
         google_api (env_google "tasks" true (Ok ∅)) "token"
           (ApiBuild "tasks" "v1") = Ok service)
  /\ exists result,
       handle_google_tasks (env_google "tasks" true (Ok ∅)) (Ok (Some []))
         (fun _ => Ok None) "show my tasks" "token" = Ok result
       /\ result !! "error" = Some (VStr "list index out of range")
       /\ result !! "tasks" = None.
Proof.
  split; [reflexivity|]. split; [exists ∅; reflexivity|].
  exact (proj1 (proj2 (tasks_first_list_only
                         (env_google "tasks" true (Ok ∅))
                         (fun _ => Ok None) "show my tasks" "token" eq_refl
                         (ex_intro _ ∅ eq_refl)))).
Defined.

Lemma gmail_latest_mail_witness :
  credentials_valid (env_google "gmail" true (Ok ∅)) "token" = true
  /\ (exists service,
         google_api (env_google "gmail" true (Ok ∅)) "token"
           (ApiBuild "gmail" "v1") = Ok service)
  /\ asks_latest_mail "show my latest email" = true
  /\ mm_payload lunch_mail
     = Some [("From", "alice@example.com"); ("Subject", "Lunch");
             ("Subject", "Dinner")]
  /\ exists subject sender date snippet,
       handle_google_gmail (env_google "gmail" true (Ok ∅))
         (Ok [Some "m1"; Some "m2"]) (fun _ => Ok lunch_mail) (Ok [])
         "show my latest email" "token"
       = GmailLatest subject sender date snippet 2
       /\ subject = "Lunch"
       /\ snippet = "See you at noon".
Proof.
  split; [reflexivity|]. split; [exists ∅; reflexivity|].
  split; [reflexivity|]. split; [reflexivity|].
  destruct (gmail_latest_mail (env_google "gmail" true (Ok ∅)) "m1"
              [Some "m2"] (fun _ => Ok lunch_mail) (Ok [])
              "show my latest email" "token" lunch_mail
              [("From", "alice@example.com"); ("Subject", "Lunch");
               ("Subject", "Dinner")]
              eq_refl (ex_intro _ ∅ eq_refl) eq_refl eq_refl eq_refl)
    as (subject & sender & date & snippet & Heq & _ & Hshort & _ & Hfirst & _).
  exists subject, sender, date, snippet.
  split; [exact Heq|]. split.
  - apply (Hfirst [("From", "alice@example.com")] "Lunch"
             [("Subject", "Dinner")] eq_refl).
    intros v [H|[]]. discriminate H.
  - apply Hshort. cbn. lia.
Defined.

Lemma form_title_cut_at_for_witness :
  PyStr.contains "for" (String.append "create a " "fo") = false
  /\ PyStr.contains "for" " called Pets" = false
  /\ forms_title "create a form called Pets" = "M Called Pets".
Proof.
  split; [reflexivity|]. split; [reflexivity|].
  exact (form_title_cut_at_for "create a " " called Pets" eq_refl eq_refl).
Defined.

Lemma calendar_delete_counts_witness :
  standup_events "cancel standup" = Ok ["e1"; "e2"; "e3"]
  /\ exists deleted,
       handle_calendar_delete standup_events (delete_but "e2") "cancel standup"
       = Ok (list_to_map
               [ ("action", VStr "delete_events");
                 ("result",
                  VStr (PyStr.join [ "Deleted "; str_of_nat deleted;
                                     " event(s)" ]));
                 ("search_query", VStr "cancel standup") ])
       /\ deleted = 2%nat
       /\ (deleted <= 3)%nat.
Proof.
  split; [reflexivity|].
  exact (proj2 (calendar_delete_counts standup_events (delete_but "e2") "cancel standup")
           ["e1"; "e2"; "e3"] eq_refl).
Defined.

Lemma image_text_is_sample_witness :
  open_fails "GIF89a" = Raise not_an_image
  /\ exists result,
       Images.handle_image_processing open_fails (fun _ _ => Ok tt) "save this to drive" "GIF89a" "token" = Ok result
       /\ result !! "action" = Some (VStr "image_processed")
       /\ result !! "error" = Some (VStr "cannot identify image file")
       /\ result !! "extracted_text" = None.
Proof.
  split; [reflexivity|].
  destruct (image_text_is_sample open_fails (fun _ _ => Ok tt) "save this to drive" "GIF89a" "token")
    as (result & Hr & Ha & _ & He).
  exists result. split; [exact Hr|]. split; [exact Ha|].
  exact (He not_an_image eq_refl).
Defined.
